(** * energia_monitoring: the duplicate resolver, the quality validator and
      the series query layer, embedded from the Python sources.

    Sources embedded here:
    - [src/core/duplicate_handler.py]  (class [DuplicateHandler])
    - [src/core/data_validator.py]     (class [DataValidator])
    - [src/data_handler.py]            (class [DataHandler])

    Modelling conventions.
    - A pandas [DataFrame] is a list of column names and a list of rows; a row
      carries its index label and one cell per column.
    - Python and numpy floats are exact rationals ([Qc]) extended with the two
      infinities and NaN; rounding is not modelled.
    - A pandas [Timestamp] is its integer number of nanoseconds since the
      epoch; [NaT], [NaN] and [None] cells are the one null cell.
    - A Python exception is the [Err] branch of [Result].
    - [print] and [logger] calls produce no value and are left out. *)

From Stdlib Require Import ZArith QArith Qcanon Lia Lqa String List.
From stdpp Require Import base decidable option list numbers strings.

Open Scope string_scope.
Open Scope list_scope.
Open Scope Z_scope.

(** ** Python: exceptions and fallible computations *)

Module Py.

Inductive Exn :=
| KeyError (key : string)
| TypeError
| ValueError
| AttributeError
| ZeroDivisionError
| DanglingReference.

Inductive Result (A : Type) :=
| Ok (a : A)
| Err (e : Exn).
Arguments Ok {A} a.
Arguments Err {A} e.

Definition bind {A B} (m : Result A) (f : A -> Result B) : Result B :=
  match m with
  | Ok a => f a
  | Err e => Err e
  end.

Fixpoint mapM {A B} (f : A -> Result B) (l : list A) : Result (list B) :=
  match l with
  | [] => Ok []
  | x :: l' =>
      bind (f x) (fun y => bind (mapM f l') (fun ys => Ok (y :: ys)))
  end.

#[global] Instance Result_ret : MRet Result := @Ok.
#[global] Instance Result_bind : MBind Result :=
  fun A B f m => bind m f.

End Py.

(** ** Calendar arithmetic

    Proleptic Gregorian calendar, as [datetime] and [Timestamp] use it.
    Days are counted from 1970-01-01. *)

Module Calendar.

Definition ns_per_second : Z := 1000000000.
Definition ns_per_minute : Z := 60 * ns_per_second.
Definition ns_per_hour : Z := 3600 * ns_per_second.
Definition ns_per_day : Z := 86400 * ns_per_second.

(** A Python [date]. *)
Record date := mk_date { year : Z; month : Z; day : Z }.

Definition days_from_civil (y m d : Z) : Z :=
  let y' := if m <=? 2 then y - 1 else y in
  let era := y' / 400 in
  let yoe := y' - era * 400 in
  let mp := (m + 9) mod 12 in
  let doy := (153 * mp + 2) / 5 + d - 1 in
  let doe := yoe * 365 + yoe / 4 - yoe / 100 + doy in
  era * 146097 + doe - 719468.

Definition civil_from_days (z : Z) : date :=
  let z' := z + 719468 in
  let era := z' / 146097 in
  let doe := z' - era * 146097 in
  let yoe := (doe - doe / 1460 + doe / 36524 - doe / 146096) / 365 in
  let doy := doe - (365 * yoe + yoe / 4 - yoe / 100) in
  let mp := (5 * doy + 2) / 153 in
  let d := doy - (153 * mp + 2) / 5 + 1 in
  let m := if mp <? 10 then mp + 3 else mp - 9 in
  let y := yoe + era * 400 in
  mk_date (if m <=? 2 then y + 1 else y) m d.

(** [Timestamp(y, m, d, hh, mi, ss)] in nanoseconds. *)
Definition timestamp (y m d hh mi ss : Z) : Z :=
  days_from_civil y m d * ns_per_day
  + hh * ns_per_hour + mi * ns_per_minute + ss * ns_per_second.

(** [datetime.combine(d, time.min)]: midnight of the day. *)
Definition combine_min (d : date) : Z :=
  days_from_civil (year d) (month d) (day d) * ns_per_day.

(** [datetime.combine(d, time.max)]: 23:59:59.999999 of the day. *)
Definition combine_max (d : date) : Z :=
  days_from_civil (year d) (month d) (day d) * ns_per_day
  + ns_per_day - 1000.

(** The calendar date of a timestamp ([Timestamp.date()]). *)
Definition date_of (t : Z) : date := civil_from_days (t / ns_per_day).

(** [Timestamp.month]. *)
Definition month_of (t : Z) : Z := month (date_of t).

(** Months numbered consecutively: [12 * year + (month - 1)]. *)
Definition month_ordinal (t : Z) : Z :=
  12 * year (date_of t) + (month (date_of t) - 1).

(** Midnight of the first day of the month with the given ordinal. *)
Definition month_start (k : Z) : Z :=
  days_from_civil (k / 12) (k mod 12 + 1) 1 * ns_per_day.

End Calendar.

(** ** Floats without rounding *)

Module Float.

Inductive float :=
| Fin (q : Qc)
| PInf
| NInf
| NaN.

#[global] Instance float_eq_dec : EqDecision float.
Proof. solve_decision. Defined.

Definition of_Z (z : Z) : float := Fin (Q2Qc (inject_Z z)).

Definition zero : float := of_Z 0.

(** Sign of a rational: -1, 0 or 1. *)
Definition sgn (q : Qc) : Z := Z.sgn (Qnum (this q)).

Definition add (a b : float) : float :=
  match a, b with
  | NaN, _ | _, NaN => NaN
  | PInf, NInf | NInf, PInf => NaN
  | PInf, _ | _, PInf => PInf
  | NInf, _ | _, NInf => NInf
  | Fin x, Fin y => Fin (x + y)%Qc
  end.

Definition neg (a : float) : float :=
  match a with
  | Fin x => Fin (- x)%Qc
  | PInf => NInf
  | NInf => PInf
  | NaN => NaN
  end.

Definition signed_inf (s : Z) : float :=
  match s with
  | Z0 => NaN
  | Zpos _ => PInf
  | Zneg _ => NInf
  end.

Definition sign (a : float) : Z :=
  match a with
  | Fin x => sgn x
  | PInf => 1
  | NInf => -1
  | NaN => 0
  end.

Definition mul (a b : float) : float :=
  match a, b with
  | NaN, _ | _, NaN => NaN
  | Fin x, Fin y => Fin (x * y)%Qc
  | _, _ => signed_inf (sign a * sign b)
  end.

(** numpy division: a zero divisor gives an infinity or NaN, no exception. *)
Definition div (a b : float) : float :=
  match a, b with
  | NaN, _ | _, NaN => NaN
  | Fin x, Fin y =>
      if decide (y = 0%Qc) then signed_inf (sgn x) else Fin (x / y)%Qc
  | Fin _, _ => zero
  | _, Fin y => signed_inf (sign a * (if decide (y = 0%Qc) then 1 else sgn y))
  | _, _ => NaN
  end.

Definition ltb (a b : float) : bool :=
  match a, b with
  | NaN, _ | _, NaN => false
  | Fin x, Fin y => bool_decide (x < y)%Qc
  | NInf, NInf | PInf, _ | Fin _, NInf => false
  | NInf, _ | Fin _, PInf => true
  end.

Definition leb (a b : float) : bool :=
  match a, b with
  | NaN, _ | _, NaN => false
  | Fin x, Fin y => bool_decide (x <= y)%Qc
  | NInf, _ | _, PInf => true
  | _, _ => false
  end.

Definition eqb (a b : float) : bool :=
  match a, b with
  | NaN, _ | _, NaN => false
  | _, _ => bool_decide (a = b)
  end.

Definition isnan (a : float) : bool :=
  match a with NaN => true | _ => false end.

(** [Series.sum()]: NaN entries are skipped, the empty sum is 0. *)
Definition sum (l : list float) : float :=
  foldr add zero (filter (fun a => isnan a = false) l).

(** [Series.mean()]: NaN entries are skipped, the mean of nothing is NaN. *)
Definition mean (l : list float) : float :=
  let l' := filter (fun a => isnan a = false) l in
  match l' with
  | [] => NaN
  | _ => div (foldr add zero l') (of_Z (Z.of_nat (length l')))
  end.





End Float.

(** ** pandas: the part of the library the sources call *)

Module pandas.
Import Py Float.

(** What a frame holds in one place: a string, a timestamp, a float
    (possibly NaN), or the null of a string or timestamp column ([None],
    [NaT]). *)
Inductive Cell :=
| CStr (s : string)
| CTime (t : Z)
| CFloat (x : float)
| CNull.

#[global] Instance Cell_eq_dec : EqDecision Cell.
Proof. solve_decision. Defined.

Record Row := mk_row { label : Z; cells : list Cell }.

#[global] Instance Row_eq_dec : EqDecision Row.
Proof. solve_decision. Defined.

Record DataFrame := mk_df { columns : list string; rows : list Row }.

#[global] Instance DataFrame_eq_dec : EqDecision DataFrame.
Proof. solve_decision. Defined.

(** [len(df)]. *)
Definition len (df : DataFrame) : Z := Z.of_nat (length (rows df)).

(** [df.empty]: true when either axis has length 0. *)
Definition empty (df : DataFrame) : bool :=
  match columns df, rows df with
  | [], _ | _, [] => true
  | _, _ => false
  end.

(** Position of a column name among the columns. *)
Fixpoint index_of (c : string) (cols : list string) : option nat :=
  match cols with
  | [] => None
  | c' :: cols' =>
      if decide (c = c') then Some 0%nat else S <$> index_of c cols'
  end.

(** The cell of a row under a column; a missing cell reads as null.  A
    name is looked up as the first column that bears it: the frames of the
    sources have distinct column names. *)
Definition cell (cols : list string) (c : string) (r : Row) : Cell :=
  match index_of c cols with
  | Some i => default CNull (cells r !! i)
  | None => CNull
  end.

(** [df[c]]: the values of a column, [KeyError] when there is none. *)
Definition getitem (df : DataFrame) (c : string) : Result (list Cell) :=
  if decide (c ∈ columns df) then Ok (map (cell (columns df) c) (rows df))
  else Err (KeyError c).

(** A cell read as a timestamp: [None] is [NaT]; strings and floats do not
    take part in timestamp arithmetic or comparison. *)
Definition to_time (c : Cell) : Result (option Z) :=
  match c with
  | CTime t => Ok (Some t)
  | CNull => Ok None
  | _ => Err TypeError
  end.

(** A cell read as a number: a null is NaN. *)
Definition to_float (c : Cell) : Result float :=
  match c with
  | CFloat x => Ok x
  | CNull => Ok NaN
  | _ => Err TypeError
  end.

(** [isna]. *)
Definition isna (c : Cell) : bool :=
  match c with
  | CNull | CFloat NaN => true
  | _ => false
  end.

(** [(col_a - col_b)]: timedeltas in nanoseconds, [NaT] where either side
    is. *)
Definition sub_times (a b : list Cell) : Result (list (option Z)) :=
  mapM (fun '(x, y) =>
          tx ← to_time x;
          ty ← to_time y;
          Ok (tx' ← tx; ty' ← ty; Some (tx' - ty')))
       (zip a b).

(** [.dt.total_seconds()]. *)
Definition total_seconds (d : option Z) : float :=
  match d with
  | Some ns => div (of_Z ns) (of_Z Calendar.ns_per_second)
  | None => NaN
  end.

(** Number of true entries of a boolean column. *)
Definition count_true (l : list bool) : Z :=
  Z.of_nat (length (filter (fun b => b = true) l)).

(** The values of a row under the given columns, compared by
    [duplicated]. *)
Definition row_key (cols : list string) (subset : list string) (r : Row)
  : list Cell :=
  map (fun c => cell cols c r) subset.

(** [self[mask]]: the rows whose mask entry is true. *)
Fixpoint mask_select {A} (mask : list bool) (l : list A) : list A :=
  match mask, l with
  | b :: mask', x :: l' =>
      if b then x :: mask_select mask' l' else mask_select mask' l'
  | _, _ => []
  end.

Section Duplicated.
Context {K : Type} `{EqDecision K}.

(** [keep='first']: an entry is a duplicate when its key occurred before. *)
Fixpoint duplicated_first (seen : list K) (keys : list K) : list bool :=
  match keys with
  | [] => []
  | k :: ks =>
      if bool_decide (k ∈ seen) then true :: duplicated_first seen ks
      else false :: duplicated_first (k :: seen) ks
  end.

(** [keep='last']: an entry is a duplicate when its key occurs again. *)
Fixpoint duplicated_last (keys : list K) : list bool :=
  match keys with
  | [] => []
  | k :: ks => bool_decide (k ∈ ks) :: duplicated_last ks
  end.

(** [duplicated(keys, keep)]; any other [keep] string is a [ValueError]. *)
Definition duplicated (keys : list K) (keep : string) : Result (list bool) :=
  if decide (keep = "first") then Ok (duplicated_first [] keys)
  else if decide (keep = "last") then Ok (duplicated_last keys)
  else Err ValueError.

(** The entries [self[-duplicated]] retains, by recursion on the entries
    themselves; [key] maps an entry to what is compared. *)
Fixpoint keep_first {A} (key : A -> K) (seen : list K) (l : list A) : list A :=
  match l with
  | [] => []
  | x :: l' =>
      if decide (key x ∈ seen) then keep_first key seen l'
      else x :: keep_first key (key x :: seen) l'
  end.

Fixpoint keep_last {A} (key : A -> K) (l : list A) : list A :=
  match l with
  | [] => []
  | x :: l' =>
      if decide (key x ∈ map key l') then keep_last key l'
      else x :: keep_last key l'
  end.

End Duplicated.

(** [df.drop_duplicates(subset=subset, keep=keep)].  An empty frame is
    copied as it is; a subset column that the frame lacks is a [KeyError];
    the surviving rows keep their labels and their order. *)
Definition drop_duplicates (df : DataFrame) (subset : option (list string))
    (keep : string) : Result DataFrame :=
  if empty df then Ok df
  else
    let subset := default (columns df) subset in
    match filter (fun c => c ∉ columns df) subset with
    | c :: _ => Err (KeyError c)
    | [] =>
        mask ← duplicated (map (row_key (columns df) subset) (rows df)) keep;
        Ok (mk_df (columns df) (mask_select (map negb mask) (rows df)))
    end.

(** The frame [drop_duplicates] returns when it returns one. *)
Definition retained {A} (keep : string) (key : A -> list Cell) (l : list A)
  : list A :=
  if decide (keep = "first") then keep_first key [] l else keep_last key l.

Definition deduplicated (df : DataFrame) (subset : list string) (keep : string)
  : DataFrame :=
  if empty df then df
  else mk_df (columns df)
             (retained keep (row_key (columns df) subset) (rows df)).

(** A frame after [set_index(c)]: the column [c] has left the columns and
    labels the rows. *)
Record IndexedFrame := mk_indexed {
  index_name : string;
  ix_columns : list string;
  ix_rows : list (Cell * list Cell)
}.

Definition set_index (df : DataFrame) (c : string) : Result IndexedFrame :=
  match index_of c (columns df) with
  | Some i =>
      Ok (mk_indexed c (delete i (columns df))
            (map (fun r => (default CNull (cells r !! i), delete i (cells r)))
                 (rows df)))
  | None => Err (KeyError c)
  end.

(** [reset_index()]: the index comes back as the first column and the rows
    are labelled 0, 1, 2, ... *)
Definition reset_index (f : IndexedFrame) : DataFrame :=
  mk_df (index_name f :: ix_columns f)
        (imap (fun i '(ix, cs) => mk_row (Z.of_nat i) (ix :: cs)) (ix_rows f)).

(** The frequency strings the sources pass to [resample]. *)
Inductive Rule := R15T | RH | RD | RWMON | RMS.

Definition to_offset (rule : string) : Result Rule :=
  if decide (rule = "15T") then Ok R15T
  else if decide (rule = "H") then Ok RH
  else if decide (rule = "D") then Ok RD
  else if decide (rule = "W-MON") then Ok RWMON
  else if decide (rule = "MS") then Ok RMS
  else Err ValueError.

(** The number of the bin a timestamp falls in.  Quarter hours, hours and
    days are counted from the epoch, months as [12 * year + month - 1];
    a week ends with its Monday and is counted by that Monday. *)
Definition bin_of (rule : Rule) (t : Z) : Z :=
  match rule with
  | R15T => t / (15 * Calendar.ns_per_minute)
  | RH => t / Calendar.ns_per_hour
  | RD => t / Calendar.ns_per_day
  | RWMON => (t / Calendar.ns_per_day + 2) / 7
  | RMS => Calendar.month_ordinal t
  end.

(** The timestamp that labels a bin. *)
Definition bin_label (rule : Rule) (k : Z) : Z :=
  match rule with
  | R15T => k * (15 * Calendar.ns_per_minute)
  | RH => k * Calendar.ns_per_hour
  | RD => k * Calendar.ns_per_day
  | RWMON => (7 * k + 4) * Calendar.ns_per_day
  | RMS => Calendar.month_start k
  end.

(** [series.resample(rule).sum()] on a series with a timestamp index: one
    entry for every bin from the bin of the earliest timestamp to the bin
    of the latest, in ascending order; a bin's value is the sum of the
    values whose timestamp falls in it, 0 for a bin with none. *)
Definition resample_sum (rule : Rule) (s : list (Z * float))
  : list (Z * float) :=
  match map (fun p => bin_of rule p.1) s with
  | [] => []
  | k :: ks =>
      let lo := foldr Z.min k ks in
      let hi := foldr Z.max k ks in
      map (fun b =>
             (bin_label rule b,
              sum (map snd (filter (fun p => bin_of rule p.1 = b) s))))
          (seqZ lo (hi - lo + 1))
  end.

End pandas.

(** ** src/core/duplicate_handler.py *)

Module duplicate_handler.
Import Py Float pandas.

Record DuplicationStats := mk_stats {
  initial_count : Z;
  final_count : Z;
  full_row_duplicates : Z;
  content_duplicates : Z;
  overlap_duplicates : Z;
  removed_total : Z;
  retention_rate : float
}.

(** A reference to a [DataFrame] object. *)
Definition loc := nat.

(** The objects the handler works on: the frames that exist, and the
    handler's [last_stats] attribute. *)
Record World := mk_world {
  heap : list DataFrame;
  last_stats : option DuplicationStats
}.

(** Computations that read and extend the world and may raise. *)
Definition M (A : Type) : Type := World -> Result (A * World).

#[global] Instance M_ret : MRet M := fun A a w => Ok (a, w).
#[global] Instance M_bind : MBind M := fun A B f m w =>
  match m w with
  | Ok (a, w') => f a w'
  | Err e => Err e
  end.

Definition lift {A} (r : Result A) : M A := fun w =>
  match r with
  | Ok a => Ok (a, w)
  | Err e => Err e
  end.

Definition deref (l : loc) : M DataFrame := fun w =>
  match heap w !! l with
  | Some df => Ok (df, w)
  | None => Err DanglingReference
  end.

(** A new frame object: nothing that exists is changed. *)
Definition alloc (df : DataFrame) : M loc := fun w =>
  Ok (length (heap w), mk_world (heap w ++ [df]) (last_stats w)).

Definition set_last_stats (s : DuplicationStats) : M unit := fun w =>
  Ok (tt, mk_world (heap w) (Some s)).

Definition duplicate_columns : list string :=
  ["Gyariszam"; "Azonosito"; "Kezdo_datum"; "Zaro_datum"].

Definition _remove_full_duplicates (df : loc) : M loc :=
  d ← deref df;
  d_clean ← lift (drop_duplicates d None "first");
  df_clean ← alloc d_clean;
  mret df_clean.

Definition _remove_time_based_duplicates (df : loc) (keep_strategy : string)
  : M (loc * Z) :=
  d ← deref df;
  let before_count := len d in
  let missing_columns :=
    filter (fun col => col ∉ columns d) duplicate_columns in
  match missing_columns with
  | _ :: _ => mret (df, 0)
  | [] =>
      d_clean ← lift (drop_duplicates d (Some duplicate_columns) keep_strategy);
      df_clean ← alloc d_clean;
      let after_count := len d_clean in
      let content_removed := before_count - after_count in
      mret (df_clean, content_removed)
  end.

Definition _update_statistics (initial final full_removed content_removed : Z)
  : M unit :=
  let total_removed := initial - final in
  let retention_rate :=
    if 0 <? initial then mul (div (of_Z final) (of_Z initial)) (of_Z 100)
    else of_Z 0 in
  set_last_stats
    {| initial_count := initial;
       final_count := final;
       full_row_duplicates := full_removed;
       content_duplicates := content_removed;
       overlap_duplicates := 0;
       removed_total := total_removed;
       retention_rate := retention_rate |}.

(** [detailed_logging] only switches printing. *)
Definition remove_duplicates (df : loc) (keep_strategy : string)
    (detailed_logging : bool) : M loc :=
  d ← deref df;
  let initial_count := len d in
  df_clean ← _remove_full_duplicates df;
  d_clean ← deref df_clean;
  let after_full_dedup := len d_clean in
  let full_duplicates_removed := initial_count - after_full_dedup in
  '(df_clean, content_duplicates_removed) ←
    _remove_time_based_duplicates df_clean keep_strategy;
  d_clean ← deref df_clean;
  let final_count := len d_clean in
  _ ← _update_statistics initial_count final_count full_duplicates_removed
        content_duplicates_removed;
  mret df_clean.

(** The frame [remove_duplicates] arrives at: the full-row pass, then the
    interval-key pass when the four key columns are there. *)
Definition resolved (df : DataFrame) (keep_strategy : string) : DataFrame :=
  let df_clean := deduplicated df (columns df) "first" in
  if decide (duplicate_columns ⊆ columns df_clean)
  then deduplicated df_clean duplicate_columns keep_strategy
  else df_clean.

(** The frame of [test_emergency_fix_algorithm]. *)
Definition kwh (thousandths : Z) : Cell :=
  CFloat (Fin (Q2Qc (thousandths # 1000))).

Definition df_test : DataFrame :=
  mk_df
    ["Gyariszam"; "Azonosito"; "Kezdo_datum"; "Zaro_datum"; "Hatasos_ertek_kWh"]
    [ mk_row 0 [CStr "123"; CStr "A1";
                CTime (Calendar.timestamp 2025 5 22 0 0 0);
                CTime (Calendar.timestamp 2025 5 22 0 15 0); kwh 0];
      mk_row 1 [CStr "123"; CStr "A1";
                CTime (Calendar.timestamp 2025 5 22 0 0 0);
                CTime (Calendar.timestamp 2025 5 22 0 15 0); kwh 150];
      mk_row 2 [CStr "123"; CStr "A1";
                CTime (Calendar.timestamp 2025 5 22 0 15 0);
                CTime (Calendar.timestamp 2025 5 22 0 30 0); kwh 160];
      mk_row 3 [CStr "123"; CStr "A2";
                CTime (Calendar.timestamp 2025 5 22 0 0 0);
                CTime (Calendar.timestamp 2025 5 22 0 15 0); kwh 140] ].

(** *** The other methods of [DuplicateHandler] *)

(** The four texts [health_status] can hold. *)
Inductive HealthLabel :=
| Egeszseges
| GyanusAlacsony
| GyanusMagas
| NormalisTartomany.

(** The two texts [warnings] can hold. *)
Inductive Warning := AtlagAlatt | AtlagFelett.

Record ValidationReport := mk_validation {
  v_total_records : Z;
  v_negative_consumption : Z;
  v_zero_consumption : Z;
  v_extreme_high_consumption : Z;
  v_date_range_start : option Z;
  v_date_range_end : option Z;
  v_total_days : option Z;
  v_avg_hourly_consumption : float;
  v_avg_daily_consumption : float;
  v_health_status : HealthLabel;
  v_warnings : list Warning
}.

(** The handler with its second attribute, [last_validation]. *)
Record Handler := mk_handler {
  objects : World;
  last_validation : option ValidationReport
}.

(** Earliest and latest timestamp of a column, [NaT] skipped. *)
Definition column_min (l : list (option Z)) : option Z :=
  foldr (fun x acc =>
           match x, acc with
           | Some t, Some a => Some (Z.min t a)
           | Some t, None => Some t
           | None, _ => acc
           end) None l.

Definition column_max (l : list (option Z)) : option Z :=
  foldr (fun x acc =>
           match x, acc with
           | Some t, Some a => Some (Z.max t a)
           | Some t, None => Some t
           | None, _ => acc
           end) None l.

(** The figures [validate_data_quality] computes from a frame.  The copy
    [df_copy] with its two derived columns does not leave the function. *)
Definition quality_report (df : DataFrame) : Result ValidationReport :=
  let total_records := len df in
  kwh_cells ← getitem df "Hatasos_ertek_kWh";
  kwh ← mapM to_float kwh_cells;
  let negative_consumption := count_true (map (fun e => ltb e zero) kwh) in
  let zero_consumption := count_true (map (fun e => eqb e zero) kwh) in
  zaro ← getitem df "Zaro_datum";
  kezdo ← getitem df "Kezdo_datum";
  delta ← sub_times zaro kezdo;
  let Intervallum_ora :=
    map (fun d => div (total_seconds d) (of_Z 3600)) delta in
  let Orankenti_fogyasztas :=
    map (fun '(e, h) => div e h) (zip kwh Intervallum_ora) in
  let extreme_high :=
    count_true (map (fun x => ltb (of_Z 50) x) Orankenti_fogyasztas) in
  starts ← mapM to_time kezdo;
  ends ← mapM to_time zaro;
  let date_start := column_min starts in
  let date_end := column_max ends in
  let total_days :=
    e ← date_end; s ← date_start;
    Some ((e - s) / Calendar.ns_per_day + 1) in
  let avg_hourly := mean Orankenti_fogyasztas in
  let avg_daily := mul avg_hourly (of_Z 24) in
  let '(health_status, warnings) :=
    if ltb avg_daily (of_Z 2) then (GyanusAlacsony, [AtlagAlatt])
    else if ltb (of_Z 100) avg_daily then (GyanusMagas, [AtlagFelett])
    else if leb (of_Z 2) avg_daily && leb avg_daily (of_Z 50)
         then (NormalisTartomany, [])
    else (Egeszseges, []) in
  Ok {| v_total_records := total_records;
        v_negative_consumption := negative_consumption;
        v_zero_consumption := zero_consumption;
        v_extreme_high_consumption := extreme_high;
        v_date_range_start := date_start;
        v_date_range_end := date_end;
        v_total_days := total_days;
        v_avg_hourly_consumption := avg_hourly;
        v_avg_daily_consumption := avg_daily;
        v_health_status := health_status;
        v_warnings := warnings |}.

Definition validate_data_quality (df : loc) (self : Handler)
  : Result (ValidationReport * Handler) :=
  match heap (objects self) !! df with
  | None => Err DanglingReference
  | Some d =>
      report ← quality_report d;
      Ok (report, mk_handler (objects self) (Some report))
  end.

Definition get_validation_report (self : Handler) : option ValidationReport :=
  last_validation self.

Definition get_duplication_statistics (self : Handler)
  : option DuplicationStats :=
  last_stats (objects self).

(** The dictionary [analyze_interval_distribution] returns. *)
Definition analyze_interval_distribution (df : DataFrame)
  : Result (list (string * Z)) :=
  zaro ← getitem df "Zaro_datum";
  kezdo ← getitem df "Kezdo_datum";
  delta ← sub_times zaro kezdo;
  let Intervallum_perc :=
    map (fun d => div (total_seconds d) (of_Z 60)) delta in
  let interval_15min :=
    count_true (map (fun p => leb (of_Z 14) p && leb p (of_Z 16))
                    Intervallum_perc) in
  let interval_60min :=
    count_true (map (fun p => leb (of_Z 55) p && leb p (of_Z 65))
                    Intervallum_perc) in
  let interval_daily :=
    count_true (map (fun p => leb (of_Z 1400) p && leb p (of_Z 1500))
                    Intervallum_perc) in
  let interval_other :=
    len df - interval_15min - interval_60min - interval_daily in
  Ok [("15min", interval_15min);
      ("60min", interval_60min);
      ("24hour", interval_daily);
      ("other", interval_other)].

(** [quick_duplicate_removal]: a handler of its own works on the frames
    that exist; the frames afterwards and the cleaned frame are returned. *)
Definition quick_duplicate_removal (df : loc) (keep : string) (validate : bool)
    (frames : list DataFrame) : Result (loc * list DataFrame) :=
  let handler := mk_handler (mk_world frames None) None in
  match remove_duplicates df keep true (objects handler) with
  | Err e => Err e
  | Ok (df_clean, w) =>
      let handler := mk_handler w (last_validation handler) in
      if validate then
        '(_, handler) ← validate_data_quality df_clean handler;
        Ok (df_clean, heap (objects handler))
      else Ok (df_clean, heap (objects handler))
  end.

(** A frame without the [Zaro_datum] column. *)
Definition df_no_end : DataFrame :=
  mk_df ["Gyariszam"; "Azonosito"; "Kezdo_datum"; "Hatasos_ertek_kWh"]
    [ mk_row 0 [CStr "123"; CStr "A1";
                CTime (Calendar.timestamp 2025 5 22 0 0 0); kwh 0];
      mk_row 1 [CStr "123"; CStr "A1";
                CTime (Calendar.timestamp 2025 5 22 0 0 0); kwh 150] ].

End duplicate_handler.

(** ** src/core/data_validator.py *)

Module data_validator.
Import Py Float pandas.

Inductive HealthStatus := HEALTHY | WARNING | CRITICAL | UNKNOWN.

Inductive SeasonType := WINTER | SPRING | SUMMER | AUTUMN.

#[global] Instance HealthStatus_eq_dec : EqDecision HealthStatus.
Proof. solve_decision. Defined.

#[global] Instance SeasonType_eq_dec : EqDecision SeasonType.
Proof. solve_decision. Defined.

Record ConsumptionBounds := mk_bounds {
  min_daily_kwh : float;
  max_daily_kwh : float;
  expected_hourly_kwh : float;
  season : SeasonType
}.

(** The values a [details] dictionary holds. *)
Inductive Detail :=
| DInt (n : Z)
| DFloat (x : float)
| DSeason (s : SeasonType).

(** The message templates, with the values they interpolate. *)
Inductive Message :=
| MsgNoMissing
| MsgMissing (total : Z)
| MsgNegative (count : Z)
| MsgZero (count : Z) (percentage : float)
| MsgIntervalsOk (percentage : float)
| MsgIntervalsUnusual (percentage : float)
| MsgSeasonOk (s : SeasonType)
| MsgSeasonBelow (s : SeasonType)
| MsgSeasonAbove (s : SeasonType).

Record ValidationResult := mk_result {
  is_valid : bool;
  severity : HealthStatus;
  message : Message;
  details : list (string * Detail)
}.

(** The dictionary [_extract_basic_statistics] returns.  Its [df_work]
    entry is the input with the two derived columns added; they are kept
    here as the columns themselves. *)
Record BasicStats := mk_basic {
  total_records : Z;
  date_start : option Z;
  date_end : option Z;
  total_days : option Z;
  total_consumption : float;
  avg_hourly : float;
  avg_daily : float;
  negative_count : Z;
  zero_count : Z;
  extreme_count : Z;
  Intervallum_ora : list float;
  Orankenti_fogyasztas : list float;
  df_work : DataFrame
}.

Record ComprehensiveReport := mk_report {
  r_total_records : Z;
  r_date_range_start : option Z;
  r_date_range_end : option Z;
  r_total_days : option Z;
  r_total_consumption_kwh : float;
  r_avg_daily_consumption : float;
  r_avg_hourly_consumption : float;
  r_negative_values : Z;
  r_zero_values : Z;
  r_extreme_values : Z;
  r_missing_data_periods : Z;
  r_dominant_season : SeasonType;
  r_seasonal_breakdown : SeasonType -> float;
  r_validation_results : list ValidationResult;
  r_overall_health : HealthStatus;
  r_monthly_estimate_kwh : float;
  r_yearly_estimate_kwh : float;
  r_yearly_cost_estimate_huf : float
}.

Definition dec (n : Z) (d : positive) : float := Fin (Q2Qc (n # d)).

Record DataValidator := mk_validator { electricity_price : float }.

(** [DataValidator()] with the default price, 56.07 Ft/kWh. *)
Definition default_validator : DataValidator := mk_validator (dec 5607 100).

Definition seasonal_bounds (s : SeasonType) : ConsumptionBounds :=
  match s with
  | WINTER => mk_bounds (dec 15 1) (dec 80 1) (dec 15 10) WINTER
  | SPRING => mk_bounds (dec 8 1) (dec 40 1) (dec 8 10) SPRING
  | SUMMER => mk_bounds (dec 3 1) (dec 25 1) (dec 4 10) SUMMER
  | AUTUMN => mk_bounds (dec 10 1) (dec 50 1) (dec 1 1) AUTUMN
  end.

(** Smallest and largest timestamp of a column, [NaT] skipped. *)
Definition time_min (l : list (option Z)) : option Z :=
  foldr (fun x acc =>
           match x, acc with
           | Some t, Some a => Some (Z.min t a)
           | Some t, None => Some t
           | None, _ => acc
           end) None l.

Definition time_max (l : list (option Z)) : option Z :=
  foldr (fun x acc =>
           match x, acc with
           | Some t, Some a => Some (Z.max t a)
           | Some t, None => Some t
           | None, _ => acc
           end) None l.

Definition _extract_basic_statistics (df : DataFrame) : Result BasicStats :=
  zaro ← getitem df "Zaro_datum";
  kezdo ← getitem df "Kezdo_datum";
  delta ← sub_times zaro kezdo;
  let Intervallum_ora :=
    map (fun d => div (total_seconds d) (of_Z 3600)) delta in
  kwh_cells ← getitem df "Hatasos_ertek_kWh";
  kwh ← mapM to_float kwh_cells;
  let Orankenti_fogyasztas :=
    map (fun '(e, h) => div e h) (zip kwh Intervallum_ora) in
  let total_records := len df in
  starts ← mapM to_time kezdo;
  ends ← mapM to_time zaro;
  let date_start := time_min starts in
  let date_end := time_max ends in
  let total_days :=
    e ← date_end; s ← date_start;
    Some ((e - s) / Calendar.ns_per_day + 1) in
  let total_consumption := sum kwh in
  let avg_hourly := mean Orankenti_fogyasztas in
  let avg_daily := mul avg_hourly (of_Z 24) in
  let negative_count := count_true (map (fun e => ltb e zero) kwh) in
  let zero_count := count_true (map (fun e => eqb e zero) kwh) in
  let extreme_count :=
    count_true (map (fun x => ltb (of_Z 50) x) Orankenti_fogyasztas) in
  Ok {| total_records := total_records;
        date_start := date_start;
        date_end := date_end;
        total_days := total_days;
        total_consumption := total_consumption;
        avg_hourly := avg_hourly;
        avg_daily := avg_daily;
        negative_count := negative_count;
        zero_count := zero_count;
        extreme_count := extreme_count;
        Intervallum_ora := Intervallum_ora;
        Orankenti_fogyasztas := Orankenti_fogyasztas;
        df_work := df |}.

Definition _validate_data_completeness (df : DataFrame)
  : Result (list ValidationResult) :=
  kezdo ← getitem df "Kezdo_datum";
  let missing_start_dates := count_true (map isna kezdo) in
  zaro ← getitem df "Zaro_datum";
  let missing_end_dates := count_true (map isna zaro) in
  kwh ← getitem df "Hatasos_ertek_kWh";
  let missing_consumption := count_true (map isna kwh) in
  let total_missing :=
    missing_start_dates + missing_end_dates + missing_consumption in
  if total_missing =? 0 then
    Ok [mk_result true HEALTHY MsgNoMissing [("missing_count", DInt 0)]]
  else
    Ok [mk_result false WARNING (MsgMissing total_missing)
          [("missing_start_dates", DInt missing_start_dates);
           ("missing_end_dates", DInt missing_end_dates);
           ("missing_consumption", DInt missing_consumption)]].

Definition _validate_consumption_values (df : DataFrame)
  : Result (list ValidationResult) :=
  kwh_cells ← getitem df "Hatasos_ertek_kWh";
  kwh ← mapM to_float kwh_cells;
  let negative_count := count_true (map (fun e => ltb e zero) kwh) in
  let results :=
    if 0 <? negative_count then
      [mk_result false WARNING (MsgNegative negative_count)
         [("negative_values", DInt negative_count)]]
    else [] in
  let zero_count := count_true (map (fun e => eqb e zero) kwh) in
  if 0 <? zero_count then
    let zero_percentage :=
      mul (div (of_Z zero_count) (of_Z (len df))) (of_Z 100) in
    let severity :=
      if ltb (of_Z 10) zero_percentage then CRITICAL else WARNING in
    Ok (results ++
        [mk_result (ltb zero_percentage (of_Z 5)) severity
           (MsgZero zero_count zero_percentage)
           [("zero_values", DInt zero_count);
            ("zero_percentage", DFloat zero_percentage)]])%list
  else Ok results.

(** [a / b] on Python integers. *)
Definition int_truediv (a b : Z) : Result float :=
  if b =? 0 then Err ZeroDivisionError else Ok (div (of_Z a) (of_Z b)).

Definition _validate_time_intervals (df : DataFrame)
  : Result (list ValidationResult) :=
  zaro ← getitem df "Zaro_datum";
  kezdo ← getitem df "Kezdo_datum";
  delta ← sub_times zaro kezdo;
  let Intervallum_perc :=
    map (fun d => div (total_seconds d) (of_Z 60)) delta in
  let interval_15min :=
    count_true (map (fun p => leb (of_Z 14) p && leb p (of_Z 16))
                    Intervallum_perc) in
  let interval_60min :=
    count_true (map (fun p => leb (of_Z 55) p && leb p (of_Z 65))
                    Intervallum_perc) in
  let total_standard := interval_15min + interval_60min in
  ratio ← int_truediv total_standard (len df);
  let standard_percentage := mul ratio (of_Z 100) in
  if ltb (of_Z 95) standard_percentage then
    Ok [mk_result true HEALTHY (MsgIntervalsOk standard_percentage)
          [("interval_15min", DInt interval_15min);
           ("interval_60min", DInt interval_60min);
           ("standard_percentage", DFloat standard_percentage)]]
  else
    Ok [mk_result false WARNING (MsgIntervalsUnusual standard_percentage)
          [("interval_15min", DInt interval_15min);
           ("interval_60min", DInt interval_60min);
           ("standard_percentage", DFloat standard_percentage)]].

(** [month] is [None] for the month of [NaT], which is in none of the
    lists. *)
Definition _get_season_for_month (month : option Z) : SeasonType :=
  match month with
  | Some m =>
      if bool_decide (m ∈ [12; 1; 2]) then WINTER
      else if bool_decide (m ∈ [3; 4; 5]) then SPRING
      else if bool_decide (m ∈ [6; 7; 8]) then SUMMER
      else AUTUMN
  | None => AUTUMN
  end.

Definition _get_season_for_period (start_date end_date : option Z)
  : SeasonType :=
  let middle_date := s ← start_date; e ← end_date; Some (s + (e - s) / 2) in
  _get_season_for_month (Calendar.month_of <$> middle_date).

Definition _validate_seasonal_patterns (df : DataFrame)
    (basic_stats : BasicStats) : Result (list ValidationResult) :=
  let avg_daily := avg_daily basic_stats in
  let date_start := date_start basic_stats in
  let date_end := date_end basic_stats in
  let dominant_season := _get_season_for_period date_start date_end in
  let expected_bounds := seasonal_bounds dominant_season in
  let details :=
    [("avg_daily", DFloat avg_daily);
     ("season", DSeason dominant_season);
     ("expected_min", DFloat (min_daily_kwh expected_bounds));
     ("expected_max", DFloat (max_daily_kwh expected_bounds))] in
  if leb (min_daily_kwh expected_bounds) avg_daily
     && leb avg_daily (max_daily_kwh expected_bounds) then
    Ok [mk_result true HEALTHY (MsgSeasonOk dominant_season) details]
  else if ltb avg_daily (min_daily_kwh expected_bounds) then
    Ok [mk_result false WARNING (MsgSeasonBelow dominant_season) details]
  else
    Ok [mk_result false WARNING (MsgSeasonAbove dominant_season) details].

(** [groupby("Month")[...].sum()] visits the months that occur, in
    ascending order; each adds its sum to the total of its season. *)
Definition _analyze_seasonal_consumption (df : DataFrame)
    (basic_stats : BasicStats) : Result (SeasonType -> float) :=
  kezdo ← getitem (df_work basic_stats) "Kezdo_datum";
  starts ← mapM to_time kezdo;
  let Month := map (fun t : option Z => Calendar.month_of <$> t) starts in
  kwh_cells ← getitem (df_work basic_stats) "Hatasos_ertek_kWh";
  kwh ← mapM to_float kwh_cells;
  let months := filter (fun m => Some m ∈ Month) (seqZ 1 12) in
  let monthly_consumption :=
    map (fun m =>
           (m, sum (map snd (filter (fun p => p.1 = Some m) (zip Month kwh)))))
        months in
  Ok (foldl (fun (seasonal_totals : SeasonType -> float) (item : Z * float) =>
               let season := _get_season_for_month (Some item.1) in
               fun s => if decide (s = season)
                        then add (seasonal_totals s) item.2
                        else seasonal_totals s)
            (fun _ => zero) monthly_consumption).

(** [max(keys, key=...)]: the first season, in the order of the
    enumeration, that no later one exceeds. *)
Definition _determine_dominant_season (seasonal_breakdown : SeasonType -> float)
  : SeasonType :=
  foldl (fun best s =>
           if ltb (seasonal_breakdown best) (seasonal_breakdown s)
           then s else best)
        WINTER [SPRING; SUMMER; AUTUMN].

Definition _calculate_overall_health (validation_results : list ValidationResult)
  : HealthStatus :=
  match validation_results with
  | [] => UNKNOWN
  | _ =>
      let severities := map severity validation_results in
      if bool_decide (CRITICAL ∈ severities) then CRITICAL
      else if bool_decide (WARNING ∈ severities) then WARNING
      else HEALTHY
  end.

Definition _calculate_consumption_estimates (self : DataValidator)
    (basic_stats : BasicStats) : float * float * float :=
  let avg_daily := avg_daily basic_stats in
  let monthly_estimate := mul avg_daily (of_Z 30) in
  let yearly_estimate := mul avg_daily (of_Z 365) in
  let yearly_cost := mul yearly_estimate (electricity_price self) in
  (monthly_estimate, yearly_estimate, yearly_cost).

Definition validate_comprehensive (self : DataValidator) (df : DataFrame)
  : Result ComprehensiveReport :=
  basic_stats ← _extract_basic_statistics df;
  r1 ← _validate_data_completeness df;
  r2 ← _validate_consumption_values df;
  r3 ← _validate_time_intervals df;
  r4 ← _validate_seasonal_patterns df basic_stats;
  let validation_results := (r1 ++ r2 ++ r3 ++ r4)%list in
  seasonal_breakdown ← _analyze_seasonal_consumption df basic_stats;
  let dominant_season := _determine_dominant_season seasonal_breakdown in
  let overall_health := _calculate_overall_health validation_results in
  let '(monthly, yearly, yearly_cost) :=
    _calculate_consumption_estimates self basic_stats in
  Ok {| r_total_records := total_records basic_stats;
        r_date_range_start := date_start basic_stats;
        r_date_range_end := date_end basic_stats;
        r_total_days := total_days basic_stats;
        r_total_consumption_kwh := total_consumption basic_stats;
        r_avg_daily_consumption := avg_daily basic_stats;
        r_avg_hourly_consumption := avg_hourly basic_stats;
        r_negative_values := negative_count basic_stats;
        r_zero_values := zero_count basic_stats;
        r_extreme_values := extreme_count basic_stats;
        r_missing_data_periods := 0;
        r_dominant_season := dominant_season;
        r_seasonal_breakdown := seasonal_breakdown;
        r_validation_results := validation_results;
        r_overall_health := overall_health;
        r_monthly_estimate_kwh := monthly;
        r_yearly_estimate_kwh := yearly;
        r_yearly_cost_estimate_huf := yearly_cost |}.

Definition quick_validate (self : DataValidator) (df : DataFrame)
  : Result HealthStatus :=
  report ← validate_comprehensive self df;
  Ok (r_overall_health report).

(** The three messages of [validate_consumption_bounds]. *)
Inductive BoundsMessage :=
| MsgNormal (s : SeasonType)
| MsgLow (s : SeasonType)
| MsgHigh (s : SeasonType).

(** The [ValidationResult] of [validate_consumption_bounds]. *)
Record BoundsResult := mk_bounds_result {
  b_is_valid : bool;
  b_severity : HealthStatus;
  b_message : BoundsMessage;
  b_details : list (string * Detail)
}.

Definition validate_consumption_bounds (avg_daily : float) (season : SeasonType)
  : BoundsResult :=
  let bounds := seasonal_bounds season in
  let details := [("avg_daily", DFloat avg_daily); ("season", DSeason season)] in
  if leb (min_daily_kwh bounds) avg_daily
     && leb avg_daily (max_daily_kwh bounds) then
    mk_bounds_result true HEALTHY (MsgNormal season) details
  else
    let severity := WARNING in
    if ltb avg_daily (min_daily_kwh bounds) then
      mk_bounds_result false severity (MsgLow season) details
    else
      mk_bounds_result false severity (MsgHigh season) details.

(** *** Vocabulary for statements about whole reports *)

(** Position of a season in the enumeration. *)
Definition season_rank (s : SeasonType) : nat :=
  match s with
  | WINTER => 0
  | SPRING => 1
  | SUMMER => 2
  | AUTUMN => 3
  end.

Definition start_of (cols : list string) (r : Row) : Z :=
  match cell cols "Kezdo_datum" r with CTime t => t | _ => 0 end.

Definition end_of (cols : list string) (r : Row) : Z :=
  match cell cols "Zaro_datum" r with CTime t => t | _ => 0 end.

Definition energy_of (cols : list string) (r : Row) : Qc :=
  match cell cols "Hatasos_ertek_kWh" r with
  | CFloat (Fin e) => e
  | _ => 0%Qc
  end.

(** A row with both ends of its interval and a finite energy. *)
Definition measured (cols : list string) (r : Row) : Prop :=
  cell cols "Kezdo_datum" r = CTime (start_of cols r)
  /\ cell cols "Zaro_datum" r = CTime (end_of cols r)
  /\ cell cols "Hatasos_ertek_kWh" r = CFloat (Fin (energy_of cols r)).

(** A frame the checks can read throughout: the three columns, and every
    row measured. *)
Definition measured_series (df : DataFrame) : Prop :=
  "Kezdo_datum" ∈ columns df
  /\ "Zaro_datum" ∈ columns df
  /\ "Hatasos_ertek_kWh" ∈ columns df
  /\ Forall (measured (columns df)) (rows df).

(** A breakdown with a tie: spring and summer both have the greatest
    total. *)
Definition breakdown_with_tie (s : SeasonType) : float :=
  match s with
  | WINTER => of_Z 10
  | SPRING => of_Z 40
  | SUMMER => of_Z 40
  | AUTUMN => of_Z 5
  end.

(** Numbers of rows with energy 0 and with negative energy. *)
Definition zero_energy_rows (df : DataFrame) : Z :=
  Z.of_nat (length (filter (fun r => energy_of (columns df) r = 0%Qc)
                           (rows df))).

Definition negative_energy_rows (df : DataFrame) : Z :=
  Z.of_nat (length (filter (fun r => (energy_of (columns df) r < 0)%Qc)
                           (rows df))).


(** *** Vocabulary for statements about the interval check *)

(** A cell a timestamp column can hold. *)
Definition timelike (c : Cell) : Prop :=
  match c with
  | CTime _ | CNull => True
  | _ => False
  end.

(** The frame has both interval columns and they hold timestamps. *)
Definition interval_columns (df : DataFrame) : Prop :=
  "Zaro_datum" ∈ columns df
  /\ "Kezdo_datum" ∈ columns df
  /\ Forall (fun r => timelike (cell (columns df) "Zaro_datum" r)
                      /\ timelike (cell (columns df) "Kezdo_datum" r))
            (rows df).

(** Length of a row's interval in nanoseconds, when both ends are known. *)
Definition duration (df : DataFrame) (r : Row) : option Z :=
  match cell (columns df) "Zaro_datum" r, cell (columns df) "Kezdo_datum" r with
  | CTime e, CTime s => Some (e - s)
  | _, _ => None
  end.

Inductive Bucket := Quarter | Hour | Other.

#[global] Instance Bucket_eq_dec : EqDecision Bucket.
Proof. solve_decision. Defined.

(** 15 minutes give or take 1, 60 minutes give or take 5, or neither. *)
Definition bucket (d : option Z) : Bucket :=
  match d with
  | Some ns =>
      if (14 * Calendar.ns_per_minute <=? ns)
         && (ns <=? 16 * Calendar.ns_per_minute) then Quarter
      else if (55 * Calendar.ns_per_minute <=? ns)
              && (ns <=? 65 * Calendar.ns_per_minute) then Hour
      else Other
  | None => Other
  end.

Definition count_bucket (b : Bucket) (df : DataFrame) : Z :=
  Z.of_nat (length (filter (fun r => bucket (duration df r) = b) (rows df))).

(** A day give or take: between 1400 and 1500 minutes. *)
Definition is_daily (d : option Z) : bool :=
  match d with
  | Some ns =>
      (1400 * Calendar.ns_per_minute <=? ns)
      && (ns <=? 1500 * Calendar.ns_per_minute)
  | None => false
  end.

Definition count_daily (df : DataFrame) : Z :=
  Z.of_nat (length (filter (fun r => is_daily (duration df r) = true)
                           (rows df))).

(** Rows in none of the three classes, rows without a duration included. *)
Definition count_unclassified (df : DataFrame) : Z :=
  Z.of_nat (length (filter (fun r => bucket (duration df r) = Other
                                     /\ is_daily (duration df r) = false)
                           (rows df))).

(** A series with its columns and no rows. *)
Definition df_no_rows : DataFrame :=
  mk_df ["Kezdo_datum"; "Zaro_datum"; "Hatasos_ertek_kWh"] [].

(** Twenty rows from 2025-01-01 00:00 on: nineteen quarter hours and one
    half hour. *)
Definition df_19_of_20 : DataFrame :=
  mk_df ["Kezdo_datum"; "Zaro_datum"; "Hatasos_ertek_kWh"]
    (map (fun i =>
            let start := Calendar.timestamp 2025 1 1 0 0 0
                         + i * (15 * Calendar.ns_per_minute) in
            let minutes := if i =? 19 then 30 else 15 in
            mk_row i [CTime start;
                      CTime (start + minutes * Calendar.ns_per_minute);
                      CFloat (dec 1 10)])
         (seqZ 0 20)).

End data_validator.

(** ** src/data_handler.py *)

Module data_handler.
Import Py Float pandas.

Record FilterConfig := mk_config {
  start_date : Calendar.date;
  end_date : Calendar.date;
  interval : string
}.

Definition interval_map (interval : string) : option string :=
  if decide (interval = "15min") then Some "15T"
  else if decide (interval = "hourly") then Some "H"
  else if decide (interval = "daily") then Some "D"
  else if decide (interval = "weekly") then Some "W-MON"
  else if decide (interval = "monthly") then Some "MS"
  else None.

(** [column >= dt] and [column <= dt]: false at [NaT]. *)
Definition ge_datetime (column : list Cell) (dt : Z) : Result (list bool) :=
  mapM (fun c => t ← to_time c;
                 Ok (match t with Some t => dt <=? t | None => false end))
       column.

Definition le_datetime (column : list Cell) (dt : Z) : Result (list bool) :=
  mapM (fun c => t ← to_time c;
                 Ok (match t with Some t => t <=? dt | None => false end))
       column.

(** [filtered_df['Hatasos_ertek_kWh'].resample(rule).sum().reset_index()]. *)
Definition resample_energy (filtered_df : IndexedFrame) (resample_rule : string)
  : Result DataFrame :=
  if decide ("Hatasos_ertek_kWh" ∈ ix_columns filtered_df) then
    rule ← to_offset resample_rule;
    series ← mapM (fun '(ix, cs) =>
                     t ← to_time ix;
                     match t with
                     | Some t =>
                         e ← to_float
                               (cell (ix_columns filtered_df)
                                     "Hatasos_ertek_kWh" (mk_row 0 cs));
                         Ok (t, e)
                     | None => Err TypeError
                     end)
                  (ix_rows filtered_df);
    Ok (reset_index
          (mk_indexed (index_name filtered_df) ["Hatasos_ertek_kWh"]
             (map (fun '(t, e) => (CTime t, [CFloat e]))
                  (resample_sum rule series))))
  else Err (KeyError "Hatasos_ertek_kWh").

Definition filter_data (df : option DataFrame) (config : FilterConfig)
  : Result (option DataFrame) :=
  match df with
  | None => Ok None
  | Some df =>
      if empty df then Ok None
      else
        let start_dt := Calendar.combine_min (start_date config) in
        let end_dt := Calendar.combine_max (end_date config) in
        kezdo ← getitem df "Kezdo_datum";
        lower ← ge_datetime kezdo start_dt;
        kezdo ← getitem df "Kezdo_datum";
        upper ← le_datetime kezdo end_dt;
        let mask := zip_with andb lower upper in
        let filtered_df := mk_df (columns df) (mask_select mask (rows df)) in
        if empty filtered_df then Ok None
        else
          filtered_df ← set_index filtered_df "Kezdo_datum";
          match interval_map (interval config) with
          | Some resample_rule =>
              aggregated_df ← resample_energy filtered_df resample_rule;
              Ok (Some aggregated_df)
          | None => Ok (Some (reset_index filtered_df))
          end
  end.


(** [self.electricity_price], 56.07 Ft/kWh. *)
Definition electricity_price : float := Fin (Q2Qc (5607 # 100)).


(** *** Vocabulary for statements about queries *)

(** What a row of the cleaned file holds: the start of the interval and a
    finite energy. *)
Definition reading (r : Row) : option (Z * Qc) :=
  match cells r with
  | [CTime t; CFloat (Fin e)] => Some (t, e)
  | _ => None
  end.

(** The row with a given label and reading. *)
Definition series_row (x : Z * (Z * Qc)) : Row :=
  mk_row x.1 [CTime x.2.1; CFloat (Fin x.2.2)].

(** The same row once [Kezdo_datum] is the index. *)
Definition indexed_row (x : Z * (Z * Qc)) : Cell * list Cell :=
  (CTime x.2.1, [CFloat (Fin x.2.2)]).

(** The frame [load_data] reads from the cleaned file. *)
Definition canonical_series (df : DataFrame) : Prop :=
  columns df = ["Kezdo_datum"; "Hatasos_ertek_kWh"]
  /\ Forall (fun r => is_Some (reading r)) (rows df).

Definition readings (df : DataFrame) : list (Z * Qc) :=
  omap reading (rows df).

(** The readings the filter lets through. *)
Definition in_range (config : FilterConfig) (s : list (Z * Qc))
  : list (Z * Qc) :=
  filter (fun p => Calendar.combine_min (start_date config) <= p.1
                   <= Calendar.combine_max (end_date config)) s.

(** The readings that start in a given month. *)
Definition of_month (k : Z) (s : list (Z * Qc)) : list (Z * Qc) :=
  filter (fun p => Calendar.month_ordinal p.1 = k) s.

Definition total (s : list (Z * Qc)) : Qc :=
  foldr Qcplus 0%Qc (map snd s).

(** Readings in January and in March 2025, none in February. *)
Definition df_jan_mar : DataFrame :=
  mk_df ["Kezdo_datum"; "Hatasos_ertek_kWh"]
    [ mk_row 0 [CTime (Calendar.timestamp 2025 1 15 10 0 0); CFloat (of_Z 2)];
      mk_row 1 [CTime (Calendar.timestamp 2025 1 16 10 0 0); CFloat (of_Z 3)];
      mk_row 2 [CTime (Calendar.timestamp 2025 3 10 10 0 0); CFloat (of_Z 7)] ].

Definition first_quarter_monthly : FilterConfig :=
  mk_config (Calendar.mk_date 2025 1 1) (Calendar.mk_date 2025 3 31) "monthly".

Definition year_2024_daily : FilterConfig :=
  mk_config (Calendar.mk_date 2024 1 1) (Calendar.mk_date 2024 12 31) "daily".

Definition january_raw : FilterConfig :=
  mk_config (Calendar.mk_date 2025 1 1) (Calendar.mk_date 2025 1 31) "none".

Definition first_quarter_weekly : FilterConfig :=
  mk_config (Calendar.mk_date 2025 1 1) (Calendar.mk_date 2025 3 31) "weekly".

End data_handler.

(** ** src/core/file_processor.py *)

Module file_processor.
Import Py pandas.

Section Reader.

(** What [pd.read_csv(path, sep=";", encoding=enc, ...)] gives for the file
    at hand under each encoding: a frame, or an exception. *)
Variable read_csv : string -> Result DataFrame.

Definition encodings : list string :=
  ["utf-8-sig"; "ISO-8859-2"; "cp1250"; "latin1"].

(** The condition under which a parsed frame is returned. *)
Definition accepted (df : DataFrame) : bool :=
  negb (empty df) && (5 <? Z.of_nat (length (columns df))).

(** The loop over the encodings; an exception moves on to the next one. *)
Fixpoint try_encodings (encs : list string) : option DataFrame :=
  match encs with
  | [] => None
  | enc :: rest =>
      match read_csv enc with
      | Ok df => if accepted df then Some df else try_encodings rest
      | Err _ => try_encodings rest
      end
  end.

Definition load_csv_file : option DataFrame := try_encodings encodings.

End Reader.

(** A file in Latin-2 with six columns: decoding it as UTF-8 raises
    [UnicodeDecodeError], a [ValueError]; the other encodings parse it. *)
Definition df_six_columns : DataFrame :=
  mk_df
    ["Gyariszam"; "Azonosito"; "Kezdo_datum"; "Zaro_datum";
     "Hatasos_ertek_kWh"; "Statusz"]
    [ mk_row 0 [CStr "123"; CStr "A1"; CStr "2025.05.22 00:00";
                CStr "2025.05.22 00:15"; CStr "0,150"; CStr "OK"] ].

Definition read_latin2 (enc : string) : Result DataFrame :=
  if decide (enc = "utf-8-sig") then Err ValueError else Ok df_six_columns.

End file_processor.

(** * Properties *)

(** ** The calendar *)

Section CalendarFacts.
Import Calendar.

Example epoch_is_day_0 : days_from_civil 1970 1 1 = 0.
Proof. reflexivity. Qed.

Example test_day_of_2025_05_22 :
  civil_from_days (days_from_civil 2025 5 22) = mk_date 2025 5 22.
Proof. reflexivity. Qed.

Example leap_day_2024 : civil_from_days 19782 = mk_date 2024 2 29.
Proof. reflexivity. Qed.

Example day_before_epoch : civil_from_days (-1) = mk_date 1969 12 31.
Proof. reflexivity. Qed.

(** From 1900 to 2199 the label of a month lies in that month. *)
Lemma month_start_in_its_month :
  Forall (fun k => month_ordinal (month_start k) = k)
         (seqZ (12 * 1900) (12 * 300)).
Proof. apply (bool_decide_unpack _). vm_compute. exact I. Qed.

(** A day's last instant, as [time.max] has it, is a microsecond before the
    next midnight. *)
Lemma combine_max_before_next_day (d : date) :
  combine_max d < combine_min d + ns_per_day.
Proof. unfold combine_max, combine_min. lia. Qed.

End CalendarFacts.

(** ** Row selection and duplicate marking *)

Section SelectFacts.
Import pandas.
Context {A K : Type} `{EqDecision K} (key : A -> K).

Lemma mask_select_sublist (mask : list bool) (l : list A) :
  mask_select mask l `sublist_of` l.
Proof.
  revert mask. induction l as [|x l IH]; intros [|[] mask]; cbn;
    try apply sublist_nil_l.
  - apply sublist_skip, IH.
  - apply sublist_cons, IH.
Qed.

Lemma mask_select_first (seen : list K) (l : list A) :
  mask_select (map negb (duplicated_first seen (map key l))) l
  = keep_first key seen l.
Proof.
  revert seen. induction l as [|x l IH]; intros seen; [reflexivity|].
  cbn. case_bool_decide; destruct (decide _); cbn; rewrite ?IH; done.
Qed.

Lemma mask_select_last (l : list A) :
  mask_select (map negb (duplicated_last (map key l))) l = keep_last key l.
Proof.
  induction l as [|x l IH]; [reflexivity|].
  cbn. rewrite IH. case_bool_decide; destruct (decide _); cbn; done.
Qed.

Lemma keep_first_sublist (seen : list K) (l : list A) :
  keep_first key seen l `sublist_of` l.
Proof. rewrite <- mask_select_first. apply mask_select_sublist. Qed.

Lemma keep_last_sublist (l : list A) : keep_last key l `sublist_of` l.
Proof. rewrite <- mask_select_last. apply mask_select_sublist. Qed.

Lemma keep_first_fresh (seen : list K) (l : list A) (x : A) :
  x ∈ keep_first key seen l -> key x ∉ seen.
Proof.
  revert seen. induction l as [|y l IH]; intros seen; cbn.
  - intros Hx. inversion Hx.
  - destruct (decide (key y ∈ seen)) as [Hy|Hy]; [apply IH|].
    intros [->|Hx]%elem_of_cons; [exact Hy|].
    apply IH in Hx. intros Hin. apply Hx. right. exact Hin.
Qed.

Lemma keep_first_NoDup (seen : list K) (l : list A) :
  NoDup (map key (keep_first key seen l)).
Proof.
  revert seen. induction l as [|y l IH]; intros seen; cbn.
  - constructor.
  - destruct (decide (key y ∈ seen)) as [Hy|Hy]; [apply IH|].
    cbn. constructor; [|apply IH].
    intros (x & Hk & Hx)%list_elem_of_fmap.
    apply keep_first_fresh in Hx. apply Hx. rewrite <- Hk. left.
Qed.

Lemma keep_last_NoDup (l : list A) : NoDup (map key (keep_last key l)).
Proof.
  induction l as [|y l IH]; cbn; [constructor|].
  destruct (decide (key y ∈ map key l)) as [Hy|Hy]; [exact IH|].
  cbn. constructor; [|exact IH].
  intros Hin. apply Hy.
  eapply elem_of_sublist; [exact Hin|].
  apply (fmap_sublist key), keep_last_sublist.
Qed.

Lemma keep_first_idempotent (seen : list K) (l : list A) :
  keep_first key seen (keep_first key seen l) = keep_first key seen l.
Proof.
  revert seen. induction l as [|y l IH]; intros seen; cbn; [reflexivity|].
  destruct (decide (key y ∈ seen)) as [Hy|Hy]; [apply IH|].
  cbn. destruct (decide (key y ∈ seen)); [contradiction|].
  f_equal. apply IH.
Qed.

End SelectFacts.

(** ** [drop_duplicates] *)

Section DropDuplicatesFacts.
Import Py pandas.

Lemma filter_missing_nil (cols subset : list string) :
  subset ⊆ cols -> filter (fun c => c ∉ cols) subset = [].
Proof.
  induction subset as [|c subset IH]; intros Hsub; [reflexivity|].
  rewrite filter_cons. destruct (decide (c ∉ cols)) as [Hc|_].
  - exfalso. apply Hc, Hsub. left.
  - apply IH. intros x Hx. apply Hsub. right. exact Hx.
Qed.

Lemma filter_missing_cons (cols subset : list string) :
  ¬ subset ⊆ cols -> exists c l, filter (fun c => c ∉ cols) subset = c :: l.
Proof.
  intros Hsub. destruct (filter _ subset) as [|c l] eqn:Hf; [|eauto].
  exfalso. apply Hsub. intros x Hx.
  destruct (decide (x ∈ cols)) as [|Hn]; [assumption|].
  assert (x ∈ filter (fun c => c ∉ cols) subset) as Hin
    by (apply list_elem_of_filter; split; assumption).
  rewrite Hf in Hin. inversion Hin.
Qed.

Lemma drop_duplicates_Ok (df : DataFrame) (subset : option (list string))
    (keep : string) :
  default (columns df) subset ⊆ columns df ->
  keep = "first" \/ keep = "last" ->
  drop_duplicates df subset keep
  = Ok (deduplicated df (default (columns df) subset) keep).
Proof.
  intros Hsub Hkeep. unfold drop_duplicates, deduplicated.
  destruct (empty df); [reflexivity|].
  rewrite (filter_missing_nil _ _ Hsub).
  unfold duplicated, retained.
  destruct Hkeep as [-> | ->].
  - rewrite !decide_True by reflexivity. cbn.
    rewrite mask_select_first. reflexivity.
  - rewrite !(decide_False (P := "last" = "first")) by discriminate.
    rewrite decide_True by reflexivity. cbn.
    rewrite mask_select_last. reflexivity.
Qed.

Lemma deduplicated_columns (df : DataFrame) (subset : list string)
    (keep : string) :
  columns (deduplicated df subset keep) = columns df.
Proof. unfold deduplicated. destruct (empty df); reflexivity. Qed.

Lemma retained_sublist {A} (keep : string) (key : A -> list Cell)
    (l : list A) :
  retained keep key l `sublist_of` l.
Proof.
  unfold retained. destruct (decide _).
  - apply keep_first_sublist.
  - apply keep_last_sublist.
Qed.

Lemma retained_NoDup {A} (keep : string) (key : A -> list Cell) (l : list A) :
  NoDup (map key (retained keep key l)).
Proof.
  unfold retained. destruct (decide _).
  - apply keep_first_NoDup.
  - apply keep_last_NoDup.
Qed.

Lemma deduplicated_sublist (df : DataFrame) (subset : list string)
    (keep : string) :
  rows (deduplicated df subset keep) `sublist_of` rows df.
Proof.
  unfold deduplicated. destruct (empty df); [reflexivity|].
  apply retained_sublist.
Qed.

Lemma empty_rows_nil (df : DataFrame) :
  columns df <> [] -> empty df = true -> rows df = [].
Proof.
  unfold empty. destruct (columns df), (rows df); done.
Qed.

Lemma deduplicated_NoDup (df : DataFrame) (subset : list string)
    (keep : string) :
  columns df <> [] ->
  NoDup (map (row_key (columns df) subset)
             (rows (deduplicated df subset keep))).
Proof.
  intros Hcols. unfold deduplicated. destruct (empty df) eqn:He.
  - rewrite (empty_rows_nil _ Hcols He). constructor.
  - apply retained_NoDup.
Qed.

Lemma deduplicated_idempotent (df : DataFrame) :
  let once := deduplicated df (columns df) "first" in
  deduplicated once (columns once) "first" = once.
Proof.
  cbn. unfold deduplicated at 2 3 4. destruct (empty df) eqn:He.
  - unfold deduplicated. rewrite He. reflexivity.
  - unfold deduplicated, retained. cbn.
    destruct (empty (mk_df _ _)); [reflexivity|].
    cbn. rewrite !decide_True by reflexivity.
    rewrite keep_first_idempotent. reflexivity.
Qed.

End DropDuplicatesFacts.

(** ** The duplicate handler *)

Section HandlerFacts.
Import Py Float pandas duplicate_handler.

Lemma M_bind_Ok {A B} (m : M A) (f : A -> M B) (w w' : World) (a : A) :
  m w = Ok (a, w') -> (m ≫= f) w = f a w'.
Proof. unfold mbind, M_bind. intros ->. reflexivity. Qed.

Lemma deref_Ok (w : World) (l : loc) (d : DataFrame) :
  heap w !! l = Some d -> deref l w = Ok (d, w).
Proof. unfold deref. intros ->. reflexivity. Qed.

Lemma lift_Ok {A} (r : Result A) (a : A) (w : World) :
  r = Ok a -> lift r w = Ok (a, w).
Proof. intros ->. reflexivity. Qed.

Lemma alloc_Ok (d : DataFrame) (w : World) :
  alloc d w = Ok (length (heap w), mk_world (heap w ++ [d]) (last_stats w)).
Proof. reflexivity. Qed.

(** The frame allocated last sits at the old length of the heap. *)
Lemma lookup_alloc (h : list DataFrame) (d : DataFrame) :
  (h ++ [d]) !! length h = Some d.
Proof. apply list_lookup_middle. reflexivity. Qed.

Tactic Notation "run_with" tactic3(tac) :=
  erewrite M_bind_Ok by tac; cbv beta iota.

Lemma _remove_full_duplicates_run (w : World) (l : loc) (d : DataFrame) :
  heap w !! l = Some d ->
  _remove_full_duplicates l w
  = Ok (length (heap w),
        mk_world (heap w ++ [deduplicated d (columns d) "first"])
                 (last_stats w)).
Proof.
  intros Hl. unfold _remove_full_duplicates.
  run_with (apply deref_Ok, Hl).
  run_with (apply lift_Ok, drop_duplicates_Ok; [reflexivity | left; reflexivity]).
  run_with (apply alloc_Ok).
  reflexivity.
Qed.

Lemma _remove_time_based_duplicates_present (w : World) (l : loc)
    (d : DataFrame) (keep : string) :
  heap w !! l = Some d ->
  duplicate_columns ⊆ columns d ->
  keep = "first" \/ keep = "last" ->
  _remove_time_based_duplicates l keep w
  = Ok ((length (heap w),
         len d - len (deduplicated d duplicate_columns keep)),
        mk_world (heap w ++ [deduplicated d duplicate_columns keep])
                 (last_stats w)).
Proof.
  intros Hl Hcols Hkeep. unfold _remove_time_based_duplicates.
  run_with (apply deref_Ok, Hl).
  rewrite (filter_missing_nil _ _ Hcols).
  run_with (apply lift_Ok, drop_duplicates_Ok; [exact Hcols | exact Hkeep]).
  run_with (apply alloc_Ok).
  reflexivity.
Qed.

Lemma _remove_time_based_duplicates_missing (w : World) (l : loc)
    (d : DataFrame) (keep : string) :
  heap w !! l = Some d ->
  ¬ duplicate_columns ⊆ columns d ->
  _remove_time_based_duplicates l keep w = Ok ((l, 0), w).
Proof.
  intros Hl Hcols. unfold _remove_time_based_duplicates.
  run_with (apply deref_Ok, Hl).
  destruct (filter_missing_cons _ _ Hcols) as (c & cs & ->).
  reflexivity.
Qed.

(** The statistics one run leaves in [last_stats]. *)
Lemma remove_duplicates_run (w : World) (l : loc) (df : DataFrame)
    (keep : string) (detailed_logging : bool) :
  heap w !! l = Some df ->
  keep = "first" \/ keep = "last" ->
  exists (l' : loc) (extra : list DataFrame),
    remove_duplicates l keep detailed_logging w
    = Ok (l',
          mk_world (heap w ++ extra)
            (Some
               {| initial_count := len df;
                  final_count := len (resolved df keep);
                  full_row_duplicates :=
                    len df - len (deduplicated df (columns df) "first");
                  content_duplicates :=
                    len (deduplicated df (columns df) "first")
                    - len (resolved df keep);
                  overlap_duplicates := 0;
                  removed_total := len df - len (resolved df keep);
                  retention_rate :=
                    if 0 <? len df
                    then mul (div (of_Z (len (resolved df keep)))
                                  (of_Z (len df)))
                             (of_Z 100)
                    else of_Z 0 |}))
    /\ (heap w ++ extra) !! l' = Some (resolved df keep)
    /\ (length (heap w) <= l')%nat.
Proof.
  intros Hl Hkeep. unfold remove_duplicates.
  run_with (apply deref_Ok, Hl).
  run_with (apply _remove_full_duplicates_run, Hl).
  set (d1 := deduplicated df (columns df) "first").
  set (w1 := mk_world (heap w ++ [d1]) (last_stats w)).
  assert (heap w1 !! length (heap w) = Some d1) as Hl1
    by apply lookup_alloc.
  run_with (apply deref_Ok, Hl1).
  unfold resolved. fold d1.
  destruct (decide (duplicate_columns ⊆ columns d1)) as [Hcols|Hcols].
  - set (out := deduplicated d1 duplicate_columns keep).
    run_with (apply (_remove_time_based_duplicates_present _ _ d1);
              [exact Hl1 | exact Hcols | exact Hkeep]).
    cbn [heap w1 last_stats]. fold out.
    set (w2 := mk_world ((heap w ++ [d1]) ++ [out]) (last_stats w)).
    assert (heap w2 !! length (heap w ++ [d1]) = Some out) as Hl2
      by apply lookup_alloc.
    run_with (apply deref_Ok, Hl2).
    exists (length (heap w ++ [d1])), [d1; out].
    replace (heap w ++ [d1; out]) with ((heap w ++ [d1]) ++ [out])
      by (rewrite <- app_assoc; reflexivity).
    split; [reflexivity|]. split; [exact Hl2|].
    rewrite length_app. lia.
  - run_with (apply (_remove_time_based_duplicates_missing _ _ d1);
              [exact Hl1 | exact Hcols]).
    run_with (apply deref_Ok, Hl1).
    exists (length (heap w)), [d1].
    split; [|split; [exact Hl1 | lia]].
    unfold _update_statistics, set_last_stats, mbind, M_bind, mret, M_ret.
    cbn. rewrite Z.sub_diag. reflexivity.
Qed.

End HandlerFacts.

(** ** Claims about the duplicate resolver *)

Section ResolverClaims.
Import Py Float pandas duplicate_handler.

Lemma resolved_present (df : DataFrame) (keep : string) :
  duplicate_columns ⊆ columns df ->
  resolved df keep
  = deduplicated (deduplicated df (columns df) "first") duplicate_columns keep.
Proof.
  intros Hcols. unfold resolved.
  rewrite decide_True; [reflexivity|].
  rewrite deduplicated_columns. exact Hcols.
Qed.

Lemma resolved_columns (df : DataFrame) (keep : string) :
  columns (resolved df keep) = columns df.
Proof.
  unfold resolved. destruct (decide _);
    rewrite ?deduplicated_columns; reflexivity.
Qed.

Lemma resolved_sublist (df : DataFrame) (keep : string) :
  rows (resolved df keep) `sublist_of` rows df.
Proof.
  unfold resolved. destruct (decide _).
  - etransitivity; apply deduplicated_sublist.
  - apply deduplicated_sublist.
Qed.

(** C1: when the table has the four key columns, [remove_duplicates] (with
    either keep strategy) returns a table in which no two rows have the same
    values under (Gyariszam, Azonosito, Kezdo_datum, Zaro_datum); the energy
    column is not part of what is compared. *)
Theorem remove_duplicates_key_unique (w : World) (l : loc) (df : DataFrame)
    (keep : string) (detailed_logging : bool) :
  heap w !! l = Some df ->
  duplicate_columns ⊆ columns df ->
  keep = "first" \/ keep = "last" ->
  exists (l' : loc) (w' : World) (out : DataFrame),
    remove_duplicates l keep detailed_logging w = Ok (l', w')
    /\ heap w' !! l' = Some out
    /\ NoDup (map (row_key (columns out) duplicate_columns) (rows out)).
Proof.
  intros Hl Hcols Hkeep.
  destruct (remove_duplicates_run w l df keep detailed_logging Hl Hkeep)
    as (l' & extra & Hrun & Hout & _).
  exists l'. do 2 eexists. split; [exact Hrun|]. split; [exact Hout|].
  rewrite resolved_columns, (resolved_present _ _ Hcols).
  pose proof (deduplicated_NoDup (deduplicated df (columns df) "first")
                duplicate_columns keep) as Hnodup.
  rewrite deduplicated_columns in Hnodup. apply Hnodup.
  intros Hnil.
  specialize (Hcols "Gyariszam"). rewrite Hnil in Hcols.
  assert ("Gyariszam" ∈ @nil string) as Hin by (apply Hcols; left).
  inversion Hin.
Qed.

Lemma df_test_has_key_columns : duplicate_columns ⊆ columns df_test.
Proof. apply (bool_decide_unpack _). vm_compute. exact I. Defined.

Lemma remove_duplicates_key_unique_witness :
  exists (l' : loc) (w' : World) (out : DataFrame),
    remove_duplicates 0%nat "last" true (mk_world [df_test] None) = Ok (l', w')
    /\ heap w' !! l' = Some out
    /\ NoDup (map (row_key (columns out) duplicate_columns) (rows out)).
Proof.
  apply (remove_duplicates_key_unique (mk_world [df_test] None) 0%nat df_test).
  - reflexivity.
  - exact df_test_has_key_columns.
  - right. reflexivity.
Defined.

(** C2: on the four rows of [test_emergency_fix_algorithm], keep='last'
    returns three rows, and the one row left for meter 123, sub-id A1,
    interval 00:00-00:15 carries 0.150 kWh. *)
Theorem scenario_A_keep_last :
  exists (l' : loc) (w' : World) (out : DataFrame),
    remove_duplicates 0%nat "last" true (mk_world [df_test] None) = Ok (l', w')
    /\ heap w' !! l' = Some out
    /\ len out = 3
    /\ map (cell (columns out) "Hatasos_ertek_kWh")
           (filter (fun r =>
                      row_key (columns out) duplicate_columns r
                      = [CStr "123"; CStr "A1";
                         CTime (Calendar.timestamp 2025 5 22 0 0 0);
                         CTime (Calendar.timestamp 2025 5 22 0 15 0)])
                   (rows out))
       = [kwh 150].
Proof.
  do 3 eexists. split; [vm_compute; reflexivity|].
  split; [vm_compute; reflexivity|].
  split; vm_compute; reflexivity.
Qed.

(** C6: when one of the four key columns is missing, the interval-key pass
    returns the very frame it was given and the count 0, whatever the keep
    strategy, and leaves every frame and the statistics as they were. *)
Theorem time_based_pass_missing_column_noop (w : World) (l : loc)
    (df : DataFrame) (keep : string) :
  heap w !! l = Some df ->
  (exists c, c ∈ duplicate_columns /\ c ∉ columns df) ->
  _remove_time_based_duplicates l keep w = Ok ((l, 0), w)
  /\ heap w !! l = Some df.
Proof.
  intros Hl (c & Hc & Hmissing). split; [|exact Hl].
  apply (_remove_time_based_duplicates_missing _ _ df); [exact Hl|].
  intros Hsub. apply Hmissing, Hsub, Hc.
Qed.

Lemma time_based_pass_missing_column_noop_witness :
  _remove_time_based_duplicates 0%nat "last" (mk_world [df_no_end] None)
  = Ok ((0%nat, 0), mk_world [df_no_end] None)
  /\ heap (mk_world [df_no_end] None) !! 0%nat = Some df_no_end.
Proof.
  apply (time_based_pass_missing_column_noop _ _ df_no_end).
  - reflexivity.
  - exists "Zaro_datum". split.
    + apply (bool_decide_unpack _). vm_compute. exact I.
    + apply (bool_decide_unpack _). vm_compute. exact I.
Defined.

(** C8: the full-row pass run on its own result returns a frame equal to
    that result. *)
Theorem full_row_pass_idempotent (w : World) (l : loc) (df : DataFrame) :
  heap w !! l = Some df ->
  exists (l1 l2 : loc) (w1 w2 : World) (once : DataFrame),
    _remove_full_duplicates l w = Ok (l1, w1)
    /\ heap w1 !! l1 = Some once
    /\ _remove_full_duplicates l1 w1 = Ok (l2, w2)
    /\ heap w2 !! l2 = Some once.
Proof.
  intros Hl.
  set (once := deduplicated df (columns df) "first").
  set (w1 := mk_world (heap w ++ [once]) (last_stats w)).
  assert (heap w1 !! length (heap w) = Some once) as Hl1 by apply lookup_alloc.
  exists (length (heap w)), (length (heap w1)), w1.
  do 2 eexists.
  split; [apply _remove_full_duplicates_run, Hl|].
  split; [exact Hl1|].
  split; [apply _remove_full_duplicates_run, Hl1|].
  subst w1 once. cbn [heap].
  rewrite (deduplicated_idempotent df). apply lookup_alloc.
Qed.

Lemma full_row_pass_idempotent_witness :
  exists (l1 l2 : loc) (w1 w2 : World) (once : DataFrame),
    _remove_full_duplicates 0%nat (mk_world [df_test] None) = Ok (l1, w1)
    /\ heap w1 !! l1 = Some once
    /\ _remove_full_duplicates l1 w1 = Ok (l2, w2)
    /\ heap w2 !! l2 = Some once.
Proof.
  apply (full_row_pass_idempotent (mk_world [df_test] None) 0%nat df_test).
  reflexivity.
Defined.

(** C10: [remove_duplicates] returns a new frame with the columns of the
    input whose rows are rows of the input, labels and cells untouched, in
    the order they have there; the input frame, and every other frame that
    existed, is afterwards what it was before. *)
Theorem remove_duplicates_only_deletes (w : World) (l : loc) (df : DataFrame)
    (keep : string) (detailed_logging : bool) :
  heap w !! l = Some df ->
  keep = "first" \/ keep = "last" ->
  exists (l' : loc) (w' : World) (out : DataFrame),
    remove_duplicates l keep detailed_logging w = Ok (l', w')
    /\ heap w' !! l' = Some out
    /\ columns out = columns df
    /\ rows out `sublist_of` rows df
    /\ (forall r, r ∈ rows out -> r ∈ rows df)
    /\ l' <> l
    /\ (forall i d, heap w !! i = Some d -> heap w' !! i = Some d).
Proof.
  intros Hl Hkeep.
  destruct (remove_duplicates_run w l df keep detailed_logging Hl Hkeep)
    as (l' & extra & Hrun & Hout & Hfresh).
  exists l'. do 2 eexists. split; [exact Hrun|]. split; [exact Hout|].
  split; [apply resolved_columns|].
  split; [apply resolved_sublist|].
  split.
  { intros r Hr. eapply elem_of_sublist; [exact Hr | apply resolved_sublist]. }
  split.
  { apply lookup_lt_Some in Hl. lia. }
  intros i d Hi. cbn [heap]. apply lookup_app_l_Some. exact Hi.
Qed.

Lemma remove_duplicates_only_deletes_witness :
  exists (l' : loc) (w' : World) (out : DataFrame),
    remove_duplicates 0%nat "first" false (mk_world [df_test] None)
    = Ok (l', w')
    /\ heap w' !! l' = Some out
    /\ columns out = columns df_test
    /\ rows out `sublist_of` rows df_test
    /\ (forall r, r ∈ rows out -> r ∈ rows df_test)
    /\ l' <> 0%nat
    /\ (forall i d, heap (mk_world [df_test] None) !! i = Some d ->
                    heap w' !! i = Some d).
Proof.
  apply (remove_duplicates_only_deletes (mk_world [df_test] None) 0%nat
           df_test "first" false).
  - reflexivity.
  - left. reflexivity.
Defined.

End ResolverClaims.

(** ** Exact float arithmetic on integer counts *)

Section FloatFacts.
Import Float.

Lemma inject_Z_nonzero (b : Z) : b <> 0 -> ¬ (inject_Z b == 0)%Q.
Proof. intros Hb Heq. unfold Qeq in Heq. cbn in Heq. lia. Qed.

Lemma of_Z_nonzero (b : Z) : b <> 0 -> Q2Qc (inject_Z b) <> 0%Qc.
Proof.
  intros Hb Heq. apply Q2Qc_eq_iff in Heq.
  exact (inject_Z_nonzero b Hb Heq).
Qed.

Lemma div_Q_of_Z (q : Q) (b : Z) :
  b <> 0 -> div (Fin (Q2Qc q)) (of_Z b) = Fin (Q2Qc (q / inject_Z b)).
Proof.
  intros Hb. unfold div, of_Z.
  destruct (decide _) as [Heq|_]; [exfalso; exact (of_Z_nonzero b Hb Heq)|].
  f_equal. unfold Qcdiv, Qcmult, Qcinv. apply Q2Qc_eq_iff.
  cbn [this Q2Qc]. rewrite !Qred_correct. reflexivity.
Qed.

Lemma div_of_Z (a b : Z) :
  b <> 0 -> div (of_Z a) (of_Z b) = Fin (Q2Qc (inject_Z a / inject_Z b)).
Proof. apply div_Q_of_Z. Qed.

Lemma percent_of_counts (a b : Z) :
  b <> 0 ->
  mul (div (of_Z a) (of_Z b)) (of_Z 100)
  = Fin (Q2Qc (inject_Z (100 * a) / inject_Z b)).
Proof.
  intros Hb. rewrite div_of_Z by exact Hb. unfold mul, of_Z. f_equal.
  unfold Qcmult. apply Q2Qc_eq_iff. cbn [this Q2Qc]. rewrite !Qred_correct.
  rewrite inject_Z_mult. field. apply inject_Z_nonzero, Hb.
Qed.

Lemma leb_of_Z_Q (k : Z) (q : Q) :
  leb (of_Z k) (Fin (Q2Qc q)) = true <-> (inject_Z k <= q)%Q.
Proof.
  unfold leb, of_Z. rewrite bool_decide_eq_true. unfold Qcle.
  cbn [this Q2Qc]. rewrite !Qred_correct. reflexivity.
Qed.

Lemma leb_Q_of_Z (q : Q) (k : Z) :
  leb (Fin (Q2Qc q)) (of_Z k) = true <-> (q <= inject_Z k)%Q.
Proof.
  unfold leb, of_Z. rewrite bool_decide_eq_true. unfold Qcle.
  cbn [this Q2Qc]. rewrite !Qred_correct. reflexivity.
Qed.

Lemma ltb_of_Z_Q (k : Z) (q : Q) :
  ltb (of_Z k) (Fin (Q2Qc q)) = true <-> (inject_Z k < q)%Q.
Proof.
  unfold ltb, of_Z. rewrite bool_decide_eq_true. unfold Qclt.
  cbn [this Q2Qc]. rewrite !Qred_correct. reflexivity.
Qed.

Lemma Qle_Z_div (k a b : Z) :
  0 < b -> (inject_Z k <= inject_Z a / inject_Z b)%Q <-> k * b <= a.
Proof.
  intros Hb. unfold Qle, Qdiv, Qmult, Qinv, inject_Z. cbn.
  destruct b as [|b|b]; try lia. cbn. lia.
Qed.

Lemma Qle_div_Z (a b k : Z) :
  0 < b -> (inject_Z a / inject_Z b <= inject_Z k)%Q <-> a <= k * b.
Proof.
  intros Hb. unfold Qle, Qdiv, Qmult, Qinv, inject_Z. cbn.
  destruct b as [|b|b]; try lia. cbn. lia.
Qed.

Lemma Qlt_Z_div (k a b : Z) :
  0 < b -> (inject_Z k < inject_Z a / inject_Z b)%Q <-> k * b < a.
Proof.
  intros Hb. unfold Qlt, Qdiv, Qmult, Qinv, inject_Z. cbn.
  destruct b as [|b|b]; try lia. cbn. lia.
Qed.

End FloatFacts.

Section StatisticsClaim.
Import Py Float pandas duplicate_handler.

(** C3 (amended): after a run on a table with at least one row the recorded
    statistics hold the two row counts, [removed_total] is their difference,
    and [retention_rate] is the final count as a percentage of the initial
    count, 100 * final / initial. *)
Theorem remove_duplicates_statistics (w : World) (l : loc) (df : DataFrame)
    (keep : string) (detailed_logging : bool) :
  heap w !! l = Some df ->
  0 < len df ->
  keep = "first" \/ keep = "last" ->
  exists (l' : loc) (w' : World) (out : DataFrame) (stats : DuplicationStats),
    remove_duplicates l keep detailed_logging w = Ok (l', w')
    /\ heap w' !! l' = Some out
    /\ last_stats w' = Some stats
    /\ initial_count stats = len df
    /\ final_count stats = len out
    /\ removed_total stats = initial_count stats - final_count stats
    /\ retention_rate stats
       = Fin (Q2Qc (inject_Z (100 * final_count stats)
                    / inject_Z (initial_count stats))).
Proof.
  intros Hl Hlen Hkeep.
  destruct (remove_duplicates_run w l df keep detailed_logging Hl Hkeep)
    as (l' & extra & Hrun & Hout & _).
  exists l'. do 3 eexists. split; [exact Hrun|]. split; [exact Hout|].
  split; [reflexivity|]. cbn.
  repeat split.
  apply Z.ltb_lt in Hlen as Hpos. rewrite Hpos.
  apply percent_of_counts. lia.
Qed.

Lemma remove_duplicates_statistics_witness :
  exists (l' : loc) (w' : World) (out : DataFrame) (stats : DuplicationStats),
    remove_duplicates 0%nat "last" true (mk_world [df_test] None) = Ok (l', w')
    /\ heap w' !! l' = Some out
    /\ last_stats w' = Some stats
    /\ initial_count stats = len df_test
    /\ final_count stats = len out
    /\ removed_total stats = initial_count stats - final_count stats
    /\ retention_rate stats
       = Fin (Q2Qc (inject_Z (100 * final_count stats)
                    / inject_Z (initial_count stats))).
Proof.
  apply (remove_duplicates_statistics (mk_world [df_test] None) 0%nat df_test).
  - reflexivity.
  - reflexivity.
  - right. reflexivity.
Defined.

(** C3 as stated fails: on the frame of [test_emergency_fix_algorithm] the
    counts are 4 and 3 and the recorded rate is 75, not 3/4. *)
Lemma retention_rate_is_not_the_ratio :
  ¬ (forall (l' : loc) (w' : World) (stats : DuplicationStats),
       remove_duplicates 0%nat "last" true (mk_world [df_test] None)
       = Ok (l', w') ->
       last_stats w' = Some stats ->
       retention_rate stats
       = div (of_Z (final_count stats)) (of_Z (initial_count stats))).
Proof.
  intros Hclaim.
  destruct (remove_duplicates_run (mk_world [df_test] None) 0%nat df_test
              "last" true eq_refl (or_intror eq_refl))
    as (l' & extra & Hrun & _ & _).
  specialize (Hclaim _ _ _ Hrun eq_refl).
  revert Hclaim. apply (bool_decide_eq_false_1 _).
  vm_compute. reflexivity.
Qed.

End StatisticsClaim.

(** ** The quality validator *)

Section ValidatorFacts.
Import Py Float pandas data_validator.

Lemma getitem_Ok (df : DataFrame) (c : string) :
  c ∈ columns df -> getitem df c = Ok (map (cell (columns df) c) (rows df)).
Proof. intros Hc. unfold getitem. rewrite decide_True by exact Hc. reflexivity. Qed.

Lemma getitem_Err (df : DataFrame) (c : string) :
  c ∉ columns df -> getitem df c = Err (KeyError c).
Proof. intros Hc. unfold getitem. rewrite decide_False by exact Hc. reflexivity. Qed.

Lemma sub_times_columns (df : DataFrame) (l : list Row) :
  Forall (fun r => timelike (cell (columns df) "Zaro_datum" r)
                   /\ timelike (cell (columns df) "Kezdo_datum" r)) l ->
  sub_times (map (cell (columns df) "Zaro_datum") l)
            (map (cell (columns df) "Kezdo_datum") l)
  = Ok (map (duration df) l).
Proof.
  unfold sub_times. induction 1 as [|r l [Hz Hk] _ IH]; [reflexivity|].
  cbn [map zip zip_with mapM]. rewrite IH. unfold duration.
  destruct (cell (columns df) "Zaro_datum" r),
           (cell (columns df) "Kezdo_datum" r); cbn in Hz, Hk; try done.
Qed.

Lemma count_true_map {A} (f : A -> bool) (P : A -> Prop)
    `{forall x, Decision (P x)} (l : list A) :
  (forall x, f x = bool_decide (P x)) ->
  count_true (map f l) = Z.of_nat (length (filter P l)).
Proof.
  intros Hf. unfold count_true. f_equal.
  induction l as [|x l IH]; [reflexivity|].
  cbn [map]. rewrite !filter_cons, Hf.
  destruct (decide (P x)) as [Hx|Hx].
  - rewrite bool_decide_eq_true_2 by exact Hx.
    rewrite decide_True by reflexivity. cbn. f_equal. exact IH.
  - rewrite bool_decide_eq_false_2 by exact Hx.
    rewrite decide_False by discriminate. exact IH.
Qed.

(** The length of an interval in minutes, as the check computes it. *)
Lemma minutes_value (ns : Z) :
  div (total_seconds (Some ns)) (of_Z 60)
  = Fin (Q2Qc (inject_Z ns / inject_Z Calendar.ns_per_minute)).
Proof.
  unfold total_seconds. rewrite div_of_Z by discriminate.
  rewrite div_Q_of_Z by discriminate. f_equal. apply Q2Qc_eq_iff.
  change Calendar.ns_per_minute with (60 * Calendar.ns_per_second).
  rewrite inject_Z_mult. field. apply inject_Z_nonzero; discriminate.
Qed.

Lemma minutes_lower (k ns : Z) :
  leb (of_Z k) (div (total_seconds (Some ns)) (of_Z 60))
  = (k * Calendar.ns_per_minute <=? ns).
Proof.
  apply eq_iff_eq_true. rewrite minutes_value, leb_of_Z_Q, Z.leb_le.
  apply Qle_Z_div. reflexivity.
Qed.

Lemma minutes_upper (k ns : Z) :
  leb (div (total_seconds (Some ns)) (of_Z 60)) (of_Z k)
  = (ns <=? k * Calendar.ns_per_minute).
Proof.
  apply eq_iff_eq_true. rewrite minutes_value, leb_Q_of_Z, Z.leb_le.
  apply Qle_div_Z. reflexivity.
Qed.

Lemma in_quarter_bucket (d : option Z) :
  leb (of_Z 14) (div (total_seconds d) (of_Z 60))
  && leb (div (total_seconds d) (of_Z 60)) (of_Z 16)
  = bool_decide (bucket d = Quarter).
Proof.
  destruct d as [ns|]; [|reflexivity].
  rewrite minutes_lower, minutes_upper. unfold bucket.
  destruct (_ && _); [reflexivity|].
  destruct (_ && _); reflexivity.
Qed.

Lemma in_hour_bucket (d : option Z) :
  leb (of_Z 55) (div (total_seconds d) (of_Z 60))
  && leb (div (total_seconds d) (of_Z 60)) (of_Z 65)
  = bool_decide (bucket d = Hour).
Proof.
  destruct d as [ns|]; [|reflexivity].
  rewrite minutes_lower, minutes_upper. unfold bucket.
  destruct ((14 * Calendar.ns_per_minute <=? ns)
            && (ns <=? 16 * Calendar.ns_per_minute)) eqn:Hq;
    destruct ((55 * Calendar.ns_per_minute <=? ns)
              && (ns <=? 65 * Calendar.ns_per_minute)) eqn:Hh;
    try reflexivity.
  apply andb_prop in Hq as [Hlo Hhi]. apply andb_prop in Hh as [Hlo' Hhi'].
  apply Z.leb_le in Hlo, Hhi, Hlo', Hhi'.
  unfold Calendar.ns_per_minute, Calendar.ns_per_second in *. lia.
Qed.

(** How the check counts and decides, on a frame it can read. *)
Lemma _validate_time_intervals_run (df : DataFrame) :
  interval_columns df ->
  len df <> 0 ->
  let quarter := count_bucket Quarter df in
  let hour := count_bucket Hour df in
  let percentage := mul (div (of_Z (quarter + hour)) (of_Z (len df)))
                        (of_Z 100) in
  let details := [("interval_15min", DInt quarter);
                  ("interval_60min", DInt hour);
                  ("standard_percentage", DFloat percentage)] in
  _validate_time_intervals df
  = Ok [if bool_decide (95 * len df < 100 * (quarter + hour))
        then mk_result true HEALTHY (MsgIntervalsOk percentage) details
        else mk_result false WARNING (MsgIntervalsUnusual percentage) details].
Proof.
  intros (Hz & Hk & Hcells) Hlen. cbn zeta.
  unfold _validate_time_intervals.
  rewrite (getitem_Ok _ _ Hz). cbn [mbind Result_bind bind].
  rewrite (getitem_Ok _ _ Hk). cbn [mbind Result_bind bind].
  rewrite (sub_times_columns df (rows df) Hcells). cbn [mbind Result_bind bind].
  rewrite !map_map.
  rewrite (count_true_map _ (fun r => bucket (duration df r) = Quarter))
    by (intros r; apply in_quarter_bucket).
  rewrite (count_true_map _ (fun r => bucket (duration df r) = Hour))
    by (intros r; apply in_hour_bucket).
  fold (count_bucket Quarter df). fold (count_bucket Hour df).
  unfold int_truediv. rewrite (proj2 (Z.eqb_neq _ _) Hlen).
  cbn [mbind Result_bind bind].
  assert (0 < len df) as Hpos by (unfold len in *; lia).
  case_bool_decide as Hdec.
  - replace (ltb _ _) with true; [reflexivity|]. symmetry.
    rewrite percent_of_counts by exact Hlen.
    apply ltb_of_Z_Q, Qlt_Z_div; [exact Hpos | lia].
  - destruct (ltb _ _) eqn:Hlt; [|reflexivity].
    exfalso. apply Hdec.
    rewrite percent_of_counts in Hlt by exact Hlen.
    apply (proj1 (ltb_of_Z_Q _ _)) in Hlt.
    apply (proj1 (Qlt_Z_div _ _ _ Hpos)) in Hlt. lia.
Qed.

End ValidatorFacts.

Section ValidatorClaims.
Import Py Float pandas data_validator.

(** C4 (amended): on a series with at least one row the check counts the
    rows whose interval lasts 15 minutes give or take 1 and those lasting 60
    minutes give or take 5, and reports a healthy, valid result exactly when
    strictly more than 95% of the rows are in these two buckets; otherwise,
    also at exactly 95%, it reports a warning. *)
Theorem interval_regularity_check (df : DataFrame) :
  interval_columns df ->
  rows df <> [] ->
  exists r : ValidationResult,
    _validate_time_intervals df = Ok [r]
    /\ ("interval_15min", DInt (count_bucket Quarter df)) ∈ details r
    /\ ("interval_60min", DInt (count_bucket Hour df)) ∈ details r
    /\ (95 * len df < 100 * (count_bucket Quarter df + count_bucket Hour df) ->
        is_valid r = true /\ severity r = HEALTHY)
    /\ (100 * (count_bucket Quarter df + count_bucket Hour df) <= 95 * len df ->
        is_valid r = false /\ severity r = WARNING).
Proof.
  intros Hcols Hrows.
  assert (len df <> 0) as Hlen.
  { unfold len. destruct (rows df); [contradiction | cbn; lia]. }
  eexists. split; [apply (_validate_time_intervals_run df Hcols Hlen)|].
  case_bool_decide as Hdec; cbn [details is_valid severity].
  - split; [left|]. split; [right; left|]. split; [done | lia].
  - split; [left|]. split; [right; left|]. split; [contradiction | done].
Qed.

Lemma df_test_interval_columns : interval_columns duplicate_handler.df_test.
Proof.
  split; [apply (bool_decide_unpack _); vm_compute; exact I|].
  split; [apply (bool_decide_unpack _); vm_compute; exact I|].
  repeat constructor.
Defined.

Lemma interval_regularity_check_witness :
  exists r : ValidationResult,
    _validate_time_intervals duplicate_handler.df_test = Ok [r]
    /\ ("interval_15min",
        DInt (count_bucket Quarter duplicate_handler.df_test)) ∈ details r
    /\ ("interval_60min",
        DInt (count_bucket Hour duplicate_handler.df_test)) ∈ details r
    /\ (95 * len duplicate_handler.df_test
        < 100 * (count_bucket Quarter duplicate_handler.df_test
                 + count_bucket Hour duplicate_handler.df_test) ->
        is_valid r = true /\ severity r = HEALTHY)
    /\ (100 * (count_bucket Quarter duplicate_handler.df_test
               + count_bucket Hour duplicate_handler.df_test)
        <= 95 * len duplicate_handler.df_test ->
        is_valid r = false /\ severity r = WARNING).
Proof.
  apply (interval_regularity_check duplicate_handler.df_test).
  - exact df_test_interval_columns.
  - discriminate.
Defined.

(** C4 as stated fails: with nineteen of twenty rows in the quarter-hour
    bucket, 95% of the rows are standard and the check reports an invalid
    result. *)
Lemma exactly_95_percent_does_not_pass :
  ¬ (forall r : ValidationResult,
       _validate_time_intervals df_19_of_20 = Ok [r] ->
       (is_valid r = true /\ severity r = HEALTHY
        <-> 95 * len df_19_of_20
            <= 100 * (count_bucket Quarter df_19_of_20
                      + count_bucket Hour df_19_of_20))).
Proof.
  intros Hclaim.
  assert (exists r, _validate_time_intervals df_19_of_20 = Ok [r]
                    /\ is_valid r = false) as (r & Hrun & Hinvalid)
    by (eexists; split; vm_compute; reflexivity).
  apply Hclaim in Hrun as [_ Hpass].
  destruct Hpass as [Hvalid _]; [vm_compute; discriminate|].
  rewrite Hinvalid in Hvalid. discriminate.
Qed.

Lemma getitem_no_rows (cols : list string) (c : string) :
  c ∈ cols -> getitem (mk_df cols []) c = Ok [].
Proof. intros Hc. rewrite getitem_Ok by exact Hc. reflexivity. Qed.

(** C9: on a table without rows [validate_comprehensive] never produces a
    report, and neither does [quick_validate]; when the three columns the
    checks read are there, what stops it is the division by the row count in
    the interval check, a [ZeroDivisionError]. *)
Theorem validation_of_empty_series_fails (self : DataValidator)
    (df : DataFrame) :
  rows df = [] ->
  (exists e, validate_comprehensive self df = Err e
             /\ quick_validate self df = Err e)
  /\ ("Zaro_datum" ∈ columns df ->
      "Kezdo_datum" ∈ columns df ->
      "Hatasos_ertek_kWh" ∈ columns df ->
      _validate_time_intervals df = Err ZeroDivisionError
      /\ validate_comprehensive self df = Err ZeroDivisionError
      /\ quick_validate self df = Err ZeroDivisionError).
Proof.
  destruct df as [cols rs]. cbn [rows columns]. intros ->.
  assert ("Zaro_datum" ∈ cols -> "Kezdo_datum" ∈ cols ->
          "Hatasos_ertek_kWh" ∈ cols ->
          _validate_time_intervals (mk_df cols []) = Err ZeroDivisionError
          /\ validate_comprehensive self (mk_df cols []) = Err ZeroDivisionError
          /\ quick_validate self (mk_df cols []) = Err ZeroDivisionError)
    as Hdiv.
  { intros Hz Hk He.
    assert (_validate_time_intervals (mk_df cols []) = Err ZeroDivisionError)
      as Hint.
    { unfold _validate_time_intervals.
      rewrite !getitem_no_rows by assumption. reflexivity. }
    assert (validate_comprehensive self (mk_df cols []) = Err ZeroDivisionError)
      as Hall.
    { unfold validate_comprehensive, _extract_basic_statistics,
        _validate_data_completeness, _validate_consumption_values.
      rewrite Hint. rewrite !getitem_no_rows by assumption. reflexivity. }
    split; [exact Hint|]. split; [exact Hall|].
    unfold quick_validate. rewrite Hall. reflexivity. }
  split; [|exact Hdiv].
  destruct (decide ("Zaro_datum" ∈ cols)) as [Hz|Hz];
    [destruct (decide ("Kezdo_datum" ∈ cols)) as [Hk|Hk];
     [destruct (decide ("Hatasos_ertek_kWh" ∈ cols)) as [He|He]|]|].
  - exists ZeroDivisionError. split; apply (Hdiv Hz Hk He).
  - exists (KeyError "Hatasos_ertek_kWh").
    unfold quick_validate, validate_comprehensive, _extract_basic_statistics.
    rewrite (getitem_no_rows _ _ Hz), (getitem_no_rows _ _ Hk).
    rewrite (getitem_Err (mk_df cols []) _ He). split; reflexivity.
  - exists (KeyError "Kezdo_datum").
    unfold quick_validate, validate_comprehensive, _extract_basic_statistics.
    rewrite (getitem_no_rows _ _ Hz).
    rewrite (getitem_Err (mk_df cols []) _ Hk). split; reflexivity.
  - exists (KeyError "Zaro_datum").
    unfold quick_validate, validate_comprehensive, _extract_basic_statistics.
    rewrite (getitem_Err (mk_df cols []) _ Hz). split; reflexivity.
Qed.

Lemma validation_of_empty_series_fails_witness :
  (exists e, validate_comprehensive default_validator df_no_rows = Err e
             /\ quick_validate default_validator df_no_rows = Err e)
  /\ ("Zaro_datum" ∈ columns df_no_rows ->
      "Kezdo_datum" ∈ columns df_no_rows ->
      "Hatasos_ertek_kWh" ∈ columns df_no_rows ->
      _validate_time_intervals df_no_rows = Err ZeroDivisionError
      /\ validate_comprehensive default_validator df_no_rows
         = Err ZeroDivisionError
      /\ quick_validate default_validator df_no_rows = Err ZeroDivisionError).
Proof.
  apply (validation_of_empty_series_fails default_validator df_no_rows).
  reflexivity.
Defined.

End ValidatorClaims.

(** ** The series query layer *)

Section QueryFacts.
Import Py Float pandas data_handler.

Lemma reading_Some (r : Row) (t : Z) (e : Qc) :
  reading r = Some (t, e) -> r = series_row (label r, (t, e)).
Proof.
  destruct r as [lab cs]. unfold reading, series_row. cbn.
  repeat case_match; try discriminate. intros [= <- <-]. reflexivity.
Qed.

Lemma canonical_rows (df : DataFrame) :
  canonical_series df ->
  exists lr : list (Z * (Z * Qc)),
    df = mk_df ["Kezdo_datum"; "Hatasos_ertek_kWh"] (map series_row lr)
    /\ readings df = map snd lr.
Proof.
  destruct df as [cols rs]. intros [Hcols Hall]. cbn in Hcols, Hall.
  subst cols. unfold readings. cbn [rows].
  induction Hall as [|r rs [[t e] Hr] _ (lr & Heq & Hread)].
  - exists []. split; reflexivity.
  - exists ((label r, (t, e)) :: lr). cbn [map omap list_omap].
    injection Heq as Heq. rewrite Hr, <- Heq, (reading_Some _ _ _ Hr) at 1.
    split; [reflexivity|]. cbn. f_equal. exact Hread.
Qed.

Lemma ge_datetime_times {A} (tm : A -> Z) (l : list A) (dt : Z) :
  ge_datetime (map (fun x => CTime (tm x)) l) dt
  = Ok (map (fun x => dt <=? tm x) l).
Proof.
  unfold ge_datetime. induction l as [|x l IH]; [reflexivity|].
  cbn [map mapM]. rewrite IH. reflexivity.
Qed.

Lemma le_datetime_times {A} (tm : A -> Z) (l : list A) (dt : Z) :
  le_datetime (map (fun x => CTime (tm x)) l) dt
  = Ok (map (fun x => tm x <=? dt) l).
Proof.
  unfold le_datetime. induction l as [|x l IH]; [reflexivity|].
  cbn [map mapM]. rewrite IH. reflexivity.
Qed.

Lemma mask_select_between {A B} (tm : A -> Z) (f : A -> B) (lo hi : Z)
    (l : list A) :
  mask_select (zip_with andb (map (fun x => lo <=? tm x) l)
                             (map (fun x => tm x <=? hi) l))
              (map f l)
  = map f (filter (fun x => lo <= tm x <= hi) l).
Proof.
  induction l as [|x l IH]; [reflexivity|].
  cbn [map zip_with mask_select]. rewrite filter_cons, IH.
  destruct (Z.leb_spec lo (tm x)), (Z.leb_spec (tm x) hi); cbn;
    destruct (decide _) as [Hin|Hout]; try reflexivity; lia.
Qed.

Lemma empty_cons (c : string) (cs : list string) (r : Row) (rs : list Row) :
  empty (mk_df (c :: cs) (r :: rs)) = false.
Proof. reflexivity. Qed.

(** What the filter does on a canonical series, up to the aggregation. *)
Lemma filter_data_canonical (lr : list (Z * (Z * Qc))) (config : FilterConfig) :
  let sel := filter (fun x => Calendar.combine_min (start_date config)
                              <= x.2.1
                              <= Calendar.combine_max (end_date config)) lr in
  let filtered_df :=
    mk_indexed "Kezdo_datum" ["Hatasos_ertek_kWh"] (map indexed_row sel) in
  filter_data
    (Some (mk_df ["Kezdo_datum"; "Hatasos_ertek_kWh"] (map series_row lr)))
    config
  = match sel with
    | [] => Ok None
    | _ :: _ =>
        match interval_map (interval config) with
        | Some resample_rule =>
            aggregated_df ← resample_energy filtered_df resample_rule;
            Ok (Some aggregated_df)
        | None => Ok (Some (reset_index filtered_df))
        end
    end.
Proof.
  cbn zeta. unfold filter_data.
  destruct lr as [|x0 lr0]; [reflexivity|].
  cbn [map]. rewrite empty_cons. change (series_row x0 :: map series_row lr0)
    with (map series_row (x0 :: lr0)).
  set (lr := x0 :: lr0).
  assert (getitem (mk_df ["Kezdo_datum"; "Hatasos_ertek_kWh"]
                         (map series_row lr)) "Kezdo_datum"
          = Ok (map (fun x => CTime x.2.1) lr)) as ->.
  { unfold getitem. rewrite decide_True by left. cbn [rows columns].
    rewrite map_map. reflexivity. }
  cbn [mbind Result_bind bind].
  rewrite ge_datetime_times. cbn [mbind Result_bind bind].
  rewrite le_datetime_times. cbn [mbind Result_bind bind].
  cbn [rows columns]. rewrite mask_select_between.
  destruct (filter _ lr) as [|y sel]; [reflexivity|].
  cbn [map]. rewrite empty_cons.
  unfold set_index. cbn [columns rows index_of].
  rewrite decide_True by reflexivity. cbn [mbind Result_bind bind map].
  rewrite map_map. reflexivity.
Qed.

End QueryFacts.

Section ResampleFacts.
Import Py Float pandas data_handler.

Lemma sum_Fin (qs : list Qc) :
  sum (map Fin qs) = Fin (foldr Qcplus 0%Qc qs).
Proof.
  unfold sum. induction qs as [|q qs IH]; [reflexivity|].
  cbn [map]. rewrite filter_cons. cbn [isnan].
  rewrite decide_True by reflexivity. cbn [foldr]. rewrite IH. reflexivity.
Qed.

Lemma filter_map_comm {A B} (g : A -> B) (P : B -> Prop)
    `{forall y, Decision (P y)} (l : list A) :
  filter P (map g l) = map g (filter (fun x => P (g x)) l).
Proof.
  induction l as [|x l IH]; [reflexivity|].
  cbn [map]. rewrite !filter_cons.
  destruct (decide (P (g x))); cbn [map]; rewrite IH; reflexivity.
Qed.

Lemma foldr_min_spec (k : Z) (ks : list Z) :
  foldr Z.min k ks ∈ k :: ks /\ forall x, x ∈ k :: ks -> foldr Z.min k ks <= x.
Proof.
  induction ks as [|y ks [Hin Hle]]; cbn [foldr].
  - split; [left|]. intros x [->|Hx]%elem_of_cons; [lia | inversion Hx].
  - split.
    + destruct (Z.min_spec y (foldr Z.min k ks)) as [[_ ->]|[_ ->]].
      * right. left.
      * apply elem_of_cons in Hin as [Hk|Hks]; [rewrite Hk; left|].
        right. right. exact Hks.
    + intros x Hx.
      assert (foldr Z.min k ks <= x \/ x = y) as [Hx'| ->]; [|lia..].
      apply elem_of_cons in Hx as [->|Hx]; [left; apply Hle; left|].
      apply elem_of_cons in Hx as [->|Hx]; [right; reflexivity|].
      left. apply Hle. right. exact Hx.
Qed.

Lemma foldr_max_spec (k : Z) (ks : list Z) :
  foldr Z.max k ks ∈ k :: ks /\ forall x, x ∈ k :: ks -> x <= foldr Z.max k ks.
Proof.
  induction ks as [|y ks [Hin Hle]]; cbn [foldr].
  - split; [left|]. intros x [->|Hx]%elem_of_cons; [lia | inversion Hx].
  - split.
    + destruct (Z.max_spec y (foldr Z.max k ks)) as [[_ ->]|[_ ->]].
      * apply elem_of_cons in Hin as [Hk|Hks]; [rewrite Hk; left|].
        right. right. exact Hks.
      * right. left.
    + intros x Hx.
      assert (x <= foldr Z.max k ks \/ x = y) as [Hx'| ->]; [|lia..].
      apply elem_of_cons in Hx as [->|Hx]; [left; apply Hle; left|].
      apply elem_of_cons in Hx as [->|Hx]; [right; reflexivity|].
      left. apply Hle. right. exact Hx.
Qed.

(** The series [resample_energy] hands to [resample]. *)
Lemma resample_energy_series (sel : list (Z * (Z * Qc))) (rule : Rule)
    (resample_rule : string) :
  to_offset resample_rule = Ok rule ->
  resample_energy
    (mk_indexed "Kezdo_datum" ["Hatasos_ertek_kWh"] (map indexed_row sel))
    resample_rule
  = Ok (reset_index
          (mk_indexed "Kezdo_datum" ["Hatasos_ertek_kWh"]
             (map (fun '(t, e) => (CTime t, [CFloat e]))
                  (resample_sum rule
                     (map (fun p : Z * Qc => (p.1, Fin p.2))
                          (map snd sel)))))).
Proof.
  intros Hrule. unfold resample_energy. cbn [ix_columns ix_rows index_name].
  rewrite decide_True by left. rewrite Hrule. cbn [mbind Result_bind bind].
  match goal with
  | |- context [mapM ?f ?l] =>
      assert (mapM f l
              = Ok (map (fun p : Z * Qc => (p.1, Fin p.2)) (map snd sel)))
        as ->
  end.
  { induction sel as [|x sel IH]; [reflexivity|].
    cbn [map mapM]. rewrite IH. reflexivity. }
  reflexivity.
Qed.

(** Monthly re-sampling of finite readings. *)
Lemma resample_sum_monthly (s : list (Z * Qc)) (k : Z) (ks : list Z) :
  map (fun p => Calendar.month_ordinal p.1) s = k :: ks ->
  resample_sum RMS (map (fun p : Z * Qc => (p.1, Fin p.2)) s)
  = map (fun b => (Calendar.month_start b, Fin (total (of_month b s))))
        (seqZ (foldr Z.min k ks)
              (foldr Z.max k ks - foldr Z.min k ks + 1)).
Proof.
  intros Hmonths. unfold resample_sum.
  rewrite map_map. cbn [fst bin_of]. rewrite Hmonths.
  apply map_ext. intros b. cbn [bin_label]. f_equal.
  rewrite (filter_map_comm (fun p : Z * Qc => (p.1, Fin p.2))
             (fun p => Calendar.month_ordinal p.1 = b)).
  cbn [fst]. rewrite map_map. cbn [snd].
  rewrite <- (map_map snd Fin). apply sum_Fin.
Qed.

End ResampleFacts.

Section QueryClaims.
Import Py Float pandas data_handler.

Lemma in_range_selected (lr : list (Z * (Z * Qc))) (config : FilterConfig) :
  in_range config (map snd lr)
  = map snd (filter (fun x => Calendar.combine_min (start_date config)
                              <= x.2.1
                              <= Calendar.combine_max (end_date config)) lr).
Proof.
  unfold in_range. induction lr as [|x lr IH]; [reflexivity|].
  cbn [map]. rewrite !filter_cons, IH.
  destruct (decide _); reflexivity.
Qed.

(** C7: when no reading of a canonical series starts between midnight of
    the start date and the end of the end date, the filter returns [None],
    its value for no data, for every granularity; it does not raise. *)
Theorem filter_data_outside_range (df : DataFrame) (config : FilterConfig) :
  canonical_series df ->
  (forall t e, (t, e) ∈ readings df ->
     ¬ (Calendar.combine_min (start_date config) <= t
        < Calendar.combine_min (end_date config) + Calendar.ns_per_day)) ->
  filter_data (Some df) config = Ok None.
Proof.
  intros Hcanon Hout.
  destruct (canonical_rows df Hcanon) as (lr & -> & Hread).
  rewrite Hread in Hout. rewrite filter_data_canonical. cbn zeta.
  destruct (filter _ lr) as [|y sel] eqn:Hsel; [reflexivity|].
  exfalso.
  assert (y ∈ filter (fun x => Calendar.combine_min (start_date config)
                               <= x.2.1
                               <= Calendar.combine_max (end_date config)) lr)
    as [Hrange Hy]%list_elem_of_filter by (rewrite Hsel; left).
  apply (Hout y.2.1 y.2.2).
  - apply list_elem_of_fmap. exists y. split; [destruct y as [i [t e]]; reflexivity | exact Hy].
  - pose proof (combine_max_before_next_day (end_date config)). lia.
Qed.

Lemma df_jan_mar_canonical : canonical_series df_jan_mar.
Proof.
  split; [reflexivity|].
  repeat constructor; eexists; reflexivity.
Defined.

Lemma filter_data_outside_range_witness :
  filter_data (Some df_jan_mar) year_2024_daily = Ok None.
Proof.
  apply (filter_data_outside_range df_jan_mar year_2024_daily).
  - exact df_jan_mar_canonical.
  - intros t e Hin.
    change (readings df_jan_mar) with
      [(Calendar.timestamp 2025 1 15 10 0 0, Q2Qc (inject_Z 2));
       (Calendar.timestamp 2025 1 16 10 0 0, Q2Qc (inject_Z 3));
       (Calendar.timestamp 2025 3 10 10 0 0, Q2Qc (inject_Z 7))] in Hin.
    repeat (apply elem_of_cons in Hin as [[= -> ->]|Hin]);
      [vm_compute; intros [_ H]; discriminate H ..|inversion Hin].
Defined.

(** C5 (amended): on a canonical series with at least one reading in range,
    the monthly query returns one row for every calendar month from the
    month of the earliest in-range reading to the month of the latest, in
    ascending order, labelled with the first day of the month; a row's
    energy is the sum of the in-range energies of its month, which is 0 for
    a month in between that has no reading. *)
Theorem filter_data_monthly (df : DataFrame) (config : FilterConfig) :
  canonical_series df ->
  interval config = "monthly" ->
  in_range config (readings df) <> [] ->
  exists (out : DataFrame) (first last : Z),
    filter_data (Some df) config = Ok (Some out)
    /\ (exists p, p ∈ in_range config (readings df)
                  /\ Calendar.month_ordinal p.1 = first)
    /\ (exists p, p ∈ in_range config (readings df)
                  /\ Calendar.month_ordinal p.1 = last)
    /\ (forall p, p ∈ in_range config (readings df) ->
                  first <= Calendar.month_ordinal p.1 <= last)
    /\ columns out = ["Kezdo_datum"; "Hatasos_ertek_kWh"]
    /\ rows out
       = imap (fun i k =>
                 mk_row (Z.of_nat i)
                   [CTime (Calendar.month_start k);
                    CFloat (Fin (total (of_month k
                                          (in_range config (readings df)))))])
              (seqZ first (last - first + 1)).
Proof.
  intros Hcanon Hmonthly Hne.
  destruct (canonical_rows df Hcanon) as (lr & -> & Hread).
  rewrite Hread in *. rewrite filter_data_canonical. cbn zeta.
  rewrite in_range_selected in *.
  destruct (filter _ lr) as [|y sel]; [contradiction|].
  set (rs := map snd (y :: sel)).
  rewrite Hmonthly. change (interval_map "monthly") with (Some "MS").
  cbv iota beta.
  rewrite (resample_energy_series (y :: sel) RMS "MS" eq_refl).
  cbn [mbind Result_bind bind]. fold rs.
  set (k := Calendar.month_ordinal y.2.1).
  set (ks := map (fun p : Z * Qc => Calendar.month_ordinal p.1) (map snd sel)).
  assert (map (fun p : Z * Qc => Calendar.month_ordinal p.1) rs = k :: ks)
    as Hmonths by reflexivity.
  rewrite (resample_sum_monthly rs k ks Hmonths).
  destruct (foldr_min_spec k ks) as [Hlo_in Hlo].
  destruct (foldr_max_spec k ks) as [Hhi_in Hhi].
  rewrite <- Hmonths in Hlo_in, Hhi_in, Hlo, Hhi.
  eexists _, (foldr Z.min k ks), (foldr Z.max k ks).
  split; [reflexivity|].
  split.
  { apply list_elem_of_fmap in Hlo_in as (p & Hp & Hin). exists p. done. }
  split.
  { apply list_elem_of_fmap in Hhi_in as (p & Hp & Hin). exists p. done. }
  split.
  { intros p Hp.
    assert (Calendar.month_ordinal p.1
            ∈ map (fun p : Z * Qc => Calendar.month_ordinal p.1) rs) as Hin
      by (apply list_elem_of_fmap; exists p; done).
    split; [apply Hlo | apply Hhi]; exact Hin. }
  split; [reflexivity|].
  unfold reset_index. cbn [rows ix_rows].
  rewrite map_map. rewrite (imap_fmap _ _ (seqZ _ _)).
  apply imap_ext. intros i b _. reflexivity.
Qed.

Lemma filter_data_monthly_witness :
  exists (out : DataFrame) (first last : Z),
    filter_data (Some df_jan_mar) first_quarter_monthly = Ok (Some out)
    /\ (exists p, p ∈ in_range first_quarter_monthly (readings df_jan_mar)
                  /\ Calendar.month_ordinal p.1 = first)
    /\ (exists p, p ∈ in_range first_quarter_monthly (readings df_jan_mar)
                  /\ Calendar.month_ordinal p.1 = last)
    /\ (forall p, p ∈ in_range first_quarter_monthly (readings df_jan_mar) ->
                  first <= Calendar.month_ordinal p.1 <= last)
    /\ columns out = ["Kezdo_datum"; "Hatasos_ertek_kWh"]
    /\ rows out
       = imap (fun i k =>
                 mk_row (Z.of_nat i)
                   [CTime (Calendar.month_start k);
                    CFloat (Fin (total (of_month k
                                          (in_range first_quarter_monthly
                                             (readings df_jan_mar)))))])
              (seqZ first (last - first + 1)).
Proof.
  apply (filter_data_monthly df_jan_mar first_quarter_monthly).
  - exact df_jan_mar_canonical.
  - reflexivity.
  - vm_compute. discriminate.
Defined.

(** C5 as stated fails: with readings in January and March only, the
    monthly query over the first quarter returns a row for February, a
    month without a reading. *)
Lemma monthly_query_fills_empty_months :
  ¬ (forall out : DataFrame,
       filter_data (Some df_jan_mar) first_quarter_monthly = Ok (Some out) ->
       forall r, r ∈ rows out ->
         exists p, p ∈ in_range first_quarter_monthly (readings df_jan_mar)
                   /\ cell (columns out) "Kezdo_datum" r
                      = CTime (Calendar.month_start
                                 (Calendar.month_ordinal p.1))).
Proof.
  intros Hclaim.
  assert (exists out,
            filter_data (Some df_jan_mar) first_quarter_monthly = Ok (Some out)
            /\ columns out = ["Kezdo_datum"; "Hatasos_ertek_kWh"]
            /\ mk_row 1 [CTime (Calendar.timestamp 2025 2 1 0 0 0);
                         CFloat (Fin (Q2Qc 0))] ∈ rows out)
    as (out & Hrun & Hcols & Hfeb).
  { eexists. split; [vm_compute; reflexivity|].
    split; [reflexivity|]. right. left. }
  destruct (Hclaim out Hrun _ Hfeb) as (p & Hp & Hcell).
  rewrite Hcols in Hcell.
  change (in_range first_quarter_monthly (readings df_jan_mar)) with
    (filter (fun p : Z * Qc =>
               Calendar.combine_min (start_date first_quarter_monthly) <= p.1
               <= Calendar.combine_max (end_date first_quarter_monthly))
       [(Calendar.timestamp 2025 1 15 10 0 0, Q2Qc (inject_Z 2));
        (Calendar.timestamp 2025 1 16 10 0 0, Q2Qc (inject_Z 3));
        (Calendar.timestamp 2025 3 10 10 0 0, Q2Qc (inject_Z 7))]) in Hp.
  apply list_elem_of_filter in Hp as [_ Hp].
  repeat (apply elem_of_cons in Hp as [->|Hp]);
    [vm_compute in Hcell; discriminate Hcell ..|inversion Hp].
Qed.

End QueryClaims.

(** * Further properties of the sources *)

(** ** More on row selection *)

Section SelectMore.
Import pandas.
Context {A K : Type} `{EqDecision K} (key : A -> K).

(** Keep-first loses no key: what is not retained was seen before. *)
Lemma keep_first_covers (seen : list K) (l : list A) (x : A) :
  x ∈ l -> key x ∈ seen \/ key x ∈ map key (keep_first key seen l).
Proof.
  revert seen. induction l as [|y l IH]; intros seen Hx; [inversion Hx|].
  cbn [keep_first]. apply elem_of_cons in Hx as [->|Hx].
  - destruct (decide (key y ∈ seen)); [left; assumption|]. right. left.
  - destruct (decide (key y ∈ seen)) as [Hy|Hy]; [apply IH, Hx|].
    destruct (IH (key y :: seen) Hx) as [[->|Hs]%elem_of_cons|Hk].
    + right. left.
    + left. exact Hs.
    + right. right. exact Hk.
Qed.

Lemma keep_last_covers (l : list A) (x : A) :
  x ∈ l -> key x ∈ map key (keep_last key l).
Proof.
  revert x. induction l as [|y l IH]; intros x Hx; [inversion Hx|].
  cbn [keep_last]. destruct (decide (key y ∈ map key l)) as [Hy|Hy].
  - apply elem_of_cons in Hx as [->|Hx]; [|apply IH, Hx].
    apply list_elem_of_fmap in Hy as (z & Heq & Hz).
    rewrite Heq. apply IH, Hz.
  - apply elem_of_cons in Hx as [->|Hx]; [left|]. right. apply IH, Hx.
Qed.

(** Without repeated keys nothing is removed. *)
Lemma keep_first_NoDup_id (seen : list K) (l : list A) :
  NoDup (map key l) ->
  (forall x, x ∈ l -> key x ∉ seen) ->
  keep_first key seen l = l.
Proof.
  revert seen. induction l as [|y l IH]; intros seen Hnd Hseen; [reflexivity|].
  cbn [keep_first]. cbn [map] in Hnd. apply NoDup_cons in Hnd as [Hy Hnd].
  rewrite decide_False by (apply Hseen; left).
  f_equal. apply IH; [exact Hnd|].
  intros x Hx [Heq|Hin]%elem_of_cons.
  - apply Hy. rewrite <- Heq. apply list_elem_of_fmap. exists x. done.
  - apply (Hseen x); [right; exact Hx | exact Hin].
Qed.

Lemma keep_last_NoDup_id (l : list A) :
  NoDup (map key l) -> keep_last key l = l.
Proof.
  induction l as [|y l IH]; intros Hnd; [reflexivity|].
  cbn [keep_last]. cbn [map] in Hnd. apply NoDup_cons in Hnd as [Hy Hnd].
  rewrite decide_False by exact Hy. f_equal. apply IH, Hnd.
Qed.

End SelectMore.

Section SelectTwoKeys.
Import pandas.
Context {A F G : Type} `{EqDecision F} `{EqDecision G}.
Context (full : A -> F) (part : A -> G).
Hypothesis part_of_full : forall x y, full x = full y -> part x = part y.

(** Keep-first under a coarser key does not notice an earlier keep-first
    under a finer one. *)
Lemma keep_first_absorbs (seenF : list F) (seenG : list G) (l : list A) :
  (forall x, full x ∈ seenF -> part x ∈ seenG) ->
  keep_first part seenG (keep_first full seenF l) = keep_first part seenG l.
Proof.
  revert seenF seenG. induction l as [|y l IH]; intros seenF seenG Hinv;
    [reflexivity|].
  cbn [keep_first].
  destruct (decide (full y ∈ seenF)) as [Hf|Hf].
  - rewrite (decide_True (P := part y ∈ seenG)) by (apply Hinv, Hf).
    apply IH, Hinv.
  - cbn [keep_first]. destruct (decide (part y ∈ seenG)) as [Hg|Hg].
    + apply IH. intros x [Heq|Hin]%elem_of_cons; [|apply Hinv, Hin].
      rewrite (part_of_full _ _ Heq). exact Hg.
    + f_equal. apply IH. intros x [Heq|Hin]%elem_of_cons.
      * rewrite (part_of_full _ _ Heq). left.
      * right. apply Hinv, Hin.
Qed.

Lemma NoDup_finer (l : list A) : NoDup (map part l) -> NoDup (map full l).
Proof.
  induction l as [|y l IH]; cbn [map]; intros Hnd; [constructor|].
  apply NoDup_cons in Hnd as [Hy Hnd]. constructor; [|apply IH, Hnd].
  intros (x & Heq & Hx)%list_elem_of_fmap. apply Hy.
  rewrite (part_of_full _ _ Heq). apply list_elem_of_fmap. exists x. done.
Qed.

End SelectTwoKeys.

(** ** More on the duplicate handler *)

Section HandlerMore.
Import Py Float pandas duplicate_handler.

Lemma map_eq_pointwise {A B} (f g : A -> B) (l : list A) (x : A) :
  map f l = map g l -> x ∈ l -> f x = g x.
Proof.
  induction l as [|y l IH]; cbn [map]; intros Heq Hx; [inversion Hx|].
  injection Heq as Hy Heq.
  apply elem_of_cons in Hx as [->|Hx]; [exact Hy | apply IH; assumption].
Qed.

(** Rows that agree on all columns agree on any columns among them. *)
Lemma row_key_subset (cols subset : list string) (r1 r2 : Row) :
  subset ⊆ cols ->
  row_key cols cols r1 = row_key cols cols r2 ->
  row_key cols subset r1 = row_key cols subset r2.
Proof.
  intros Hsub Heq. unfold row_key in *.
  induction subset as [|c subset IH]; [reflexivity|].
  cbn [map]. f_equal.
  - apply (map_eq_pointwise _ _ cols c Heq), Hsub. left.
  - apply IH. intros x Hx. apply Hsub. right. exact Hx.
Qed.

Lemma retained_covers {A} (keep : string) (key : A -> list Cell) (l : list A)
    (x : A) :
  x ∈ l -> key x ∈ map key (retained keep key l).
Proof.
  intros Hx. unfold retained. destruct (decide _).
  - destruct (keep_first_covers key [] l x Hx) as [Hnil|Hin];
      [inversion Hnil | exact Hin].
  - apply keep_last_covers, Hx.
Qed.

Lemma retained_NoDup_id {A} (keep : string) (key : A -> list Cell)
    (l : list A) :
  NoDup (map key l) -> retained keep key l = l.
Proof.
  intros Hnd. unfold retained. destruct (decide _).
  - apply keep_first_NoDup_id; [exact Hnd|]. intros x _ Hin. inversion Hin.
  - apply keep_last_NoDup_id, Hnd.
Qed.

(** Both strategies retain one row for each key, so equally many. *)
Lemma retained_length {A} (keep1 keep2 : string) (key : A -> list Cell)
    (l : list A) :
  length (retained keep1 key l) = length (retained keep2 key l).
Proof.
  rewrite <- (length_map key (retained keep1 key l)).
  rewrite <- (length_map key (retained keep2 key l)).
  apply Permutation_length, NoDup_Permutation; try apply retained_NoDup.
  intros k. split; intros (x & -> & Hx)%list_elem_of_fmap;
    apply retained_covers; eapply elem_of_sublist;
    [exact Hx | apply retained_sublist | exact Hx | apply retained_sublist].
Qed.

Lemma deduplicated_covers (df : DataFrame) (subset : list string)
    (keep : string) (r : Row) :
  r ∈ rows df ->
  row_key (columns df) subset r
  ∈ map (row_key (columns df) subset) (rows (deduplicated df subset keep)).
Proof.
  intros Hr. unfold deduplicated. destruct (empty df).
  - apply list_elem_of_fmap. exists r. done.
  - apply retained_covers, Hr.
Qed.

Lemma deduplicated_length (df : DataFrame) (subset : list string)
    (keep1 keep2 : string) :
  len (deduplicated df subset keep1) = len (deduplicated df subset keep2).
Proof.
  unfold len, deduplicated. destruct (empty df); [reflexivity|].
  cbn [rows]. f_equal. apply retained_length.
Qed.

Lemma deduplicated_NoDup_id (df : DataFrame) (subset : list string)
    (keep : string) :
  NoDup (map (row_key (columns df) subset) (rows df)) ->
  deduplicated df subset keep = df.
Proof.
  intros Hnd. unfold deduplicated. destruct (empty df); [reflexivity|].
  rewrite (retained_NoDup_id _ _ _ Hnd). destruct df; reflexivity.
Qed.

Lemma resolved_length (df : DataFrame) (keep1 keep2 : string) :
  len (resolved df keep1) = len (resolved df keep2).
Proof.
  unfold resolved. destruct (decide _); [|reflexivity].
  apply deduplicated_length.
Qed.

Lemma resolved_length_le (df : DataFrame) (keep : string) :
  0 <= len (resolved df keep)
       <= len (deduplicated df (columns df) "first")
  /\ len (deduplicated df (columns df) "first") <= len df.
Proof.
  unfold len. split; [split; [lia|]|].
  - apply inj_le. unfold resolved. destruct (decide _); [|reflexivity].
    apply sublist_length, deduplicated_sublist.
  - apply inj_le, sublist_length, deduplicated_sublist.
Qed.

Lemma resolved_idempotent (df : DataFrame) (keep : string) :
  resolved (resolved df keep) keep = resolved df keep.
Proof.
  set (d1 := deduplicated df (columns df) "first").
  assert (resolved df keep
          = if decide (duplicate_columns ⊆ columns df)
            then deduplicated d1 duplicate_columns keep else d1) as Hout.
  { unfold resolved. fold d1.
    destruct (decide (duplicate_columns ⊆ columns d1)) as [H|H];
      destruct (decide (duplicate_columns ⊆ columns df)) as [H'|H'];
      try reflexivity; unfold d1 in H; rewrite deduplicated_columns in H;
      contradiction. }
  destruct (decide (duplicate_columns ⊆ columns df)) as [Hcols|Hcols].
  - set (out := resolved df keep) in *.
    assert (columns out = columns df) as Hc by apply resolved_columns.
    assert (NoDup (map (row_key (columns out) duplicate_columns) (rows out)))
      as Hnd.
    { rewrite Hc, Hout.
      pose proof (deduplicated_NoDup d1 duplicate_columns keep) as H.
      unfold d1 in H at 1 2. rewrite deduplicated_columns in H. apply H.
      intros Hnil. specialize (Hcols "Gyariszam"). rewrite Hnil in Hcols.
      assert ("Gyariszam" ∈ @nil string) as Hin by (apply Hcols; left).
      inversion Hin. }
    unfold resolved.
    rewrite (deduplicated_NoDup_id out (columns out) "first").
    + rewrite decide_True by (rewrite Hc; exact Hcols).
      apply deduplicated_NoDup_id, Hnd.
    + apply (NoDup_finer (row_key (columns out) (columns out))
               (row_key (columns out) duplicate_columns)); [|exact Hnd].
      intros x y. apply row_key_subset. rewrite Hc. exact Hcols.
  - rewrite Hout. unfold resolved.
    change (deduplicated d1 (columns d1) "first")
      with (let once := deduplicated df (columns df) "first" in
            deduplicated once (columns once) "first").
    rewrite deduplicated_idempotent. fold d1.
    rewrite decide_False; [reflexivity|].
    unfold d1. rewrite deduplicated_columns. exact Hcols.
Qed.

(** With keep='first' the interval-key pass alone gives the same frame. *)
Lemma resolved_first (df : DataFrame) :
  duplicate_columns ⊆ columns df ->
  resolved df "first" = deduplicated df duplicate_columns "first".
Proof.
  intros Hcols. rewrite (resolved_present _ _ Hcols).
  unfold deduplicated at 2 3. destruct (empty df) eqn:He.
  { unfold deduplicated. rewrite He. reflexivity. }
  destruct df as [cols rs]. cbn [columns rows] in *.
  destruct rs as [|r rs]; [destruct cols; discriminate|].
  destruct cols as [|c cols]; [discriminate|].
  unfold deduplicated, retained. rewrite !decide_True by reflexivity.
  cbn [keep_first columns rows]. rewrite decide_False by (intros H; inversion H).
  rewrite empty_cons. cbn [columns rows]. f_equal.
  change (r :: keep_first ?k ?s rs) with (keep_first k [] (r :: rs)).
  cbn [keep_first].
  rewrite !(decide_False (P := _ ∈ [])) by (intros H; inversion H).
  cbn [keep_first].
  rewrite !(decide_False (P := _ ∈ [])) by (intros H; inversion H).
  f_equal.
  apply (keep_first_absorbs (row_key (c :: cols) (c :: cols))
           (row_key (c :: cols) duplicate_columns)).
  - intros x y. apply row_key_subset, Hcols.
  - intros x [Heq|Hin]%elem_of_cons; [|inversion Hin].
    rewrite (row_key_subset _ _ _ _ Hcols Heq). left.
Qed.

End HandlerMore.

Section HandlerExtras.
Import Py Float pandas duplicate_handler.

(** X1: the statistics of a run fit together: the final count is at most
    the initial count, both removal counts are non-negative, and they add
    up to [removed_total]; [overlap_duplicates] is 0. *)
Theorem statistics_are_consistent (w : World) (l : loc) (df : DataFrame)
    (keep : string) (detailed_logging : bool) :
  heap w !! l = Some df ->
  keep = "first" \/ keep = "last" ->
  exists (l' : loc) (w' : World) (stats : DuplicationStats),
    remove_duplicates l keep detailed_logging w = Ok (l', w')
    /\ last_stats w' = Some stats
    /\ 0 <= final_count stats <= initial_count stats
    /\ 0 <= full_row_duplicates stats
    /\ 0 <= content_duplicates stats
    /\ removed_total stats
       = full_row_duplicates stats + content_duplicates stats
    /\ overlap_duplicates stats = 0.
Proof.
  intros Hl Hkeep.
  destruct (remove_duplicates_run w l df keep detailed_logging Hl Hkeep)
    as (l' & extra & Hrun & _ & _).
  exists l'. do 2 eexists. split; [exact Hrun|]. split; [reflexivity|].
  cbn. pose proof (resolved_length_le df keep). lia.
Qed.

Lemma statistics_are_consistent_witness :
  exists (l' : loc) (w' : World) (stats : DuplicationStats),
    remove_duplicates 0%nat "last" true (mk_world [df_test] None) = Ok (l', w')
    /\ last_stats w' = Some stats
    /\ 0 <= final_count stats <= initial_count stats
    /\ 0 <= full_row_duplicates stats
    /\ 0 <= content_duplicates stats
    /\ removed_total stats
       = full_row_duplicates stats + content_duplicates stats
    /\ overlap_duplicates stats = 0.
Proof.
  apply (statistics_are_consistent (mk_world [df_test] None) 0%nat df_test).
  - reflexivity.
  - right. reflexivity.
Defined.

(** X2: the recorded retention rate lies between 0 and 100; on a table
    without rows it is 0, and no division takes place. *)
Theorem retention_rate_bounds (w : World) (l : loc) (df : DataFrame)
    (keep : string) (detailed_logging : bool) :
  heap w !! l = Some df ->
  keep = "first" \/ keep = "last" ->
  exists (l' : loc) (w' : World) (stats : DuplicationStats),
    remove_duplicates l keep detailed_logging w = Ok (l', w')
    /\ last_stats w' = Some stats
    /\ leb (of_Z 0) (retention_rate stats) = true
    /\ leb (retention_rate stats) (of_Z 100) = true
    /\ (rows df = [] -> retention_rate stats = of_Z 0).
Proof.
  intros Hl Hkeep.
  destruct (remove_duplicates_run w l df keep detailed_logging Hl Hkeep)
    as (l' & extra & Hrun & _ & _).
  exists l'. do 2 eexists. split; [exact Hrun|]. split; [reflexivity|].
  cbn [retention_rate].
  pose proof (resolved_length_le df keep) as [[Hge Hle1] Hle2].
  destruct (0 <? len df) eqn:Hpos.
  - apply Z.ltb_lt in Hpos.
    rewrite percent_of_counts by lia.
    split; [apply leb_of_Z_Q, Qle_Z_div; lia|].
    split; [apply leb_Q_of_Z, Qle_div_Z; lia|].
    intros Hnil. unfold len in Hpos. rewrite Hnil in Hpos. cbn in Hpos. lia.
  - split; [reflexivity|]. split; reflexivity.
Qed.

Lemma retention_rate_bounds_witness :
  exists (l' : loc) (w' : World) (stats : DuplicationStats),
    remove_duplicates 0%nat "first" true (mk_world [df_test] None) = Ok (l', w')
    /\ last_stats w' = Some stats
    /\ leb (of_Z 0) (retention_rate stats) = true
    /\ leb (retention_rate stats) (of_Z 100) = true
    /\ (rows df_test = [] -> retention_rate stats = of_Z 0).
Proof.
  apply (retention_rate_bounds (mk_world [df_test] None) 0%nat df_test).
  - reflexivity.
  - left. reflexivity.
Defined.

(** X3: no interval is lost: the key values (Gyariszam, Azonosito,
    Kezdo_datum, Zaro_datum) that occur in the result are exactly those
    that occur in the input. *)
Theorem remove_duplicates_keeps_every_key (w : World) (l : loc)
    (df : DataFrame) (keep : string) (detailed_logging : bool) :
  heap w !! l = Some df ->
  duplicate_columns ⊆ columns df ->
  keep = "first" \/ keep = "last" ->
  exists (l' : loc) (w' : World) (out : DataFrame),
    remove_duplicates l keep detailed_logging w = Ok (l', w')
    /\ heap w' !! l' = Some out
    /\ forall k : list Cell,
         k ∈ map (row_key (columns df) duplicate_columns) (rows df)
         <-> k ∈ map (row_key (columns out) duplicate_columns) (rows out).
Proof.
  intros Hl Hcols Hkeep.
  destruct (remove_duplicates_run w l df keep detailed_logging Hl Hkeep)
    as (l' & extra & Hrun & Hout & _).
  exists l'. do 2 eexists. split; [exact Hrun|]. split; [exact Hout|].
  intros k. rewrite resolved_columns. split.
  - intros (r & -> & Hr)%list_elem_of_fmap.
    rewrite (resolved_present _ _ Hcols).
    set (d1 := deduplicated df (columns df) "first").
    pose proof (deduplicated_covers df (columns df) "first" r Hr) as H1.
    apply list_elem_of_fmap in H1 as (r1 & Heq & Hr1). fold d1 in Hr1.
    rewrite (row_key_subset _ _ _ _ Hcols Heq).
    pose proof (deduplicated_covers d1 duplicate_columns keep r1 Hr1) as H2.
    unfold d1 in H2 at 1 2. rewrite deduplicated_columns in H2. exact H2.
  - intros (r & -> & Hr)%list_elem_of_fmap.
    apply list_elem_of_fmap. exists r. split; [reflexivity|].
    eapply elem_of_sublist; [exact Hr | apply resolved_sublist].
Qed.

Lemma remove_duplicates_keeps_every_key_witness :
  exists (l' : loc) (w' : World) (out : DataFrame),
    remove_duplicates 0%nat "last" true (mk_world [df_test] None) = Ok (l', w')
    /\ heap w' !! l' = Some out
    /\ forall k : list Cell,
         k ∈ map (row_key (columns df_test) duplicate_columns) (rows df_test)
         <-> k ∈ map (row_key (columns out) duplicate_columns) (rows out).
Proof.
  apply (remove_duplicates_keeps_every_key (mk_world [df_test] None) 0%nat
           df_test).
  - reflexivity.
  - exact df_test_has_key_columns.
  - right. reflexivity.
Defined.

(** X4: the keep strategy decides which rows stay, not how many: from the
    same table, keep='first' and keep='last' return equally many rows and
    leave the same statistics. *)
Theorem keep_strategy_does_not_change_counts (w : World) (l : loc)
    (df : DataFrame) (detailed_logging : bool) :
  heap w !! l = Some df ->
  exists (l1 l2 : loc) (w1 w2 : World) (out1 out2 : DataFrame),
    remove_duplicates l "first" detailed_logging w = Ok (l1, w1)
    /\ remove_duplicates l "last" detailed_logging w = Ok (l2, w2)
    /\ heap w1 !! l1 = Some out1
    /\ heap w2 !! l2 = Some out2
    /\ len out1 = len out2
    /\ last_stats w1 = last_stats w2.
Proof.
  intros Hl.
  destruct (remove_duplicates_run w l df "first" detailed_logging Hl
              (or_introl eq_refl)) as (l1 & extra1 & Hrun1 & Hout1 & _).
  destruct (remove_duplicates_run w l df "last" detailed_logging Hl
              (or_intror eq_refl)) as (l2 & extra2 & Hrun2 & Hout2 & _).
  exists l1, l2. do 4 eexists.
  split; [exact Hrun1|]. split; [exact Hrun2|].
  split; [exact Hout1|]. split; [exact Hout2|].
  split; [apply resolved_length|].
  cbn [last_stats]. rewrite (resolved_length df "first" "last"). reflexivity.
Qed.

Lemma keep_strategy_does_not_change_counts_witness :
  exists (l1 l2 : loc) (w1 w2 : World) (out1 out2 : DataFrame),
    remove_duplicates 0%nat "first" true (mk_world [df_test] None)
    = Ok (l1, w1)
    /\ remove_duplicates 0%nat "last" true (mk_world [df_test] None)
       = Ok (l2, w2)
    /\ heap w1 !! l1 = Some out1
    /\ heap w2 !! l2 = Some out2
    /\ len out1 = len out2
    /\ last_stats w1 = last_stats w2.
Proof.
  apply (keep_strategy_does_not_change_counts (mk_world [df_test] None) 0%nat
           df_test).
  reflexivity.
Defined.

(** X5: with keep='first' the full-row pass changes nothing in the end:
    the frame returned is the one the interval-key pass alone,
    [drop_duplicates(subset=duplicate_columns, keep='first')], gives on the
    input. *)
Theorem keep_first_is_the_key_pass_alone (w : World) (l : loc) (df : DataFrame)
    (detailed_logging : bool) :
  heap w !! l = Some df ->
  duplicate_columns ⊆ columns df ->
  exists (l' : loc) (w' : World) (out : DataFrame),
    remove_duplicates l "first" detailed_logging w = Ok (l', w')
    /\ heap w' !! l' = Some out
    /\ drop_duplicates df (Some duplicate_columns) "first" = Ok out.
Proof.
  intros Hl Hcols.
  destruct (remove_duplicates_run w l df "first" detailed_logging Hl
              (or_introl eq_refl)) as (l' & extra & Hrun & Hout & _).
  exists l'. do 2 eexists. split; [exact Hrun|]. split; [exact Hout|].
  rewrite (resolved_first _ Hcols).
  apply (drop_duplicates_Ok df (Some duplicate_columns) "first");
    [exact Hcols | left; reflexivity].
Qed.

Lemma keep_first_is_the_key_pass_alone_witness :
  exists (l' : loc) (w' : World) (out : DataFrame),
    remove_duplicates 0%nat "first" true (mk_world [df_test] None) = Ok (l', w')
    /\ heap w' !! l' = Some out
    /\ drop_duplicates df_test (Some duplicate_columns) "first" = Ok out.
Proof.
  apply (keep_first_is_the_key_pass_alone (mk_world [df_test] None) 0%nat
           df_test).
  - reflexivity.
  - exact df_test_has_key_columns.
Defined.

(** X6: cleaning a cleaned table changes nothing: [remove_duplicates] run
    on its own result returns an equal frame and records that no row was
    removed. *)
Theorem remove_duplicates_idempotent (w : World) (l : loc) (df : DataFrame)
    (keep : string) (detailed_logging : bool) :
  heap w !! l = Some df ->
  keep = "first" \/ keep = "last" ->
  exists (l1 l2 : loc) (w1 w2 : World) (out : DataFrame)
         (stats : DuplicationStats),
    remove_duplicates l keep detailed_logging w = Ok (l1, w1)
    /\ heap w1 !! l1 = Some out
    /\ remove_duplicates l1 keep detailed_logging w1 = Ok (l2, w2)
    /\ heap w2 !! l2 = Some out
    /\ last_stats w2 = Some stats
    /\ removed_total stats = 0
    /\ final_count stats = initial_count stats.
Proof.
  intros Hl Hkeep.
  destruct (remove_duplicates_run w l df keep detailed_logging Hl Hkeep)
    as (l1 & extra1 & Hrun1 & Hout1 & _).
  match type of Hrun1 with _ = Ok (_, ?w1) =>
    destruct (remove_duplicates_run w1 l1 (resolved df keep) keep
                detailed_logging Hout1 Hkeep)
      as (l2 & extra2 & Hrun2 & Hout2 & _)
  end.
  rewrite resolved_idempotent in Hout2.
  exists l1, l2. do 4 eexists.
  split; [exact Hrun1|]. split; [exact Hout1|].
  split; [exact Hrun2|]. split; [exact Hout2|].
  split; [reflexivity|]. cbn. rewrite resolved_idempotent. lia.
Qed.

Lemma remove_duplicates_idempotent_witness :
  exists (l1 l2 : loc) (w1 w2 : World) (out : DataFrame)
         (stats : DuplicationStats),
    remove_duplicates 0%nat "last" true (mk_world [df_test] None) = Ok (l1, w1)
    /\ heap w1 !! l1 = Some out
    /\ remove_duplicates l1 "last" true w1 = Ok (l2, w2)
    /\ heap w2 !! l2 = Some out
    /\ last_stats w2 = Some stats
    /\ removed_total stats = 0
    /\ final_count stats = initial_count stats.
Proof.
  apply (remove_duplicates_idempotent (mk_world [df_test] None) 0%nat df_test).
  - reflexivity.
  - right. reflexivity.
Defined.

End HandlerExtras.

(** ** More on the series query layer *)

Section QueryMore.
Import Py Float pandas data_handler.


(** Re-sampling finite readings, for any of the frequencies. *)
Lemma resample_sum_finite (rule : Rule) (s : list (Z * Qc)) (k : Z)
    (ks : list Z) :
  map (fun p => bin_of rule p.1) s = k :: ks ->
  resample_sum rule (map (fun p : Z * Qc => (p.1, Fin p.2)) s)
  = map (fun b =>
           (bin_label rule b,
            Fin (total (filter (fun p => bin_of rule p.1 = b) s))))
        (seqZ (foldr Z.min k ks)
              (foldr Z.max k ks - foldr Z.min k ks + 1)).
Proof.
  intros Hbins. unfold resample_sum.
  rewrite map_map. cbn [fst]. rewrite Hbins.
  apply map_ext. intros b. f_equal.
  rewrite (filter_map_comm (fun p : Z * Qc => (p.1, Fin p.2))
             (fun p => bin_of rule p.1 = b)).
  cbn [fst]. rewrite map_map. cbn [snd].
  rewrite <- (map_map snd Fin). apply sum_Fin.
Qed.




Lemma readings_series_rows {A} (f : A -> Z * (Z * Qc)) (l : list A) :
  omap reading (map (fun x => series_row (f x)) l) = map (fun x => (f x).2) l.
Proof.
  induction l as [|x l IH]; [reflexivity|].
  cbn [map omap list_omap]. rewrite IH.
  destruct (f x) as [i [t e]]. reflexivity.
Qed.

Lemma labelled_series_rows (lab : nat -> Z) (ps : list (Z * Qc)) :
  omap reading (imap (fun i p => series_row (lab i, p)) ps) = ps
  /\ Forall (fun r => is_Some (reading r))
            (imap (fun i p => series_row (lab i, p)) ps).
Proof.
  revert lab. induction ps as [|[t e] ps IH]; intros lab.
  - split; [reflexivity | constructor].
  - destruct (IH (lab ∘ S)) as [Hread Hall]. cbn [imap omap list_omap].
    split.
    + cbn. f_equal. exact Hread.
    + constructor; [eexists; reflexivity | exact Hall].
Qed.

Lemma imap_series_rows (ps : list (Z * Qc)) :
  readings
    (mk_df ["Kezdo_datum"; "Hatasos_ertek_kWh"]
       (imap (fun i p => series_row (Z.of_nat i, p)) ps))
  = ps
  /\ canonical_series
       (mk_df ["Kezdo_datum"; "Hatasos_ertek_kWh"]
          (imap (fun i p => series_row (Z.of_nat i, p)) ps)).
Proof.
  destruct (labelled_series_rows Z.of_nat ps) as [Hread Hall].
  split; [exact Hread|]. split; [reflexivity | exact Hall].
Qed.

End QueryMore.

Section QueryExtras.
Import Py Float pandas data_handler.

(** The aggregated result, for any granularity of [interval_map]. *)
Lemma filter_data_aggregated (df : DataFrame) (config : FilterConfig)
    (resample_rule : string) (rule : Rule) :
  canonical_series df ->
  interval_map (interval config) = Some resample_rule ->
  to_offset resample_rule = Ok rule ->
  in_range config (readings df) <> [] ->
  exists (first last : Z),
    (exists p, p ∈ in_range config (readings df) /\ bin_of rule p.1 = first)
    /\ (exists p, p ∈ in_range config (readings df) /\ bin_of rule p.1 = last)
    /\ (forall p, p ∈ in_range config (readings df) ->
                  first <= bin_of rule p.1 <= last)
    /\ filter_data (Some df) config
       = Ok (Some
               (mk_df ["Kezdo_datum"; "Hatasos_ertek_kWh"]
                  (imap (fun i p => series_row (Z.of_nat i, p))
                     (map (fun b =>
                             (bin_label rule b,
                              total (filter (fun p => bin_of rule p.1 = b)
                                       (in_range config (readings df)))))
                          (seqZ first (last - first + 1)))))).
Proof.
  intros Hcanon Hmap Hrule Hne.
  destruct (canonical_rows df Hcanon) as (lr & -> & Hread).
  rewrite Hread in *. rewrite filter_data_canonical. cbn zeta.
  rewrite in_range_selected in *.
  destruct (filter _ lr) as [|y sel]; [contradiction|].
  set (rs := map snd (y :: sel)).
  rewrite Hmap. cbv iota beta.
  rewrite (resample_energy_series (y :: sel) rule resample_rule Hrule).
  cbn [mbind Result_bind bind]. fold rs.
  set (k := bin_of rule y.2.1).
  set (ks := map (fun p : Z * Qc => bin_of rule p.1) (map snd sel)).
  assert (map (fun p : Z * Qc => bin_of rule p.1) rs = k :: ks)
    as Hbins by reflexivity.
  rewrite (resample_sum_finite rule rs k ks Hbins).
  destruct (foldr_min_spec k ks) as [Hlo_in Hlo].
  destruct (foldr_max_spec k ks) as [Hhi_in Hhi].
  rewrite <- Hbins in Hlo_in, Hhi_in, Hlo, Hhi.
  exists (foldr Z.min k ks), (foldr Z.max k ks).
  split.
  { apply list_elem_of_fmap in Hlo_in as (p & Hp & Hin). exists p. done. }
  split.
  { apply list_elem_of_fmap in Hhi_in as (p & Hp & Hin). exists p. done. }
  split.
  { intros p Hp.
    assert (bin_of rule p.1 ∈ map (fun p : Z * Qc => bin_of rule p.1) rs)
      as Hin by (apply list_elem_of_fmap; exists p; done).
    split; [apply Hlo | apply Hhi]; exact Hin. }
  do 2 f_equal. unfold reset_index. cbn [rows ix_rows index_name ix_columns].
  f_equal. rewrite map_map.
  rewrite (imap_fmap _ _ (seqZ _ _)). rewrite (imap_fmap _ _ (seqZ _ _)).
  apply imap_ext. intros i b _. reflexivity.
Qed.

Lemma filter_data_without_aggregation_aux (df : DataFrame)
    (config : FilterConfig) :
  canonical_series df ->
  interval_map (interval config) = None ->
  in_range config (readings df) <> [] ->
  exists out : DataFrame,
    filter_data (Some df) config = Ok (Some out)
    /\ (columns out = ["Kezdo_datum"; "Hatasos_ertek_kWh"]
        /\ rows out = imap (fun i p => series_row (Z.of_nat i, p))
                           (in_range config (readings df)))
    /\ readings out = in_range config (readings df).
Proof.
  intros Hcanon Hmap Hne.
  destruct (canonical_rows df Hcanon) as (lr & -> & Hread).
  rewrite Hread in *. rewrite filter_data_canonical. cbn zeta.
  rewrite in_range_selected in *.
  destruct (filter _ lr) as [|y sel]; [contradiction|].
  rewrite Hmap. eexists. split; [reflexivity|].
  assert (rows (reset_index
                  (mk_indexed "Kezdo_datum" ["Hatasos_ertek_kWh"]
                     (map indexed_row (y :: sel))))
          = imap (fun i p => series_row (Z.of_nat i, p)) (map snd (y :: sel)))
    as Hrows.
  { unfold reset_index. cbn [rows ix_rows].
    rewrite (imap_fmap _ _ (y :: sel)). rewrite (imap_fmap _ _ (y :: sel)).
    apply imap_ext. intros i [lab [t e]] _. reflexivity. }
  split; [split; [reflexivity | exact Hrows]|].
  unfold readings. rewrite Hrows.
  apply (labelled_series_rows Z.of_nat).
Qed.

(** X7: with a granularity that [interval_map] does not list, a canonical
    series is not aggregated: the result holds exactly the readings that
    start in the range, in their order, with new labels 0, 1, 2, ... *)
Theorem filter_data_without_aggregation (df : DataFrame)
    (config : FilterConfig) :
  canonical_series df ->
  interval_map (interval config) = None ->
  in_range config (readings df) <> [] ->
  exists out : DataFrame,
    filter_data (Some df) config = Ok (Some out)
    /\ columns out = ["Kezdo_datum"; "Hatasos_ertek_kWh"]
    /\ rows out = imap (fun i p => series_row (Z.of_nat i, p))
                       (in_range config (readings df))
    /\ readings out = in_range config (readings df).
Proof.
  intros Hcanon Hmap Hne.
  destruct (filter_data_without_aggregation_aux df config Hcanon Hmap Hne)
    as (out & Hrun & [Hcols Hrows] & Hread).
  exists out. split; [exact Hrun|]. split; [exact Hcols|].
  split; [exact Hrows | exact Hread].
Qed.

Lemma filter_data_without_aggregation_witness :
  exists out : DataFrame,
    filter_data (Some df_jan_mar) january_raw = Ok (Some out)
    /\ columns out = ["Kezdo_datum"; "Hatasos_ertek_kWh"]
    /\ rows out = imap (fun i p => series_row (Z.of_nat i, p))
                       (in_range january_raw (readings df_jan_mar))
    /\ readings out = in_range january_raw (readings df_jan_mar).
Proof.
  apply (filter_data_without_aggregation df_jan_mar january_raw).
  - exact df_jan_mar_canonical.
  - reflexivity.
  - vm_compute. discriminate.
Defined.

(** X8: for each of the five granularities the result has one row for
    every bucket from the bucket of the earliest reading in range to the
    bucket of the latest, in ascending order and labelled 0, 1, 2, ...; a
    row holds the label of its bucket and the sum of the in-range energies
    that fall in it, 0 for a bucket without readings. *)
Theorem filter_data_every_bucket (df : DataFrame) (config : FilterConfig)
    (resample_rule : string) (rule : Rule) :
  canonical_series df ->
  interval_map (interval config) = Some resample_rule ->
  to_offset resample_rule = Ok rule ->
  in_range config (readings df) <> [] ->
  exists (out : DataFrame) (first last : Z),
    filter_data (Some df) config = Ok (Some out)
    /\ (exists p, p ∈ in_range config (readings df) /\ bin_of rule p.1 = first)
    /\ (exists p, p ∈ in_range config (readings df) /\ bin_of rule p.1 = last)
    /\ (forall p, p ∈ in_range config (readings df) ->
                  first <= bin_of rule p.1 <= last)
    /\ readings out
       = map (fun b =>
                (bin_label rule b,
                 total (filter (fun p => bin_of rule p.1 = b)
                          (in_range config (readings df)))))
             (seqZ first (last - first + 1))
    /\ map label (rows out)
       = map Z.of_nat (seq 0 (length (rows out))).
Proof.
  intros Hcanon Hmap Hrule Hne.
  destruct (filter_data_aggregated df config resample_rule rule
              Hcanon Hmap Hrule Hne)
    as (first & last & Hfirst & Hlast & Hbetween & Hrun).
  eexists _, first, last. split; [exact Hrun|].
  split; [exact Hfirst|]. split; [exact Hlast|]. split; [exact Hbetween|].
  split; [apply imap_series_rows|].
  cbn [rows]. generalize (map (fun b =>
                                 (bin_label rule b,
                                  total (filter (fun p => bin_of rule p.1 = b)
                                           (in_range config (readings df)))))
                              (seqZ first (last - first + 1))).
  intros ps. rewrite length_imap.
  change (fun (i : nat) (p : Z * Qc) => series_row (Z.of_nat i, p))
    with (fun (i : nat) (p : Z * Qc) =>
            series_row ((Z.of_nat ∘ Nat.add 0) i, p)).
  generalize 0%nat. induction ps as [|p ps IH]; intros start; [reflexivity|].
  cbn [imap map length seq]. f_equal; [cbn; f_equal; lia|].
  rewrite <- (IH (S start)). f_equal. apply imap_ext.
  intros i q _. cbn. do 2 f_equal. lia.
Qed.

Lemma filter_data_every_bucket_witness :
  exists (out : DataFrame) (first last : Z),
    filter_data (Some df_jan_mar) first_quarter_weekly = Ok (Some out)
    /\ (exists p, p ∈ in_range first_quarter_weekly (readings df_jan_mar)
                  /\ bin_of RWMON p.1 = first)
    /\ (exists p, p ∈ in_range first_quarter_weekly (readings df_jan_mar)
                  /\ bin_of RWMON p.1 = last)
    /\ (forall p, p ∈ in_range first_quarter_weekly (readings df_jan_mar) ->
                  first <= bin_of RWMON p.1 <= last)
    /\ readings out
       = map (fun b =>
                (bin_label RWMON b,
                 total (filter (fun p => bin_of RWMON p.1 = b)
                          (in_range first_quarter_weekly
                             (readings df_jan_mar)))))
             (seqZ first (last - first + 1))
    /\ map label (rows out)
       = map Z.of_nat (seq 0 (length (rows out))).
Proof.
  apply (filter_data_every_bucket df_jan_mar first_quarter_weekly "W-MON").
  - exact df_jan_mar_canonical.
  - reflexivity.
  - reflexivity.
  - vm_compute. discriminate.
Defined.




End QueryExtras.

(** ** Sum, mean, minimum and maximum of finite values *)

Section FiniteColumns.
Import Float.












End FiniteColumns.

Section StatisticsExtras.
Import Py Float pandas data_handler.

Lemma to_float_finite {A} (e : A -> Qc) (l : list A) :
  mapM to_float (map (fun x => CFloat (Fin (e x))) l)
  = Ok (map (fun x => Fin (e x)) l).
Proof.
  induction l as [|x l IH]; [reflexivity|].
  cbn [map mapM]. rewrite IH. reflexivity.
Qed.

Lemma to_time_stamps {A} (t : A -> Z) (l : list A) :
  mapM to_time (map (fun x => CTime (t x)) l)
  = Ok (map (fun x => Some (t x)) l).
Proof.
  induction l as [|x l IH]; [reflexivity|].
  cbn [map mapM]. rewrite IH. reflexivity.
Qed.











End StatisticsExtras.

(** ** More on the quality validator *)

Section HealthExtras.
Import Py Float pandas data_validator.

(** X13: the overall health of a non-empty list of results is the worst
    severity in it: critical when some result is critical, otherwise a
    warning when some result is a warning, otherwise healthy; it is never
    unknown. *)
Theorem overall_health_is_worst_severity (results : list ValidationResult) :
  results <> [] ->
  _calculate_overall_health results <> UNKNOWN
  /\ (_calculate_overall_health results = CRITICAL
      <-> exists r, r ∈ results /\ severity r = CRITICAL)
  /\ (_calculate_overall_health results = WARNING
      <-> (forall r, r ∈ results -> severity r <> CRITICAL)
          /\ exists r, r ∈ results /\ severity r = WARNING)
  /\ (_calculate_overall_health results = HEALTHY
      <-> forall r, r ∈ results ->
            severity r <> CRITICAL /\ severity r <> WARNING).
Proof.
  intros Hne. unfold _calculate_overall_health.
  destruct results as [|r0 rs]; [contradiction|].
  set (results := r0 :: rs).
  assert (forall h, h ∈ map severity results
                    <-> exists r, r ∈ results /\ severity r = h) as Hsev.
  { intros h. rewrite list_elem_of_fmap. split; intros (r & H1 & H2);
      exists r; split; done. }
  repeat case_bool_decide.
  - split; [discriminate|]. split; [split; [intros _; apply Hsev; assumption | reflexivity]|].
    split; split; try discriminate.
    + intros [Hno _]. apply Hsev in H as (r & Hr & Hc). destruct (Hno r Hr Hc).
    + intros Hall. apply Hsev in H as (r & Hr & Hc).
      destruct (Hall r Hr) as [Hn _]. contradiction.
  - split; [discriminate|]. split; [split; [discriminate|]|].
    + intros Hex. exfalso. apply H. apply Hsev. exact Hex.
    + split; split; try discriminate.
      * intros _. split; [|apply Hsev; assumption].
        intros r Hr Hc. apply H. apply Hsev. exists r. done.
      * reflexivity.
      * intros Hall. apply Hsev in H0 as (r & Hr & Hw).
        destruct (Hall r Hr) as [_ Hn]. contradiction.
  - split; [discriminate|]. split; [split; [discriminate|]|].
    + intros Hex. exfalso. apply H. apply Hsev. exact Hex.
    + split; split; try discriminate.
      * intros [_ Hex]. exfalso. apply H0. apply Hsev. exact Hex.
      * intros _ r Hr. split; intros Hs.
        -- apply H. apply Hsev. exists r. done.
        -- apply H0. apply Hsev. exists r. done.
      * reflexivity.
Qed.

Lemma overall_health_is_worst_severity_witness :
  _calculate_overall_health
    [mk_result true HEALTHY MsgNoMissing [];
     mk_result false WARNING (MsgNegative 1) []] <> UNKNOWN
  /\ (_calculate_overall_health
        [mk_result true HEALTHY MsgNoMissing [];
         mk_result false WARNING (MsgNegative 1) []] = CRITICAL
      <-> exists r, r ∈ [mk_result true HEALTHY MsgNoMissing [];
                         mk_result false WARNING (MsgNegative 1) []]
                    /\ severity r = CRITICAL)
  /\ (_calculate_overall_health
        [mk_result true HEALTHY MsgNoMissing [];
         mk_result false WARNING (MsgNegative 1) []] = WARNING
      <-> (forall r, r ∈ [mk_result true HEALTHY MsgNoMissing [];
                          mk_result false WARNING (MsgNegative 1) []] ->
                     severity r <> CRITICAL)
          /\ exists r, r ∈ [mk_result true HEALTHY MsgNoMissing [];
                            mk_result false WARNING (MsgNegative 1) []]
                       /\ severity r = WARNING)
  /\ (_calculate_overall_health
        [mk_result true HEALTHY MsgNoMissing [];
         mk_result false WARNING (MsgNegative 1) []] = HEALTHY
      <-> forall r, r ∈ [mk_result true HEALTHY MsgNoMissing [];
                         mk_result false WARNING (MsgNegative 1) []] ->
            severity r <> CRITICAL /\ severity r <> WARNING).
Proof.
  apply (overall_health_is_worst_severity
           [mk_result true HEALTHY MsgNoMissing [];
            mk_result false WARNING (MsgNegative 1) []]).
  discriminate.
Defined.

End HealthExtras.

Section SeasonExtras.
Import Py Float pandas data_validator.

Ltac season_order :=
  repeat match goal with
         | H : ltb (Fin _) (Fin _) = true |- _ =>
             unfold ltb in H; apply bool_decide_eq_true in H; unfold Qclt in H
         | H : ltb (Fin _) (Fin _) = false |- _ =>
             unfold ltb in H; apply bool_decide_eq_false in H; unfold Qclt in H
         end;
  unfold leb, ltb; rewrite ?bool_decide_eq_true; unfold Qcle, Qclt;
  try lra; try (cbn in *; lia).

(** X14: when the four seasonal totals are finite, the dominant season has
    the greatest total, and among seasons with that total it is the first
    in the order winter, spring, summer, autumn. *)
Theorem dominant_season_is_maximal (breakdown : SeasonType -> float) :
  (forall s, exists q, breakdown s = Fin q) ->
  (forall s,
     leb (breakdown s) (breakdown (_determine_dominant_season breakdown))
     = true)
  /\ (forall s,
        (season_rank s
         < season_rank (_determine_dominant_season breakdown))%nat ->
        ltb (breakdown s) (breakdown (_determine_dominant_season breakdown))
        = true).
Proof.
  intros Hfin.
  destruct (Hfin WINTER) as (qw & Hw). destruct (Hfin SPRING) as (qp & Hp).
  destruct (Hfin SUMMER) as (qs & Hs). destruct (Hfin AUTUMN) as (qa & Ha).
  unfold _determine_dominant_season. cbn [foldl].
  destruct (ltb (breakdown WINTER) (breakdown SPRING)) eqn:H1;
    [destruct (ltb (breakdown SPRING) (breakdown SUMMER)) eqn:H2
    |destruct (ltb (breakdown WINTER) (breakdown SUMMER)) eqn:H2];
    [destruct (ltb (breakdown SUMMER) (breakdown AUTUMN)) eqn:H3
    |destruct (ltb (breakdown SPRING) (breakdown AUTUMN)) eqn:H3
    |destruct (ltb (breakdown SUMMER) (breakdown AUTUMN)) eqn:H3
    |destruct (ltb (breakdown WINTER) (breakdown AUTUMN)) eqn:H3];
    rewrite ?Hw, ?Hp, ?Hs, ?Ha in *;
    (split; intros []; rewrite ?Hw, ?Hp, ?Hs, ?Ha; try (intros Hr);
     season_order).
Qed.

Lemma dominant_season_is_maximal_witness :
  (forall s,
     leb (breakdown_with_tie s)
         (breakdown_with_tie
            (_determine_dominant_season breakdown_with_tie))
     = true)
  /\ (forall s,
        (season_rank s
         < season_rank (_determine_dominant_season breakdown_with_tie))%nat ->
        ltb (breakdown_with_tie s)
            (breakdown_with_tie
               (_determine_dominant_season breakdown_with_tie))
        = true).
Proof.
  apply (dominant_season_is_maximal breakdown_with_tie).
  intros []; eexists; reflexivity.
Defined.

End SeasonExtras.

Section MeasuredSeries.
Import Py Float pandas data_validator.

Lemma measured_starts (df : DataFrame) :
  measured_series df ->
  getitem df "Kezdo_datum"
  = Ok (map (fun r => CTime (start_of (columns df) r)) (rows df)).
Proof.
  intros (Hk & _ & _ & Hall). rewrite (getitem_Ok _ _ Hk). f_equal.
  apply map_ext_Forall. eapply Forall_impl; [exact Hall|].
  intros r (H & _ & _). exact H.
Qed.

Lemma measured_ends (df : DataFrame) :
  measured_series df ->
  getitem df "Zaro_datum"
  = Ok (map (fun r => CTime (end_of (columns df) r)) (rows df)).
Proof.
  intros (_ & Hz & _ & Hall). rewrite (getitem_Ok _ _ Hz). f_equal.
  apply map_ext_Forall. eapply Forall_impl; [exact Hall|].
  intros r (_ & H & _). exact H.
Qed.

Lemma measured_energies (df : DataFrame) :
  measured_series df ->
  getitem df "Hatasos_ertek_kWh"
  = Ok (map (fun r => CFloat (Fin (energy_of (columns df) r))) (rows df)).
Proof.
  intros (_ & _ & He & Hall). rewrite (getitem_Ok _ _ He). f_equal.
  apply map_ext_Forall. eapply Forall_impl; [exact Hall|].
  intros r (_ & _ & H). exact H.
Qed.

Lemma measured_interval_columns (df : DataFrame) :
  measured_series df -> interval_columns df.
Proof.
  intros (Hk & Hz & _ & Hall). split; [exact Hz|]. split; [exact Hk|].
  eapply Forall_impl; [exact Hall|].
  intros r (Hs & He & _). rewrite Hs, He. split; exact I.
Qed.

Lemma sub_times_stamps {A} (a b : A -> Z) (l : list A) :
  sub_times (map (fun x => CTime (a x)) l) (map (fun x => CTime (b x)) l)
  = Ok (map (fun x => Some (a x - b x)) l).
Proof.
  unfold sub_times. induction l as [|x l IH]; [reflexivity|].
  cbn [map zip zip_with mapM]. rewrite IH. reflexivity.
Qed.

Lemma count_true_none {A} (f : A -> bool) (l : list A) :
  (forall x, f x = false) -> count_true (map f l) = 0.
Proof.
  intros Hf. unfold count_true.
  induction l as [|x l IH]; [reflexivity|].
  cbn [map]. rewrite filter_cons, Hf.
  rewrite decide_False by discriminate. exact IH.
Qed.

Lemma negative_count_measured (df : DataFrame) :
  count_true (map (fun e => ltb e zero)
                  (map (fun r => Fin (energy_of (columns df) r)) (rows df)))
  = negative_energy_rows df.
Proof.
  rewrite map_map.
  apply (count_true_map _ (fun r => (energy_of (columns df) r < 0)%Qc)).
  intros r. reflexivity.
Qed.

Lemma zero_count_measured (df : DataFrame) :
  count_true (map (fun e => eqb e zero)
                  (map (fun r => Fin (energy_of (columns df) r)) (rows df)))
  = zero_energy_rows df.
Proof.
  rewrite map_map.
  apply (count_true_map _ (fun r => energy_of (columns df) r = 0%Qc)).
  intros r. unfold eqb. apply bool_decide_ext. split.
  - intros [= H]. exact H.
  - intros ->. reflexivity.
Qed.

Lemma _extract_basic_statistics_measured (df : DataFrame) :
  measured_series df ->
  exists bs : BasicStats,
    _extract_basic_statistics df = Ok bs
    /\ total_records bs = len df
    /\ negative_count bs = negative_energy_rows df
    /\ zero_count bs = zero_energy_rows df
    /\ total_consumption bs
       = Fin (foldr Qcplus 0%Qc (map (energy_of (columns df)) (rows df)))
    /\ df_work bs = df.
Proof.
  intros Hm. unfold _extract_basic_statistics.
  rewrite (measured_ends df Hm). cbn [mbind Result_bind bind].
  rewrite (measured_starts df Hm). cbn [mbind Result_bind bind].
  rewrite sub_times_stamps. cbn [mbind Result_bind bind].
  rewrite (measured_energies df Hm). cbn [mbind Result_bind bind].
  rewrite to_float_finite. cbn [mbind Result_bind bind].
  rewrite !to_time_stamps. cbn [mbind Result_bind bind].
  eexists. split; [reflexivity|].
  cbn [total_records negative_count zero_count total_consumption df_work].
  split; [reflexivity|]. split; [apply negative_count_measured|].
  split; [apply zero_count_measured|]. split; [|reflexivity].
  rewrite <- (map_map (energy_of (columns df)) Fin). apply sum_Fin.
Qed.

Lemma _validate_data_completeness_measured (df : DataFrame) :
  measured_series df ->
  _validate_data_completeness df
  = Ok [mk_result true HEALTHY MsgNoMissing [("missing_count", DInt 0)]].
Proof.
  intros Hm. unfold _validate_data_completeness.
  rewrite (measured_starts df Hm). cbn [mbind Result_bind bind].
  rewrite (measured_ends df Hm). cbn [mbind Result_bind bind].
  rewrite (measured_energies df Hm). cbn [mbind Result_bind bind].
  rewrite !map_map. rewrite !count_true_none by (intros r; reflexivity).
  reflexivity.
Qed.

Lemma _validate_consumption_values_measured (df : DataFrame) :
  measured_series df ->
  let negative := negative_energy_rows df in
  let zeros := zero_energy_rows df in
  let percentage := mul (div (of_Z zeros) (of_Z (len df))) (of_Z 100) in
  _validate_consumption_values df
  = Ok ((if 0 <? negative
         then [mk_result false WARNING (MsgNegative negative)
                 [("negative_values", DInt negative)]]
         else [])
        ++ (if 0 <? zeros
            then [mk_result (ltb percentage (of_Z 5))
                    (if ltb (of_Z 10) percentage then CRITICAL else WARNING)
                    (MsgZero zeros percentage)
                    [("zero_values", DInt zeros);
                     ("zero_percentage", DFloat percentage)]]
            else [])).
Proof.
  intros Hm. cbn zeta. unfold _validate_consumption_values.
  rewrite (measured_energies df Hm). cbn [mbind Result_bind bind].
  rewrite to_float_finite. cbn [mbind Result_bind bind].
  rewrite negative_count_measured, zero_count_measured.
  destruct (0 <? zero_energy_rows df); [reflexivity|].
  rewrite app_nil_r. reflexivity.
Qed.

Lemma _validate_seasonal_patterns_severity (df : DataFrame)
    (basic_stats : BasicStats) :
  exists r : ValidationResult,
    _validate_seasonal_patterns df basic_stats = Ok [r]
    /\ (severity r = HEALTHY \/ severity r = WARNING).
Proof.
  unfold _validate_seasonal_patterns.
  destruct (_ && _); [eexists; split; [reflexivity | left; reflexivity]|].
  destruct (ltb _ _); eexists; (split; [reflexivity | right; reflexivity]).
Qed.

Lemma _analyze_seasonal_consumption_measured (df : DataFrame)
    (basic_stats : BasicStats) :
  measured_series df ->
  df_work basic_stats = df ->
  exists breakdown, _analyze_seasonal_consumption df basic_stats = Ok breakdown.
Proof.
  intros Hm Hwork. unfold _analyze_seasonal_consumption. rewrite Hwork.
  rewrite (measured_starts df Hm). cbn [mbind Result_bind bind].
  rewrite to_time_stamps. cbn [mbind Result_bind bind].
  rewrite (measured_energies df Hm). cbn [mbind Result_bind bind].
  rewrite to_float_finite. cbn [mbind Result_bind bind].
  eexists. reflexivity.
Qed.

End MeasuredSeries.

Section ReportExtras.
Import Py Float pandas data_validator.

Lemma critical_threshold (zeros n : Z) :
  0 < n ->
  ltb (of_Z 10) (mul (div (of_Z zeros) (of_Z n)) (of_Z 100)) = true
  <-> 10 * n < 100 * zeros.
Proof.
  intros Hn. rewrite percent_of_counts by lia.
  rewrite ltb_of_Z_Q. apply Qlt_Z_div. exact Hn.
Qed.

Ltac not_in_list H :=
  repeat (apply elem_of_cons in H as [H|H]; [discriminate H|]);
  inversion H.

(** X15: on a frame in which every row has both interval ends and a finite
    energy, and which has at least one row, [validate_comprehensive] returns
    a report.  Its counts are those of the frame; its overall health is
    never unknown; it is critical exactly when more than 10% of the rows
    have energy 0; and it is healthy only if no row has zero or negative
    energy and more than 95% of the intervals are standard. *)
Theorem validate_comprehensive_health (self : DataValidator) (df : DataFrame) :
  measured_series df ->
  rows df <> [] ->
  exists report : ComprehensiveReport,
    validate_comprehensive self df = Ok report
    /\ r_total_records report = len df
    /\ r_zero_values report = zero_energy_rows df
    /\ r_negative_values report = negative_energy_rows df
    /\ r_overall_health report <> UNKNOWN
    /\ (r_overall_health report = CRITICAL
        <-> 10 * len df < 100 * zero_energy_rows df)
    /\ (r_overall_health report = HEALTHY ->
        zero_energy_rows df = 0
        /\ negative_energy_rows df = 0
        /\ 95 * len df
           < 100 * (count_bucket Quarter df + count_bucket Hour df)).
Proof.
  intros Hm Hrows.
  assert (0 < len df) as Hpos.
  { unfold len. destruct (rows df); [contradiction | cbn; lia]. }
  assert (len df <> 0) as Hlen by lia.
  assert (0 <= zero_energy_rows df) as Hz0 by (unfold zero_energy_rows; lia).
  assert (0 <= negative_energy_rows df) as Hn0
    by (unfold negative_energy_rows; lia).
  destruct (_extract_basic_statistics_measured df Hm)
    as (bs & Hbs & Htot & Hneg & Hzero & _ & Hwork).
  destruct (_validate_seasonal_patterns_severity df bs) as (r4 & Hr4 & Hs4).
  destruct (_analyze_seasonal_consumption_measured df bs Hm Hwork)
    as (breakdown & Hbreak).
  pose proof (critical_threshold (zero_energy_rows df) (len df) Hpos) as Hcrit.
  unfold validate_comprehensive.
  rewrite Hbs. cbn [mbind Result_bind bind].
  rewrite (_validate_data_completeness_measured df Hm).
  cbn [mbind Result_bind bind].
  rewrite (_validate_consumption_values_measured df Hm).
  cbn [mbind Result_bind bind].
  rewrite (_validate_time_intervals_run df (measured_interval_columns df Hm)
             Hlen).
  cbn [mbind Result_bind bind].
  rewrite Hr4. cbn [mbind Result_bind bind].
  rewrite Hbreak. cbn [mbind Result_bind bind].
  unfold _calculate_consumption_estimates. cbv iota beta.
  eexists. split; [reflexivity|].
  cbn [r_total_records r_zero_values r_negative_values r_overall_health].
  split; [exact Htot|]. split; [exact Hzero|]. split; [exact Hneg|].
  destruct (0 <? negative_energy_rows df) eqn:Hbn;
    destruct (0 <? zero_energy_rows df) eqn:Hbz;
    destruct (ltb (of_Z 10) _) eqn:Hbc;
    case_bool_decide as Hb3;
    destruct Hs4 as [Hs4|Hs4];
    try (apply Z.ltb_lt in Hbn); try (apply Z.ltb_ge in Hbn);
    try (apply Z.ltb_lt in Hbz); try (apply Z.ltb_ge in Hbz);
    unfold _calculate_overall_health; cbn [app map severity]; rewrite Hs4;
    repeat case_bool_decide;
    repeat match goal with
           | H : _ ∈ _ |- _ => solve [not_in_list H]
           | H : ¬ (_ ∈ _) |- _ =>
               solve [exfalso; apply H; repeat first [left | right]]
           end;
    (split; [discriminate|]);
    (split; [split; [try discriminate; intros _; apply Hcrit; reflexivity
                    | try reflexivity; intros Hc;
                      first [apply Hcrit in Hc; discriminate Hc | lia]]
            | try discriminate; intros _; repeat split; lia]).
Qed.

Lemma df_test_measured : measured_series duplicate_handler.df_test.
Proof.
  split; [apply (bool_decide_unpack _); vm_compute; exact I|].
  split; [apply (bool_decide_unpack _); vm_compute; exact I|].
  split; [apply (bool_decide_unpack _); vm_compute; exact I|].
  repeat constructor.
Defined.

Lemma validate_comprehensive_health_witness :
  exists report : ComprehensiveReport,
    validate_comprehensive default_validator duplicate_handler.df_test
    = Ok report
    /\ r_total_records report = len duplicate_handler.df_test
    /\ r_zero_values report = zero_energy_rows duplicate_handler.df_test
    /\ r_negative_values report
       = negative_energy_rows duplicate_handler.df_test
    /\ r_overall_health report <> UNKNOWN
    /\ (r_overall_health report = CRITICAL
        <-> 10 * len duplicate_handler.df_test
            < 100 * zero_energy_rows duplicate_handler.df_test)
    /\ (r_overall_health report = HEALTHY ->
        zero_energy_rows duplicate_handler.df_test = 0
        /\ negative_energy_rows duplicate_handler.df_test = 0
        /\ 95 * len duplicate_handler.df_test
           < 100 * (count_bucket Quarter duplicate_handler.df_test
                    + count_bucket Hour duplicate_handler.df_test)).
Proof.
  apply (validate_comprehensive_health default_validator
           duplicate_handler.df_test).
  - exact df_test_measured.
  - discriminate.
Defined.

End ReportExtras.

(** ** Months, seasons and the seasonal breakdown *)

Section SeasonalBreakdown.
Import Py Float pandas data_validator.







End SeasonalBreakdown.

(** ** The other methods of the duplicate handler *)

Section DistributionExtras.
Import Py Float pandas duplicate_handler data_validator.

Lemma in_daily_class (d : option Z) :
  leb (of_Z 1400) (div (total_seconds d) (of_Z 60))
  && leb (div (total_seconds d) (of_Z 60)) (of_Z 1500)
  = bool_decide (is_daily d = true).
Proof.
  destruct d as [ns|]; [|reflexivity].
  rewrite minutes_lower, minutes_upper. cbn [is_daily].
  destruct (_ && _); reflexivity.
Qed.

(** Every row is in exactly one of the four classes. *)
Lemma classes_partition (df : DataFrame) :
  len df = count_bucket Quarter df + count_bucket Hour df + count_daily df
           + count_unclassified df.
Proof.
  unfold len, count_bucket, count_daily, count_unclassified.
  induction (rows df) as [|r rs IH]; [reflexivity|].
  rewrite !filter_cons. cbn [length].
  assert (bucket (duration df r) <> Other -> is_daily (duration df r) = false)
    as Hdisjoint.
  { unfold bucket, is_daily. destruct (duration df r) as [ns|]; [|done].
    destruct ((14 * Calendar.ns_per_minute <=? ns)
              && (ns <=? 16 * Calendar.ns_per_minute)) eqn:Hq;
      [|destruct ((55 * Calendar.ns_per_minute <=? ns)
                  && (ns <=? 65 * Calendar.ns_per_minute)) eqn:Hh;
        [|done]];
      intros _; apply andb_false_iff; left; apply Z.leb_gt;
      apply andb_prop in Hq || apply andb_prop in Hh;
      repeat match goal with
             | H : _ /\ _ |- _ => destruct H
             | H : (_ <=? _) = true |- _ => apply Z.leb_le in H
             end;
      unfold Calendar.ns_per_minute, Calendar.ns_per_second in *; lia. }
  destruct (bucket (duration df r)) eqn:Hb;
    destruct (is_daily (duration df r)) eqn:Hd;
    try (specialize (Hdisjoint ltac:(discriminate)); discriminate);
    repeat match goal with
           | |- context [decide ?P] =>
               destruct (decide P) as [?|?];
               try discriminate; try contradiction;
               try (exfalso; intuition congruence)
           end;
    cbn [length]; lia.
Qed.

(** X17: [analyze_interval_distribution] counts the rows of about 15
    minutes, about 60 minutes and about 24 hours; "other" is the number of
    rows in none of these classes, so the four counts are non-negative and
    add up to the number of rows.  The first two counts are the ones the
    validator's interval check records. *)
Theorem interval_distribution_counts (df : DataFrame) :
  interval_columns df ->
  analyze_interval_distribution df
  = Ok [("15min", count_bucket Quarter df);
        ("60min", count_bucket Hour df);
        ("24hour", count_daily df);
        ("other", count_unclassified df)]
  /\ 0 <= count_unclassified df
  /\ count_bucket Quarter df + count_bucket Hour df + count_daily df
     + count_unclassified df = len df
  /\ (forall r : ValidationResult,
        _validate_time_intervals df = Ok [r] ->
        ("interval_15min", DInt (count_bucket Quarter df)) ∈ details r
        /\ ("interval_60min", DInt (count_bucket Hour df)) ∈ details r).
Proof.
  intros Hcols. pose proof Hcols as (Hz & Hk & Hcells).
  split; [|split; [unfold count_unclassified; lia|split]].
  - unfold analyze_interval_distribution.
    rewrite (getitem_Ok _ _ Hz). cbn [mbind Result_bind bind].
    rewrite (getitem_Ok _ _ Hk). cbn [mbind Result_bind bind].
    rewrite (sub_times_columns df (rows df) Hcells).
    cbn [mbind Result_bind bind]. rewrite !map_map.
    rewrite (count_true_map _ (fun r => bucket (duration df r) = Quarter))
      by (intros r; apply in_quarter_bucket).
    rewrite (count_true_map _ (fun r => bucket (duration df r) = Hour))
      by (intros r; apply in_hour_bucket).
    rewrite (count_true_map _ (fun r => is_daily (duration df r) = true))
      by (intros r; apply in_daily_class).
    pose proof (classes_partition df) as Hsum.
    unfold count_bucket, count_daily, count_unclassified in *.
    cbv zeta.
    match goal with
    | |- Ok [_; _; _; (_, ?x)] = Ok [_; _; _; (_, ?y)] =>
        replace x with y by lia
    end.
    reflexivity.
  - symmetry. apply classes_partition.
  - intros r Hr.
    destruct (decide (len df = 0)) as [Hzero|Hlen].
    + exfalso. unfold _validate_time_intervals in Hr.
      rewrite (getitem_Ok _ _ Hz), (getitem_Ok _ _ Hk) in Hr.
      cbn [mbind Result_bind bind] in Hr.
      rewrite (sub_times_columns df (rows df) Hcells) in Hr.
      cbn [mbind Result_bind bind] in Hr.
      unfold int_truediv in Hr. rewrite Hzero in Hr. discriminate Hr.
    + rewrite (_validate_time_intervals_run df Hcols Hlen) in Hr.
      injection Hr as <-.
      case_bool_decide; cbn [details]; split; first [left | right; left].
Qed.

Lemma interval_distribution_counts_witness :
  analyze_interval_distribution df_19_of_20
  = Ok [("15min", count_bucket Quarter df_19_of_20);
        ("60min", count_bucket Hour df_19_of_20);
        ("24hour", count_daily df_19_of_20);
        ("other", count_unclassified df_19_of_20)]
  /\ 0 <= count_unclassified df_19_of_20
  /\ count_bucket Quarter df_19_of_20 + count_bucket Hour df_19_of_20
     + count_daily df_19_of_20 + count_unclassified df_19_of_20
     = len df_19_of_20
  /\ (forall r : ValidationResult,
        _validate_time_intervals df_19_of_20 = Ok [r] ->
        ("interval_15min", DInt (count_bucket Quarter df_19_of_20))
        ∈ details r
        /\ ("interval_60min", DInt (count_bucket Hour df_19_of_20))
           ∈ details r).
Proof.
  apply (interval_distribution_counts df_19_of_20).
  split; [apply (bool_decide_unpack _); vm_compute; exact I|].
  split; [apply (bool_decide_unpack _); vm_compute; exact I|].
  repeat constructor.
Defined.

End DistributionExtras.

Section QualityExtras.
Import Py Float pandas duplicate_handler data_validator.

Lemma count_true_bounds (l : list bool) : 0 <= count_true l <= Z.of_nat (length l).
Proof.
  unfold count_true. pose proof (length_filter (fun b => b = true) l). lia.
Qed.

Lemma disjoint_filters {A} (P Q : A -> Prop)
    `{forall x, Decision (P x)} `{forall x, Decision (Q x)} (l : list A) :
  (forall x, P x -> Q x -> False) ->
  (length (filter P l) + length (filter Q l) <= length l)%nat.
Proof.
  intros Hdis. induction l as [|x l IH]; [reflexivity|].
  rewrite !filter_cons.
  destruct (decide (P x)) as [HP|HP], (decide (Q x)) as [HQ|HQ];
    cbn [length]; try lia.
  destruct (Hdis x HP HQ).
Qed.

Lemma negative_and_zero_rows (df : DataFrame) :
  negative_energy_rows df + zero_energy_rows df <= len df.
Proof.
  unfold negative_energy_rows, zero_energy_rows, len.
  pose proof (disjoint_filters
                (fun r => (energy_of (columns df) r < 0)%Qc)
                (fun r => energy_of (columns df) r = 0%Qc) (rows df)) as Hle.
  cbv beta in Hle.
  assert (forall x, (energy_of (columns df) x < 0)%Qc ->
                    energy_of (columns df) x = 0%Qc -> False) as Hdis.
  { intros x Hlt Heq. rewrite Heq in Hlt. exact (Qclt_not_eq _ _ Hlt eq_refl). }
  specialize (Hle Hdis). lia.
Qed.

(** On a measured frame both validators compute, and their figures are the
    same. *)
Lemma quality_report_basic (df : DataFrame) :
  measured_series df ->
  exists (v : ValidationReport) (bs : BasicStats),
    quality_report df = Ok v
    /\ _extract_basic_statistics df = Ok bs
    /\ v_total_records v = total_records bs
    /\ v_negative_consumption v = negative_count bs
    /\ v_zero_consumption v = zero_count bs
    /\ v_extreme_high_consumption v = extreme_count bs
    /\ v_date_range_start v = date_start bs
    /\ v_date_range_end v = date_end bs
    /\ v_total_days v = total_days bs
    /\ v_avg_hourly_consumption v = avg_hourly bs
    /\ v_avg_daily_consumption v = avg_daily bs
    /\ 0 <= v_extreme_high_consumption v <= len df.
Proof.
  intros Hm. unfold quality_report, _extract_basic_statistics.
  rewrite (measured_ends df Hm). cbn [mbind Result_bind bind].
  rewrite (measured_starts df Hm). cbn [mbind Result_bind bind].
  rewrite sub_times_stamps. cbn [mbind Result_bind bind].
  rewrite (measured_energies df Hm). cbn [mbind Result_bind bind].
  rewrite to_float_finite. cbn [mbind Result_bind bind].
  rewrite !to_time_stamps. cbn [mbind Result_bind bind].
  match goal with
  | |- context [count_true (map (fun x => ltb (of_Z 50) x) ?l)] =>
      pose proof (count_true_bounds (map (fun x => ltb (of_Z 50) x) l))
        as Hext;
      assert (Z.of_nat (length (map (fun x => ltb (of_Z 50) x) l)) = len df)
        as Hlen
        by (unfold len; rewrite !length_map, length_zip, !length_map;
            f_equal; lia)
  end.
  rewrite Hlen in Hext.
  destruct (ltb _ (of_Z 2));
    [|destruct (ltb (of_Z 100) _); [|destruct (_ && _)]];
    do 2 eexists; (split; [reflexivity|]); (split; [reflexivity|]);
    cbn [v_total_records v_negative_consumption v_zero_consumption
         v_extreme_high_consumption v_date_range_start v_date_range_end
         v_total_days v_avg_hourly_consumption v_avg_daily_consumption
         total_records negative_count zero_count extreme_count date_start
         date_end total_days avg_hourly avg_daily];
    repeat split; try reflexivity; apply Hext.
Qed.

(** X18: on a frame in which every row has both interval ends and a finite
    energy, and which has at least one row, [validate_data_quality] returns
    a report, keeps it as the handler's last validation and touches neither
    the frames nor the duplication statistics.  Every figure the report
    shares with the report of [validate_comprehensive] is the same in both;
    the rows with negative and with zero energy together, and the rows
    above 50 kWh per hour, are at most the rows of the frame. *)
Theorem validators_agree (validator : DataValidator) (self : Handler)
    (l : loc) (df : DataFrame) :
  heap (objects self) !! l = Some df ->
  measured_series df ->
  rows df <> [] ->
  exists (v : ValidationReport) (self' : Handler)
         (report : ComprehensiveReport),
    validate_data_quality l self = Ok (v, self')
    /\ get_validation_report self' = Some v
    /\ objects self' = objects self
    /\ validate_comprehensive validator df = Ok report
    /\ v_total_records v = r_total_records report
    /\ v_negative_consumption v = r_negative_values report
    /\ v_zero_consumption v = r_zero_values report
    /\ v_extreme_high_consumption v = r_extreme_values report
    /\ v_date_range_start v = r_date_range_start report
    /\ v_date_range_end v = r_date_range_end report
    /\ v_total_days v = r_total_days report
    /\ v_avg_hourly_consumption v = r_avg_hourly_consumption report
    /\ v_avg_daily_consumption v = r_avg_daily_consumption report
    /\ v_total_records v = len df
    /\ v_negative_consumption v + v_zero_consumption v <= v_total_records v
    /\ 0 <= v_extreme_high_consumption v <= v_total_records v.
Proof.
  intros Hl Hm Hrows.
  assert (len df <> 0) as Hlen.
  { unfold len. destruct (rows df); [contradiction | cbn; lia]. }
  destruct (quality_report_basic df Hm)
    as (v & bs & Hv & Hbs & Htot & Hneg & Hzero & Hext & Hs & He & Hd & Hh
        & Hday & Hbound).
  destruct (_extract_basic_statistics_measured df Hm)
    as (bs' & Hbs' & Htot' & Hneg' & Hzero' & _ & Hwork).
  rewrite Hbs in Hbs'. injection Hbs' as <-.
  destruct (_validate_seasonal_patterns_severity df bs) as (r4 & Hr4 & _).
  destruct (_analyze_seasonal_consumption_measured df bs Hm Hwork)
    as (breakdown & Hbreak).
  exists v, (mk_handler (objects self) (Some v)). eexists.
  split; [unfold validate_data_quality; rewrite Hl, Hv; reflexivity|].
  split; [reflexivity|]. split; [reflexivity|].
  split.
  { unfold validate_comprehensive.
    rewrite Hbs. cbn [mbind Result_bind bind].
    rewrite (_validate_data_completeness_measured df Hm).
    cbn [mbind Result_bind bind].
    rewrite (_validate_consumption_values_measured df Hm).
    cbn [mbind Result_bind bind].
    rewrite (_validate_time_intervals_run df
               (measured_interval_columns df Hm) Hlen).
    cbn [mbind Result_bind bind].
    rewrite Hr4. cbn [mbind Result_bind bind].
    rewrite Hbreak. cbn [mbind Result_bind bind].
    unfold _calculate_consumption_estimates. cbv iota beta.
    reflexivity. }
  cbn [r_total_records r_negative_values r_zero_values r_extreme_values
       r_date_range_start r_date_range_end r_total_days
       r_avg_hourly_consumption r_avg_daily_consumption].
  repeat (split; [assumption|]).
  split; [congruence|].
  split; [|rewrite Htot, Htot'; exact Hbound].
  rewrite Hneg, Hzero, Htot, Hneg', Hzero', Htot'.
  apply negative_and_zero_rows.
Qed.

Lemma validators_agree_witness :
  exists (v : ValidationReport) (self' : Handler)
         (report : ComprehensiveReport),
    validate_data_quality 0%nat (mk_handler (mk_world [df_test] None) None)
    = Ok (v, self')
    /\ get_validation_report self' = Some v
    /\ objects self' = mk_world [df_test] None
    /\ validate_comprehensive default_validator df_test = Ok report
    /\ v_total_records v = r_total_records report
    /\ v_negative_consumption v = r_negative_values report
    /\ v_zero_consumption v = r_zero_values report
    /\ v_extreme_high_consumption v = r_extreme_values report
    /\ v_date_range_start v = r_date_range_start report
    /\ v_date_range_end v = r_date_range_end report
    /\ v_total_days v = r_total_days report
    /\ v_avg_hourly_consumption v = r_avg_hourly_consumption report
    /\ v_avg_daily_consumption v = r_avg_daily_consumption report
    /\ v_total_records v = len df_test
    /\ v_negative_consumption v + v_zero_consumption v <= v_total_records v
    /\ 0 <= v_extreme_high_consumption v <= v_total_records v.
Proof.
  apply (validators_agree default_validator
           (mk_handler (mk_world [df_test] None) None) 0%nat df_test).
  - reflexivity.
  - exact df_test_measured.
  - discriminate.
Defined.

End QualityExtras.

Section QuickRemoval.
Import Py Float pandas duplicate_handler data_validator.

Lemma measured_series_resolved (df : DataFrame) (keep : string) :
  measured_series df -> measured_series (resolved df keep).
Proof.
  intros (Hk & Hz & He & Hall). unfold measured_series.
  rewrite resolved_columns. repeat (split; [assumption|]).
  rewrite Forall_forall in Hall |- *. intros r Hr. apply Hall.
  eapply elem_of_sublist; [exact Hr | apply resolved_sublist].
Qed.

Lemma deduplicated_nonempty (df : DataFrame) (subset : list string)
    (keep : string) :
  rows df <> [] -> rows (deduplicated df subset keep) <> [].
Proof.
  intros Hrows Hnil. destruct (rows df) as [|r rs] eqn:Hr; [contradiction|].
  assert (r ∈ rows df) as Hin by (rewrite Hr; left).
  apply (deduplicated_covers df subset keep) in Hin.
  rewrite Hnil in Hin. inversion Hin.
Qed.

Lemma resolved_nonempty (df : DataFrame) (keep : string) :
  rows df <> [] -> rows (resolved df keep) <> [].
Proof.
  intros Hrows. unfold resolved. destruct (decide _);
    repeat apply deduplicated_nonempty; exact Hrows.
Qed.

(** X19: [quick_duplicate_removal] returns the frame [remove_duplicates]
    arrives at, as a new frame beside the ones that exist, and the
    validation it runs by default has no effect on what is returned.  The
    result of a frame with rows has rows, and stays a frame the validation
    can read. *)
Theorem quick_duplicate_removal_result (frames : list DataFrame) (l : loc)
    (df : DataFrame) (keep : string) :
  frames !! l = Some df ->
  measured_series df ->
  rows df <> [] ->
  keep = "first" \/ keep = "last" ->
  exists (l' : loc) (frames' : list DataFrame),
    (forall validate : bool,
       quick_duplicate_removal l keep validate frames = Ok (l', frames'))
    /\ frames' !! l' = Some (resolved df keep)
    /\ frames `prefix_of` frames'
    /\ (length frames <= l')%nat
    /\ rows (resolved df keep) <> []
    /\ measured_series (resolved df keep).
Proof.
  intros Hl Hm Hrows Hkeep.
  destruct (remove_duplicates_run (mk_world frames None) l df keep true
              Hl Hkeep) as (l' & extra & Hrun & Hout & Hfresh).
  cbn [heap] in Hrun, Hout, Hfresh.
  pose proof (measured_series_resolved df keep Hm) as Hm'.
  destruct (quality_report_basic (resolved df keep) Hm')
    as (v & _ & Hv & _).
  exists l', (frames ++ extra).
  split; [|split; [exact Hout|split; [eexists; reflexivity|]]].
  - intros validate. unfold quick_duplicate_removal.
    cbn [objects last_validation]. rewrite Hrun.
    destruct validate; [|reflexivity].
    unfold validate_data_quality. cbn [objects heap].
    rewrite Hout, Hv. reflexivity.
  - split; [exact Hfresh|].
    split; [apply resolved_nonempty, Hrows | exact Hm'].
Qed.

Lemma quick_duplicate_removal_result_witness :
  exists (l' : loc) (frames' : list DataFrame),
    (forall validate : bool,
       quick_duplicate_removal 0%nat "last" validate [df_test]
       = Ok (l', frames'))
    /\ frames' !! l' = Some (resolved df_test "last")
    /\ [df_test] `prefix_of` frames'
    /\ (length [df_test] <= l')%nat
    /\ rows (resolved df_test "last") <> []
    /\ measured_series (resolved df_test "last").
Proof.
  apply (quick_duplicate_removal_result [df_test] 0%nat df_test "last").
  - reflexivity.
  - exact df_test_measured.
  - discriminate.
  - right. reflexivity.
Defined.

End QuickRemoval.

(** ** Seasonal bounds *)

Section BoundsExtras.
Import Py Float pandas data_validator.

Lemma leb_trans (a b c : float) :
  leb a b = true -> leb b c = true -> leb a c = true.
Proof.
  destruct a as [x| | |], b as [y| | |], c as [z| | |]; cbn;
    try discriminate; try reflexivity.
  rewrite !bool_decide_eq_true. apply Qcle_trans.
Qed.

(** X20: the seasonal check of the comprehensive validation is
    [validate_consumption_bounds] at the average daily consumption and the
    season of the middle of the period: same verdict, same severity, the
    corresponding message, and every detail of the latter is a detail of
    the former. *)
Theorem seasonal_check_is_bounds_check (df : DataFrame)
    (basic_stats : BasicStats) :
  let season :=
    _get_season_for_period (date_start basic_stats) (date_end basic_stats) in
  let bounds_result :=
    validate_consumption_bounds (avg_daily basic_stats) season in
  exists r : ValidationResult,
    _validate_seasonal_patterns df basic_stats = Ok [r]
    /\ is_valid r = b_is_valid bounds_result
    /\ severity r = b_severity bounds_result
    /\ (message r = MsgSeasonOk season
        <-> b_message bounds_result = MsgNormal season)
    /\ (message r = MsgSeasonBelow season
        <-> b_message bounds_result = MsgLow season)
    /\ (message r = MsgSeasonAbove season
        <-> b_message bounds_result = MsgHigh season)
    /\ (forall d, d ∈ b_details bounds_result -> d ∈ details r).
Proof.
  cbv zeta. unfold _validate_seasonal_patterns, validate_consumption_bounds.
  destruct (_ && _);
    [|destruct (ltb _ _)];
    (eexists; split; [reflexivity|]);
    cbn [is_valid severity message details b_is_valid b_severity b_message
         b_details];
    repeat split; try discriminate; try reflexivity;
    intros d Hd;
    repeat (apply elem_of_cons in Hd as [->|Hd];
            [repeat first [left | right; left]; fail|]);
    try (inversion Hd).
Qed.

(** X21: what the table of seasonal bounds accepts.  A daily average
    between 15 and 25 kWh is valid in every season; a daily average that is
    valid in some season lies between 3 and 80 kWh; and whatever is not
    valid is a warning, never critical.  An average that is not a number is
    reported as high consumption in every season. *)
Theorem consumption_bounds_range (avg_daily : float) :
  (leb (of_Z 15) avg_daily && leb avg_daily (of_Z 25) = true ->
   forall season,
     b_is_valid (validate_consumption_bounds avg_daily season) = true)
  /\ ((exists season,
         b_is_valid (validate_consumption_bounds avg_daily season) = true) ->
      leb (of_Z 3) avg_daily && leb avg_daily (of_Z 80) = true)
  /\ (forall season,
        b_is_valid (validate_consumption_bounds avg_daily season) = false ->
        b_severity (validate_consumption_bounds avg_daily season) = WARNING)
  /\ (forall season,
        isnan avg_daily = true ->
        b_message (validate_consumption_bounds avg_daily season)
        = MsgHigh season).
Proof.
  split; [|split; [|split]].
  - intros H season. apply andb_prop in H as [Hlo Hhi].
    unfold validate_consumption_bounds.
    assert (leb (min_daily_kwh (seasonal_bounds season)) avg_daily = true)
      as ->
      by (apply (leb_trans _ (of_Z 15)); [destruct season; reflexivity|exact Hlo]).
    assert (leb avg_daily (max_daily_kwh (seasonal_bounds season)) = true)
      as ->
      by (apply (leb_trans _ (of_Z 25)); [exact Hhi|destruct season; reflexivity]).
    reflexivity.
  - intros [season Hvalid]. unfold validate_consumption_bounds in Hvalid.
    destruct (_ && _) eqn:Hin; [|destruct (ltb _ _); discriminate Hvalid].
    apply andb_prop in Hin as [Hlo Hhi]. apply andb_true_intro. split.
    + apply (leb_trans _ (min_daily_kwh (seasonal_bounds season)));
        [destruct season; reflexivity | exact Hlo].
    + apply (leb_trans _ (max_daily_kwh (seasonal_bounds season)));
        [exact Hhi | destruct season; reflexivity].
  - intros season. unfold validate_consumption_bounds.
    destruct (_ && _); [discriminate|]. destruct (ltb _ _); reflexivity.
  - intros season Hnan. destruct avg_daily; try discriminate Hnan.
    destruct season; reflexivity.
Qed.

End BoundsExtras.

(** ** Reading the input files *)

Section LoaderExtras.
Import Py pandas file_processor.

Lemma accepted_spec (df : DataFrame) :
  accepted df = true <-> rows df <> [] /\ (5 < length (columns df))%nat.
Proof.
  unfold accepted, empty. rewrite andb_true_iff, negb_true_iff, Z.ltb_lt.
  destruct (columns df) as [|c cs], (rows df) as [|r rs]; cbn [length];
    split; intros [H1 H2]; try discriminate; try contradiction;
    try (split; [discriminate|lia]); try (split; [reflexivity|lia]); try lia.
Qed.

Lemma try_encodings_Some (read_csv : string -> Result DataFrame)
    (encs : list string) (df : DataFrame) :
  try_encodings read_csv encs = Some df ->
  exists (before after : list string) (enc : string),
    encs = before ++ enc :: after
    /\ read_csv enc = Ok df
    /\ accepted df = true
    /\ (forall e d, e ∈ before -> read_csv e = Ok d -> accepted d = false).
Proof.
  induction encs as [|enc rest IH]; [discriminate|].
  cbn [try_encodings]. destruct (read_csv enc) as [d|e] eqn:Hread.
  - destruct (accepted d) eqn:Hacc.
    + intros [= <-]. exists [], rest, enc.
      split; [reflexivity|]. split; [exact Hread|]. split; [exact Hacc|].
      intros e d' He. inversion He.
    + intros Hrest.
      destruct (IH Hrest) as (before & after & enc' & -> & Hok & Ha & Hb).
      exists (enc :: before), after, enc'.
      split; [reflexivity|]. split; [exact Hok|]. split; [exact Ha|].
      intros e d' He Hd'. apply elem_of_cons in He as [->|He].
      * rewrite Hread in Hd'. injection Hd' as <-. exact Hacc.
      * exact (Hb e d' He Hd').
  - intros Hrest.
    destruct (IH Hrest) as (before & after & enc' & -> & Hok & Ha & Hb).
    exists (enc :: before), after, enc'.
    split; [reflexivity|]. split; [exact Hok|]. split; [exact Ha|].
    intros e' d' He Hd'. apply elem_of_cons in He as [->|He].
    + rewrite Hread in Hd'. discriminate Hd'.
    + exact (Hb e' d' He Hd').
Qed.

Lemma try_encodings_None (read_csv : string -> Result DataFrame)
    (encs : list string) :
  try_encodings read_csv encs = None
  <-> (forall e d, e ∈ encs -> read_csv e = Ok d -> accepted d = false).
Proof.
  induction encs as [|enc rest IH]; cbn [try_encodings].
  - split; [|reflexivity]. intros _ e d He. inversion He.
  - destruct (read_csv enc) as [d|e] eqn:Hread.
    + destruct (accepted d) eqn:Hacc.
      * split; [discriminate|]. intros H.
        specialize (H enc d ltac:(left) Hread). congruence.
      * rewrite IH. split.
        -- intros H e d' He Hd'. apply elem_of_cons in He as [->|He].
           ++ congruence.
           ++ exact (H e d' He Hd').
        -- intros H e d' He. apply H. right. exact He.
    + rewrite IH. split.
      * intros H e' d' He Hd'. apply elem_of_cons in He as [->|He].
        -- congruence.
        -- exact (H e' d' He Hd').
      * intros H e' d' He. apply H. right. exact He.
Qed.

(** X22: a frame [load_csv_file] returns is what [read_csv] gave under one
    of the four encodings; it has at least one row and more than five
    columns; and under every encoding tried before, reading either raised
    or gave a frame without rows or with at most five columns. *)
Theorem load_csv_file_first_accepted (read_csv : string -> Result DataFrame)
    (df : DataFrame) :
  load_csv_file read_csv = Some df ->
  exists (before after : list string) (enc : string),
    encodings = before ++ enc :: after
    /\ read_csv enc = Ok df
    /\ rows df <> []
    /\ (5 < length (columns df))%nat
    /\ (forall e d,
          e ∈ before -> read_csv e = Ok d ->
          rows d = [] \/ (length (columns d) <= 5)%nat).
Proof.
  intros Hload.
  destruct (try_encodings_Some read_csv encodings df Hload)
    as (before & after & enc & Henc & Hok & Hacc & Hbefore).
  exists before, after, enc. apply accepted_spec in Hacc as [Hrows Hcols].
  repeat (split; [assumption|]).
  intros e d He Hd. specialize (Hbefore e d He Hd).
  destruct (rows d) as [|r rs] eqn:Hr; [left; reflexivity|].
  right. destruct (decide (length (columns d) <= 5)%nat) as [|Hgt];
    [assumption|].
  assert (accepted d = true) as Ht
    by (apply accepted_spec; rewrite Hr; split; [discriminate|lia]).
  congruence.
Qed.

Lemma load_csv_file_first_accepted_witness :
  exists (before after : list string) (enc : string),
    encodings = before ++ enc :: after
    /\ read_latin2 enc = Ok df_six_columns
    /\ rows df_six_columns <> []
    /\ (5 < length (columns df_six_columns))%nat
    /\ (forall e d,
          e ∈ before -> read_latin2 e = Ok d ->
          rows d = [] \/ (length (columns d) <= 5)%nat).
Proof.
  apply (load_csv_file_first_accepted read_latin2 df_six_columns).
  reflexivity.
Defined.

(** X23: [load_csv_file] returns [None] exactly when under each of the four
    encodings reading raises or gives a frame without rows or with at most
    five columns.  So a file that parses to five columns, the five the
    pipeline asks for and no other, is never loaded. *)
Theorem load_csv_file_none (read_csv : string -> Result DataFrame) :
  (load_csv_file read_csv = None
   <-> (forall e d,
          e ∈ encodings -> read_csv e = Ok d ->
          rows d = [] \/ (length (columns d) <= 5)%nat))
  /\ (forall df : DataFrame,
        (length (columns df) <= 5)%nat ->
        load_csv_file (fun _ => Ok df) = None).
Proof.
  assert (forall d, accepted d = false
                    <-> rows d = [] \/ (length (columns d) <= 5)%nat) as Hrej.
  { intros d. rewrite <- not_true_iff_false, accepted_spec. split.
    - intros Hn. destruct (rows d) as [|r rs]; [left; reflexivity|].
      right. destruct (decide (length (columns d) <= 5)%nat) as [|Hgt];
        [assumption|]. exfalso. apply Hn. split; [discriminate|lia].
    - intros [Hr|Hc] [Hrows Hcols]; [contradiction|lia]. }
  assert (forall read, load_csv_file read = None
            <-> (forall e d, e ∈ encodings -> read e = Ok d ->
                   rows d = [] \/ (length (columns d) <= 5)%nat)) as Hnone.
  { intros read. unfold load_csv_file. rewrite try_encodings_None.
    split; intros H e d He Hd; apply Hrej, (H e d He Hd). }
  split; [apply Hnone|].
  intros df Hcols. apply Hnone. intros e d _ [= <-]. right. exact Hcols.
Qed.

End LoaderExtras.
